(** * SRE-skills-bench, terraform generation benchmark: the execution engine

    A shallow embedding of the three parts of the benchmark that the
    specification calls its core:

    - [Generator]: [TerraformGenerator.extract_code_blocks]
      (terraform_generator.py), with the fragment of Python's [re] module
      that its patterns use ([Re]);
    - [Checks]: [run_checks] and the checkers of runner/checks.py;
    - [RunTask]: [TaskRunner._run_terraform] and [TaskRunner.run]
      (runner/run_task.py).

    Conventions.  A Python [str] is a [string]; its characters are the code
    points below 256 (Latin-1), which is what an [ascii] holds.  A [dict] is
    an association list in insertion order, assignment to an existing key
    keeps the key's position.  Everything outside the process (the terraform
    binary, LocalStack, boto3) is a field of a record that the modelled
    function receives. *)

From Stdlib Require Import Bool Arith ZArith List String Ascii Lia.
From Stdlib Require Import Numbers.DecimalString.
Import ListNotations.

Local Open Scope list_scope.
Local Open Scope string_scope.

(* ================================================================== *)
(** * Python built-ins *)
(* ================================================================== *)

Module Py.

Definition LF : ascii := ascii_of_nat 10.
Definition nl : string := String LF EmptyString.

(** [str(n)] for an [int]. *)
Definition str_of_Z (z : Z) : string := NilEmpty.string_of_int (Z.to_int z).
Definition str_of_nat (n : nat) : string := str_of_Z (Z.of_nat n).

(** [s.startswith(p)] *)
Fixpoint startswith (s p : string) : bool :=
  match p, s with
  | EmptyString, _ => true
  | String a p', String b s' => Ascii.eqb a b && startswith s' p'
  | String _ _, EmptyString => false
  end.

(** [needle in hay] on strings *)
Fixpoint contains (needle hay : string) : bool :=
  if startswith hay needle then true
  else match hay with
       | EmptyString => false
       | String _ hay' => contains needle hay'
       end.

(** [c.lower()] on the code points below 256: A-Z and the capitals
    U+00C0..U+00DE, the multiplication sign U+00D7 apart. *)
Definition lower_char (c : ascii) : ascii :=
  let n := nat_of_ascii c in
  if (Nat.leb 65 n && Nat.leb n 90)
     || (Nat.leb 192 n && Nat.leb n 222 && negb (Nat.eqb n 215))
  then ascii_of_nat (n + 32) else c.

Fixpoint lower (s : string) : string :=
  match s with
  | EmptyString => EmptyString
  | String c s' => String (lower_char c) (lower s')
  end.

(** [x in l] for a tuple or list of strings *)
Definition mem (x : string) (l : list string) : bool :=
  existsb (String.eqb x) l.

(** ** dict *)

Definition dict (V : Type) := list (string * V).

Fixpoint get {V} (d : dict V) (k : string) : option V :=
  match d with
  | [] => None
  | (k', v) :: d' => if String.eqb k k' then Some v else get d' k
  end.

(** [d[k] = v] *)
Fixpoint set {V} (d : dict V) (k : string) (v : V) : dict V :=
  match d with
  | [] => [(k, v)]
  | (k', v') :: d' =>
      if String.eqb k k' then (k', v) :: d' else (k', v') :: set d' k v
  end.

Definition keys {V} (d : dict V) : list string := map fst d.

(** [d.get(k, default)] *)
Definition get_default {V} (d : dict V) (k : string) (default : V) : V :=
  match get d k with Some v => v | None => default end.

End Py.

(* ================================================================== *)
(** * The fragment of Python's [re] that terraform_generator.py uses *)
(* ================================================================== *)

Module Re.

Record Flags := { DOTALL : bool; IGNORECASE : bool; MULTILINE : bool }.

Definition no_flags := {| DOTALL := false; IGNORECASE := false; MULTILINE := false |}.

Definition code_in (lo hi : nat) (c : ascii) : bool :=
  Nat.leb lo (nat_of_ascii c) && Nat.leb (nat_of_ascii c) hi.

(** [\s] and [str.isspace] below 256: tab to carriage return, the four
    separators U+001C..U+001F, space, U+0085 and U+00A0. *)
Definition is_space (c : ascii) : bool :=
  code_in 9 13 c || code_in 28 32 c
  || Nat.eqb (nat_of_ascii c) 133 || Nat.eqb (nat_of_ascii c) 160.

(** [\w] below 256: letters, digits and the underscore of ASCII, and the
    alphanumeric code points of Latin-1. *)
Definition is_word (c : ascii) : bool :=
  code_in 48 57 c || code_in 65 90 c || code_in 97 122 c
  || Nat.eqb (nat_of_ascii c) 95
  || Nat.eqb (nat_of_ascii c) 170 || Nat.eqb (nat_of_ascii c) 181
  || Nat.eqb (nat_of_ascii c) 186
  || code_in 178 179 c || Nat.eqb (nat_of_ascii c) 185 || code_in 188 190 c
  || code_in 192 214 c || code_in 216 246 c || code_in 248 255 c.

Inductive CharSet :=
| Word                         (* \w *)
| Space                        (* \s *)
| Dot                          (* . *)
| Chr (c : ascii)              (* a character *)
| Either (a b : CharSet).      (* [ab] *)

Definition same_char (fl : Flags) (a b : ascii) : bool :=
  if IGNORECASE fl then Ascii.eqb (Py.lower_char a) (Py.lower_char b)
  else Ascii.eqb a b.

Fixpoint member (fl : Flags) (cs : CharSet) (c : ascii) : bool :=
  match cs with
  | Word => is_word c
  | Space => is_space c
  | Dot => DOTALL fl || negb (Ascii.eqb c Py.LF)
  | Chr a => same_char fl a c
  | Either a b => member fl a c || member fl b c
  end.

Inductive Regex :=
| Lit (s : string)                              (* literal text *)
| Many (cs : CharSet) (min : nat) (lazy : bool) (* cs*, cs+ and cs*? *)
| Maybe (r : Regex)                             (* r? *)
| Seq (r1 r2 : Regex)
| Alt (r1 r2 : Regex)
| Group (n : nat) (r : Regex)                   (* the n-th ( ) *)
| Ahead (r : Regex)                             (* (?=r) *)
| Bol                                           (* ^ *)
| Eol.                                          (* $ *)

Definition seq (rs : list Regex) : Regex := fold_right Seq (Lit "") rs.
Fixpoint alt (r : Regex) (rs : list Regex) : Regex :=
  match rs with
  | [] => r
  | r' :: rs' => Alt r (alt r' rs')
  end.

(** Where the matcher stands: the character before it, the text after
    it, and the groups closed so far. *)
Record State := { prev : option ascii; rest : string; groups : list (nat * string) }.

Definition at_bol (fl : Flags) (st : State) : bool :=
  match prev st with
  | None => true
  | Some c => MULTILINE fl && Ascii.eqb c Py.LF
  end.

Definition at_eol (fl : Flags) (st : State) : bool :=
  match rest st with
  | EmptyString => true
  | String c EmptyString => Ascii.eqb c Py.LF
  | String c _ => MULTILINE fl && Ascii.eqb c Py.LF
  end.

Fixpoint eat (fl : Flags) (lit : string) (p : option ascii) (s : string)
  : option (option ascii * string) :=
  match lit with
  | EmptyString => Some (p, s)
  | String a lit' =>
      match s with
      | String c s' => if same_char fl a c then eat fl lit' (Some c) s' else None
      | EmptyString => None
      end
  end.

(** [cs*] and [cs+]: as many as possible first. *)
Fixpoint greedy (ok : ascii -> bool) (min : nat) (p : option ascii) (s : string)
         (g : list (nat * string)) (k : State -> option State) : option State :=
  let stop := if Nat.eqb min 0 then k {| prev := p; rest := s; groups := g |} else None in
  match s with
  | String c s' =>
      if ok c then
        match greedy ok (Nat.pred min) (Some c) s' g k with
        | Some st => Some st
        | None => stop
        end
      else stop
  | EmptyString => stop
  end.

(** [cs*?]: as few as possible first. *)
Fixpoint lazily (ok : ascii -> bool) (min : nat) (p : option ascii) (s : string)
         (g : list (nat * string)) (k : State -> option State) : option State :=
  match (if Nat.eqb min 0 then k {| prev := p; rest := s; groups := g |} else None) with
  | Some st => Some st
  | None =>
      match s with
      | String c s' => if ok c then lazily ok (Nat.pred min) (Some c) s' g k else None
      | EmptyString => None
      end
  end.

(** the text between two positions of the same string *)
Definition consumed (from to : State) : string :=
  substring 0 (String.length (rest from) - String.length (rest to)) (rest from).

Definition close_group (n : nat) (from to : State) : State :=
  {| prev := prev to; rest := rest to;
     groups := (n, consumed from to) :: groups to |}.

(** The backtracking matcher: [exec fl r st k] tries the ways [r]
    matches at [st] in the order of [re] and gives the first one that
    the rest of the pattern, [k], accepts. *)
Fixpoint exec (fl : Flags) (r : Regex) (st : State) (k : State -> option State)
  : option State :=
  match r with
  | Lit s =>
      match eat fl s (prev st) (rest st) with
      | Some (p, s') => k {| prev := p; rest := s'; groups := groups st |}
      | None => None
      end
  | Many cs min lazy =>
      (if lazy then lazily else greedy) (member fl cs) min (prev st) (rest st) (groups st) k
  | Maybe r' =>
      match exec fl r' st k with
      | Some st' => Some st'
      | None => k st
      end
  | Seq r1 r2 => exec fl r1 st (fun st' => exec fl r2 st' k)
  | Alt r1 r2 =>
      match exec fl r1 st k with
      | Some st' => Some st'
      | None => exec fl r2 st k
      end
  | Group n r' => exec fl r' st (fun st' => k (close_group n st st'))
  | Ahead r' =>
      match exec fl r' st Some with
      | Some _ => k st
      | None => None
      end
  | Bol => if at_bol fl st then k st else None
  | Eol => if at_eol fl st then k st else None
  end.

(** A match object: the text skipped before the match, the match, its
    groups, and where it ends. *)
Record Match := {
  skipped : string;
  matched : string;
  stop : State
}.

(** [m.group(n)] *)
Fixpoint assoc (n : nat) (g : list (nat * string)) : option string :=
  match g with
  | [] => None
  | (n', s) :: g' => if Nat.eqb n n' then Some s else assoc n g'
  end.
Definition group (m : Match) (n : nat) : option string := assoc n (groups (stop m)).

Definition match_here (fl : Flags) (r : Regex) (p : option ascii) (s : string)
  : option Match :=
  let st := {| prev := p; rest := s; groups := [] |} in
  match exec fl r st Some with
  | Some st' => Some {| skipped := ""; matched := consumed st st'; stop := st' |}
  | None => None
  end.

(** the leftmost match at or after a position *)
Fixpoint scan (fl : Flags) (r : Regex) (p : option ascii) (s : string) : option Match :=
  match match_here fl r p s with
  | Some m => Some m
  | None =>
      match s with
      | String c s' =>
          match scan fl r (Some c) s' with
          | Some m => Some {| skipped := String c (skipped m); matched := matched m;
                              stop := stop m |}
          | None => None
          end
      | EmptyString => None
      end
  end.

(** [re.match(r, s, fl)] and [re.search(r, s, fl)] *)
Definition match_ (fl : Flags) (r : Regex) (s : string) : option Match :=
  match_here fl r None s.
Definition search (fl : Flags) (r : Regex) (s : string) : option Match :=
  scan fl r None s.

Definition after (pre : string) (m : Match) : Match :=
  {| skipped := pre ++ skipped m; matched := matched m; stop := stop m |}.

(** The matches from a position on, left to right and not overlapping,
    and the text after the last one; [pre] is text already passed that
    belongs to no match.  After an empty match the search goes on one
    character later.  Every round takes at least one character, so a
    [fuel] above the length of the text is never used up. *)
Fixpoint matches_from (fuel : nat) (fl : Flags) (r : Regex) (pre : string)
         (p : option ascii) (s : string) : list Match * string :=
  match fuel with
  | 0 => ([], pre ++ s)
  | S fuel' =>
      match scan fl r p s with
      | None => ([], pre ++ s)
      | Some m =>
          match matched m, rest (stop m) with
          | EmptyString, EmptyString => ([after pre m], "")
          | EmptyString, String c s' =>
              let (ms, tail) := matches_from fuel' fl r (String c "") (Some c) s' in
              (after pre m :: ms, tail)
          | _, _ =>
              let (ms, tail) :=
                matches_from fuel' fl r "" (prev (stop m)) (rest (stop m)) in
              (after pre m :: ms, tail)
          end
      end
  end.

(** [re.finditer(r, s, fl)] *)
Definition finditer (fl : Flags) (r : Regex) (s : string) : list Match :=
  fst (matches_from (S (String.length s)) fl r "" None s).

(** [re.split(r, s)], for a pattern without groups *)
Definition split (fl : Flags) (r : Regex) (s : string) : list string :=
  let (ms, tail) := matches_from (S (String.length s)) fl r "" None s in
  (map skipped ms ++ [tail])%list.

(** [re.sub(r, '', s, flags=fl)] *)
Definition remove (fl : Flags) (r : Regex) (s : string) : string :=
  String.concat "" (split fl r s).

(** ** Vocabulary for statements about the engine *)

(** every character of [s] is in the class *)
Fixpoint all_chars (ok : ascii -> bool) (s : string) : bool :=
  match s with
  | EmptyString => true
  | String c s' => ok c && all_chars ok s'
  end.


(** the character before the position once [s] has been passed *)
Fixpoint last_or (p : option ascii) (s : string) : option ascii :=
  match s with
  | EmptyString => p
  | String c s' => last_or (Some c) s'
  end.

End Re.

(* ================================================================== *)
(** * terraform_generator.py *)
(* ================================================================== *)

Module Generator.

Import Re.

Definition fence : string := "```".
Definition stars : string := "**".

(** [s.strip()] *)
Fixpoint lstrip (s : string) : string :=
  match s with
  | String c s' => if is_space c then lstrip s' else s
  | EmptyString => EmptyString
  end.
Fixpoint rstrip (s : string) : string :=
  match s with
  | String c s' =>
      match rstrip s' with
      | EmptyString => if is_space c then EmptyString else String c EmptyString
      | t => String c t
      end
  | EmptyString => EmptyString
  end.
Definition strip (s : string) : string := rstrip (lstrip s).

(** [s.endswith(p)] *)
Definition endswith (s p : string) : bool :=
  Nat.leb (String.length p) (String.length s)
  && String.eqb (substring (String.length s - String.length p) (String.length p) s) p.

(** truth value of a string *)
Definition nonempty (s : string) : bool := negb (String.eqb s "").

(** [s.split('\n')[0]] and ['\n'.join(s.split('\n')[1:])] *)
Fixpoint first_line (s : string) : string :=
  match s with
  | String c s' => if Ascii.eqb c Py.LF then "" else String c (first_line s')
  | EmptyString => ""
  end.
Fixpoint after_first_line (s : string) : string :=
  match s with
  | String c s' => if Ascii.eqb c Py.LF then s' else after_first_line s'
  | EmptyString => ""
  end.

Definition DOTALL_IGNORECASE :=
  {| DOTALL := true; IGNORECASE := true; MULTILINE := false |}.
Definition DOTALL_IGNORECASE_MULTILINE :=
  {| DOTALL := true; IGNORECASE := true; MULTILINE := true |}.
Definition IGNORECASE_only :=
  {| DOTALL := false; IGNORECASE := true; MULTILINE := false |}.
Definition MULTILINE_only :=
  {| DOTALL := false; IGNORECASE := false; MULTILINE := true |}.

(** [\w+\.tf] *)
Definition tf_name : Regex := Seq (Many Word 1 false) (Lit ".tf").
(** [[:\s]*] *)
Definition colon_or_space : Regex := Many (Either (Chr ":") Space) 0 false.
(** [(.*?)] as group [n] *)
Definition body (n : nat) : Regex := Group n (Many Dot 0 true).
(** [(?:terraform|hcl)?] *)
Definition language : Regex := Maybe (Alt (Lit "terraform") (Lit "hcl")).
(** [(?:##?\s+)?] *)
Definition hashes : Regex := Maybe (seq [Lit "#"; Maybe (Lit "#"); Many Space 1 false]).
(** [(?:File:?\s* )?] (the blank keeps the comment open) *)
Definition file_word : Regex := Maybe (seq [Lit "File"; Maybe (Lit ":"); Many Space 0 false]).

(** [r'```(?:(\w+\.tf)|terraform|hcl)?\s*\n(.*?)```'] *)
Definition pattern1 : Regex :=
  seq [ Lit fence;
        Maybe (alt (Group 1 tf_name) [Lit "terraform"; Lit "hcl"]);
        Many Space 0 false; Lit Py.nl; body 2; Lit fence ].

(** [r'\*\*(\w+\.tf)\*\*[:\s]*\n```(?:terraform|hcl)?\s*\n(.*?)```'] and
    [r'\*\*(\w+\.tf)\*\*[:\s]*\n(.*?)(?=\n\*\*\w+\.tf\*\*|$)'] *)
Definition bold_patterns : list Regex :=
  [ seq [ Lit stars; Group 1 tf_name; Lit stars; colon_or_space; Lit Py.nl;
          Lit fence; language; Many Space 0 false; Lit Py.nl; body 2; Lit fence ];
    seq [ Lit stars; Group 1 tf_name; Lit stars; colon_or_space; Lit Py.nl; body 2;
          Ahead (Alt (seq [Lit Py.nl; Lit stars; tf_name; Lit stars]) Eol) ] ].

(** [r'^\*\*\w+\.tf\*\*$'] and [r'^\*\*\w+\.tf\*\*'] *)
Definition only_a_header : Regex := seq [Bol; Lit stars; tf_name; Lit stars; Eol].
Definition header_first : Regex := seq [Bol; Lit stars; tf_name; Lit stars].

(** [r'^```.*?\n'], [r'\n```$'], [r'^\*\*.*?\*\*'], [r'^\*\*'], [r'\*\*$'] *)
Definition opening_fence : Regex := seq [Bol; Lit fence; Many Dot 0 true; Lit Py.nl].
Definition closing_fence : Regex := seq [Lit Py.nl; Lit fence; Eol].
Definition bold_run : Regex := seq [Bol; Lit stars; Many Dot 0 true; Lit stars].
Definition leading_stars : Regex := seq [Bol; Lit stars].
Definition trailing_stars : Regex := seq [Lit stars; Eol].

(** [r'(?:^|\n)(?:##?\s+)?(\w+\.tf)[:\s]*\n```(?:terraform|hcl)?\s*\n(.*?)```'] *)
Definition file_header_with_block : Regex :=
  seq [ Alt Bol (Lit Py.nl); hashes; Group 1 tf_name; colon_or_space; Lit Py.nl;
        Lit fence; language; Many Space 0 false; Lit Py.nl; body 2; Lit fence ].

(** [r'(?:^|\n)(?:##?\s+)?(?:File:?\s* )?(\w+\.tf)[:\s]*\n(.*?)(?=\n(?:##?\s+)?(?:File:?\s* )?\w+\.tf|$)']
    (without the two blanks) *)
Definition file_header_pattern : Regex :=
  seq [ Alt Bol (Lit Py.nl); hashes; file_word; Group 1 tf_name; colon_or_space;
        Lit Py.nl; body 2;
        Ahead (Alt (seq [Lit Py.nl; hashes; file_word; tf_name]) Eol) ].

(** [r'\n(?:---|===|```)'] and [r'(\w+\.tf)'] *)
Definition separator : Regex :=
  Seq (Lit Py.nl) (alt (Lit "---") [Lit "==="; Lit fence]).
Definition a_filename : Regex := Group 1 tf_name.

(** [rf'{re.escape(filename)}[:\s]*\n(.*?)(?=\n\w+\.tf|$)'] *)
Definition anchored (filename : string) : Regex :=
  seq [ Lit filename; colon_or_space; Lit Py.nl; body 1;
        Ahead (Alt (Seq (Lit Py.nl) tf_name) Eol) ].

Definition required : list string := ["main.tf"; "variables.tf"; "outputs.tf"].

Definition files_t := Py.dict string.

Definition group_or_empty (m : Match) (n : nat) : string :=
  match group m n with Some s => s | None => "" end.

(** [(match.group(1), match.group(2))] for the matches of [pattern1], in
    the order of [re.finditer]. *)
Definition fenced_blocks (text : string) : list (option string * string) :=
  map (fun m => (group m 1, group_or_empty m 2))
      (finditer DOTALL_IGNORECASE pattern1 text).

(** [if not filename.endswith('.tf'): filename = f"{filename}.tf"] *)
Definition stored_name (filename : string) : string :=
  if negb (endswith filename ".tf") then filename ++ ".tf" else filename.

(** Method 1: Standard markdown code blocks with filename *)
Definition method1 (text : string) (files : files_t) : files_t :=
  fold_left
    (fun files block =>
       let filename := fst block in
       let code := strip (snd block) in
       match filename with
       | Some filename => Py.set files (stored_name filename) code
       | None =>
           if nonempty code && Nat.eqb (List.length files) 0
           then Py.set files "main.tf" code
           else files
       end)
    (fenced_blocks text) files.

(** Method 2: Look for markdown bold/header patterns *)
Definition bold_match (files : files_t) (m : Match) : files_t :=
  let filename := Py.lower (group_or_empty m 1) in
  let code := strip (group_or_empty m 2) in
  match match_ no_flags only_a_header (strip code) with
  | Some _ => files                                               (* continue *)
  | None =>
      let code := remove MULTILINE_only opening_fence code in
      let code := remove MULTILINE_only closing_fence code in
      let code := remove MULTILINE_only bold_run code in
      let code := remove MULTILINE_only leading_stars code in
      let code := remove MULTILINE_only trailing_stars code in
      if nonempty code && Nat.ltb 20 (String.length code)
         && negb (Py.startswith code stars)
         && match match_ no_flags header_first code with Some _ => false | None => true end
      then Py.set files filename code
      else files
  end.

Fixpoint bold_loop (patterns : list Regex) (text : string) (files : files_t) : files_t :=
  match patterns with
  | [] => files
  | bold_pattern :: patterns' =>
      let files := fold_left bold_match (finditer DOTALL_IGNORECASE bold_pattern text) files in
      if Nat.leb 3 (List.length files) then files                 (* break *)
      else bold_loop patterns' text files
  end.

Definition method2 (text : string) (files : files_t) : files_t :=
  if Nat.ltb (List.length files) 3 then bold_loop bold_patterns text files else files.

(** Method 2b: Look for file headers followed by code *)
Definition method2b (text : string) (files : files_t) : files_t :=
  if Nat.ltb (List.length files) 3 then
    let files :=
      fold_left
        (fun files m =>
           let filename := Py.lower (group_or_empty m 1) in
           let code := strip (group_or_empty m 2) in
           if nonempty code && Nat.ltb 20 (String.length code)
           then Py.set files filename code else files)
        (finditer DOTALL_IGNORECASE_MULTILINE file_header_with_block text) files in
    if Nat.ltb (List.length files) 3 then
      fold_left
        (fun files m =>
           let filename := Py.lower (group_or_empty m 1) in
           let code := strip (group_or_empty m 2) in
           let code := remove MULTILINE_only opening_fence code in
           let code := remove MULTILINE_only closing_fence code in
           if nonempty code && Nat.ltb 20 (String.length code)
           then Py.set files filename code else files)
        (finditer DOTALL_IGNORECASE_MULTILINE file_header_pattern text) files
    else files
  else files.

(** Method 3: Split by common separators and look for file patterns *)
Definition method3 (text : string) (files : files_t) : files_t :=
  if Nat.ltb (List.length files) 3 then
    fold_left
      (fun files section =>
         match search IGNORECASE_only a_filename (first_line section) with
         | Some filename_match =>
             let filename := Py.lower (group_or_empty filename_match 1) in
             let code := strip (after_first_line section) in
             if nonempty code && Nat.ltb 10 (String.length code)
             then Py.set files filename code else files
         | None => files
         end)
      (split no_flags separator text) files
  else files.

(** The body of the loop of Method 4: look for [filename] in the raw text. *)
Definition rescan (text : string) (files : files_t) (filename : string) : files_t :=
  match search DOTALL_IGNORECASE (anchored filename) text with
  | Some m =>
      let code := strip (group_or_empty m 1) in
      let code := remove MULTILINE_only opening_fence code in
      let code := remove MULTILINE_only closing_fence code in
      if nonempty code && Nat.ltb 10 (String.length code)
      then Py.set files filename code else files
  | None => files
  end.

(** Method 4: If we found some files but not all, try to extract
    remaining from text *)
Definition method4 (text : string) (files : files_t) : files_t :=
  let found := Py.keys files in
  let missing := filter (fun f => negb (Py.mem f found)) required in
  fold_left (rescan text) missing files.

Definition extract_code_blocks (text : string) : files_t :=
  let files := [] in
  let files := method1 text files in
  let files := method2 text files in
  let files := method2b text files in
  let files := method3 text files in
  method4 text files.

(** ** Assignments in a row *)



(** ** Responses to decompose *)

Definition lines (l : list string) : string := String.concat Py.nl l.

(** Three fenced blocks with the canonical names, and prose around them. *)
Definition canonical_response : string :=
  lines [ "Here are the files.";
          "```main.tf"; "resource aws_vpc main { cidr_block = var.cidr }"; "```";
          "Some prose about variables.tf"; "that goes on.";
          "```variables.tf"; "variable cidr { type = string }"; "```";
          "```outputs.tf"; "output vpc_id { value = aws_vpc.main.id }"; "```";
          "Done."; "" ].






(** ** Responses made of three named blocks *)









End Generator.

(* ================================================================== *)
(** * runner/checks.py *)
(* ================================================================== *)

Module Checks.

(** ** Exceptions and the module's namespace *)

Inductive Exn :=
| NameError (name : string)
| OtherError (msg : string).

Inductive Outcome (A : Type) :=
| Return (a : A)
| Raise (e : Exn).
Arguments Return {A} a.
Arguments Raise {A} e.

Definition obind {A B} (m : Outcome A) (f : A -> Outcome B) : Outcome B :=
  match m with
  | Return a => f a
  | Raise e => Raise e
  end.

Declare Scope checks_scope.
Delimit Scope checks_scope with checks.
Notation "x <- m ;; k" := (obind m (fun x => k))
  (at level 61, m at next level, right associativity) : checks_scope.
Notation "m ;; k" := (obind m (fun _ => k))
  (at level 61, right associativity) : checks_scope.

(** The names bound in the module when its functions run: the imports of
    lines 3-10 and the functions it defines.  Line 10 is
    [from .utils import log_info, log_error, export_localstack_env, load_spec]. *)
Definition module_globals : list string :=
  [ "json"; "sys"; "Path"; "Dict"; "Any"; "List"; "Optional"; "boto3";
    "ClientError";
    "log_info"; "log_error"; "export_localstack_env"; "load_spec";
    "run_checks"; "_check_vpc_3subnets_3ec2"; "_check_s3_tasks";
    "_check_security_group"; "_check_iam_role_policy";
    "_check_vpc_internet_gateway"; "_check_vpc_nat_gateway";
    "_check_ec2_instance_profile"; "_check_vpc_multiple_route_tables";
    "_check_generic" ].

(** A call [name(message)] of one of the loggers of utils.py: the name is
    looked up in the module's namespace first. *)
Definition call_logger (name : string) (message : string) : Outcome unit :=
  if Py.mem name module_globals then Return tt else Raise (NameError name).

Definition log_info := call_logger "log_info".
Definition log_error := call_logger "log_error".
Definition log_warn := call_logger "log_warn".

(** ** Data *)

(** A value of the [checks] mapping of spec.yaml: a count or a flag. *)
Inductive Expected :=
| EInt (z : Z)
| EBool (b : bool).

Definition int_of (e : Expected) : Z :=
  match e with EInt z => z | EBool b => if b then 1%Z else 0%Z end.
(** [f"{e}"] *)
Definition fmt (e : Expected) : string :=
  match e with
  | EInt z => Py.str_of_Z z
  | EBool b => if b then "True" else "False"
  end.
(** truth value of [expected_checks.get(k)] *)
Definition truthy (e : option Expected) : bool :=
  match e with
  | None => false
  | Some e => negb (Z.eqb (int_of e) 0)
  end.
(** [n != e] for a length [n] *)
Definition differs (n : nat) (e : Expected) : bool :=
  negb (Z.eqb (Z.of_nat n) (int_of e)).

(** The document of [terraform output -json], typed as the checkers read
    it: an output's [value] is a string (or null) or a list of strings. *)
Record Outputs := {
  scalars : Py.dict (option string);
  lists : Py.dict (list string)
}.

(** [not outputs] *)
Definition no_outputs (o : Outputs) : bool :=
  match scalars o, lists o with
  | [], [] => true
  | _, _ => false
  end.
(** [outputs.get(k, {}).get('value')] *)
Definition value (o : Outputs) (k : string) : option string :=
  match Py.get (scalars o) k with
  | Some v => v
  | None => None
  end.
(** [outputs.get(k, {}).get('value', [])] *)
Definition list_value (o : Outputs) (k : string) : list string :=
  Py.get_default (lists o) k [].
(** [not v] for a string or [None] *)
Definition falsy (v : option string) : bool :=
  match v with
  | None => true
  | Some s => String.eqb s ""
  end.
(** [a or b] *)
Definition or_else (a b : option string) : option string :=
  if falsy a then b else a.
(** the string behind a value that is not [None] *)
Definition the (v : option string) : string :=
  match v with Some s => s | None => "None" end.

Inductive Detail :=
| DValue (v : option string)
| DList (l : list string)
| DFlags (f : Py.dict bool)
| DOutputs (o : Outputs).

(** The tuple [(pass_check, errors, counts, wiring, details)]. *)
Record Verdict := {
  pass_check : bool;
  errors : list string;
  counts : Py.dict nat;
  wiring : Py.dict bool;
  details : Py.dict Detail
}.

Definition start : Verdict :=
  {| pass_check := true; errors := []; counts := []; wiring := []; details := [] |}.
(** [return False, [msg], {}, {}, {}] *)
Definition stop_with (msg : string) : Verdict :=
  {| pass_check := false; errors := [msg]; counts := []; wiring := []; details := [] |}.
(** [pass_check = False; errors.append(msg)] *)
Definition failed (msg : string) (v : Verdict) : Verdict :=
  {| pass_check := false; errors := (errors v ++ [msg])%list; counts := counts v;
     wiring := wiring v; details := details v |}.
Definition count (k : string) (n : nat) (v : Verdict) : Verdict :=
  {| pass_check := pass_check v; errors := errors v; counts := Py.set (counts v) k n;
     wiring := wiring v; details := details v |}.
Definition wire (k : string) (b : bool) (v : Verdict) : Verdict :=
  {| pass_check := pass_check v; errors := errors v; counts := counts v;
     wiring := Py.set (wiring v) k b; details := details v |}.
Definition detail (k : string) (d : Detail) (v : Verdict) : Verdict :=
  {| pass_check := pass_check v; errors := errors v; counts := counts v;
     wiring := wiring v; details := Py.set (details v) k d |}.

(** ** The control plane *)

(** A boto3 call returns its response or raises [ClientError]; [e] is
    [str(e)]. *)
Inductive Response (A : Type) :=
| Ok (a : A)
| ClientError (e : string).
Arguments Ok {A} a.
Arguments ClientError {A} e.

Record Vpc := { vpc_VpcId : string }.
Record Subnet := { subnet_SubnetId : string; subnet_VpcId : string }.
Record Instance := { instance_InstanceId : string; instance_SubnetId : string }.
Record SecurityGroup := {
  sg_VpcId : string;
  IpPermissions : list string;
  IpPermissionsEgress : list string
}.

Record Ec2Client := {
  (** [describe_vpcs(VpcIds=...)], ['Vpcs'] of the response *)
  describe_vpcs : list string -> Response (list Vpc);
  (** [describe_subnets] filtered by [vpc-id] and [tag:task_id], ['Subnets'] *)
  describe_subnets : string -> string -> Response (list Subnet);
  (** [describe_instances] filtered by [tag:task_id], [vpc-id] and the
      states running and pending: ['Instances'] of each of ['Reservations'] *)
  describe_instances : string -> string -> Response (list (list Instance));
  (** [describe_security_groups(GroupIds=..., Filters=tag:task_id)],
      ['SecurityGroups'] *)
  describe_security_groups : list string -> string -> Response (list SecurityGroup)
}.

Record S3Client := {
  head_bucket : string -> Response unit;
  (** ['Status'] of the response, when it has one *)
  get_bucket_versioning : string -> Response (option string);
  (** ['Rules'] *)
  get_bucket_lifecycle_configuration : string -> Response (list string);
  (** ['PublicAccessBlockConfiguration'] *)
  get_public_access_block : string -> Response (Py.dict bool);
  (** ['Policy'] *)
  get_bucket_policy : string -> Response (option string);
  (** ['CORSRules'] *)
  get_bucket_cors : string -> Response (list string)
}.

Local Open Scope checks_scope.

(** ** The checkers *)

(** The idiom of every count:
    [expected = expected_checks.get(key, default)],
    [if n != expected: pass_check = False; errors.append(f"Expected {expected} <what>, found {n}")],
    [counts[name] = n]. *)
Definition compare_count (expected_checks : Py.dict Expected) (key : string)
           (default : Z) (what name : string) (n : nat) (v : Verdict) : Verdict :=
  let expected := Py.get_default expected_checks key (EInt default) in
  let v := if differs n expected
           then failed ("Expected " ++ fmt expected ++ " " ++ what ++ ", found "
                          ++ Py.str_of_nat n) v
           else v in
  count name n v.

(** [for subnet in subnet_response['Subnets']: if subnet['VpcId'] != vpc_id: ...] *)
Definition subnet_loop (vpc_id : string) (subnets : list Subnet) (v : Verdict) : Verdict :=
  fold_left
    (fun v subnet =>
       if negb (String.eqb (subnet_VpcId subnet) vpc_id)
       then failed "Subnet wiring error: subnet not in expected VPC" v
       else v)
    subnets v.

(** The [try] statement under [# Check subnets] *)
Definition check_subnets (ec2_client : Ec2Client) (task_id : string)
           (expected_checks : Py.dict Expected) (vpc_id : string) (v : Verdict) : Verdict :=
  match describe_subnets ec2_client vpc_id task_id with
  | Ok subnets =>
      let subnet_count := List.length subnets in
      let v := compare_count expected_checks "subnet_count" 3 "subnets" "subnet"
                             subnet_count v in
      let v := subnet_loop vpc_id subnets v in
      wire "subnets_in_vpc" true v
  | ClientError e => failed ("Failed to describe subnets: " ++ e) v
  end.

(** The [try] statement under [# Check instances] *)
Definition check_instances (ec2_client : Ec2Client) (task_id : string)
           (expected_checks : Py.dict Expected) (vpc_id : string)
           (subnet_ids : list string) (v : Verdict) : Verdict :=
  match describe_instances ec2_client task_id vpc_id with
  | Ok reservations =>
      let instances := List.concat reservations in
      let instance_count := List.length instances in
      let v := compare_count expected_checks "instance_count" 3 "instances" "instance"
                             instance_count v in
      let found_subnet_ids := map instance_SubnetId instances in
      let v := if negb (forallb (fun i => Py.mem i subnet_ids) found_subnet_ids)
               then failed "Instance wiring error: instance in unexpected subnet" v
               else v in
      wire "instances_in_subnets" true v
  | ClientError e => failed ("Failed to describe instances: " ++ e) v
  end.

Definition _check_vpc_3subnets_3ec2 (ec2_client : Ec2Client) (outputs : Outputs)
           (task_id : string) (expected_checks : Py.dict Expected) : Verdict :=
  let v := start in
  let vpc_id := value outputs "vpc_id" in
  let subnet_ids := list_value outputs "subnet_ids" in
  let instance_ids := list_value outputs "instance_ids" in
  if falsy vpc_id || String.eqb (the vpc_id) "null"
  then stop_with "VPC ID not found in outputs"
  else
  let vpc_id := the vpc_id in
  let v := detail "vpc_id" (DValue (Some vpc_id)) v in
  let v := detail "subnet_ids" (DList subnet_ids) v in
  let v := detail "instance_ids" (DList instance_ids) v in
  (* Check VPC *)
  match describe_vpcs ec2_client [vpc_id] with
  | ClientError e => stop_with ("Failed to describe VPC: " ++ e)
  | Ok vpcs =>
      let v := compare_count expected_checks "vpc_count" 1 "VPC" "vpc"
                             (List.length vpcs) v in
      (* Check subnets *)
      let v := check_subnets ec2_client task_id expected_checks vpc_id v in
      (* Check instances *)
      check_instances ec2_client task_id expected_checks vpc_id subnet_ids v
  end.

(** The [try] statement under [# Check security group] *)
Definition check_group (ec2_client : Ec2Client) (task_id : string)
           (expected_checks : Py.dict Expected) (vpc_id security_group_id : string)
           (v : Verdict) : Verdict :=
  match describe_security_groups ec2_client [security_group_id] task_id with
  | Ok groups =>
      let sg_count := List.length groups in
      let v := compare_count expected_checks "security_group_count" 1 "security group"
                             "security_group" sg_count v in
      match groups with
      | sg :: _ =>
          let v := if negb (String.eqb (sg_VpcId sg) vpc_id)
                   then failed "Security group not in expected VPC" v
                   else v in
          let v := wire "security_group_in_vpc" true v in
          (* Check ingress rules *)
          let v := compare_count expected_checks "ingress_rule_count" 0 "ingress rules"
                                 "ingress_rule" (List.length (IpPermissions sg)) v in
          (* Check egress rules *)
          compare_count expected_checks "egress_rule_count" 0 "egress rules"
                        "egress_rule" (List.length (IpPermissionsEgress sg)) v
      | [] => v
      end
  | ClientError e => failed ("Failed to describe security group: " ++ e) v
  end.

Definition _check_security_group (ec2_client : Ec2Client) (outputs : Outputs)
           (task_id : string) (expected_checks : Py.dict Expected) : Verdict :=
  let v := start in
  let vpc_id := value outputs "vpc_id" in
  let security_group_id := value outputs "security_group_id" in
  if falsy vpc_id || falsy security_group_id
  then stop_with "VPC ID or Security Group ID not found in outputs"
  else
  let vpc_id := the vpc_id in
  let security_group_id := the security_group_id in
  let v := detail "vpc_id" (DValue (Some vpc_id)) v in
  let v := detail "security_group_id" (DValue (Some security_group_id)) v in
  (* Check VPC *)
  match describe_vpcs ec2_client [vpc_id] with
  | ClientError e => stop_with ("Failed to describe VPC: " ++ e)
  | Ok vpcs =>
      let v := compare_count expected_checks "vpc_count" 1 "VPC" "vpc"
                             (List.length vpcs) v in
      (* Check security group *)
      check_group ec2_client task_id expected_checks vpc_id security_group_id v
  end.

(** In the handlers below [log_info] and [log_error] only print (both are
    bound by line 10); the calls of [log_warn] are kept. *)

(** [# Check versioning if expected] *)
Definition check_versioning (s3_client : S3Client) (expected_checks : Py.dict Expected)
           (bucket_id : string) (v : Verdict) : Outcome Verdict :=
  if truthy (Py.get expected_checks "versioning_enabled") then
    match get_bucket_versioning s3_client bucket_id with
    | Ok status =>
        let versioning_status := match status with Some s => s | None => "" end in
        let v := if negb (String.eqb versioning_status "Enabled")
                 then failed ("Versioning not enabled: " ++ versioning_status) v
                 else v in
        Return (detail "versioning_status" (DValue (Some versioning_status)) v)
    | ClientError e =>
        log_warn ("Could not check versioning: " ++ e) ;;
        Return v
    end
  else Return v.

(** The handler of the four other queries:
    [if '<code>' not in str(e): log_warn(...)], then
    [if expected_checks.get(key): pass_check = False; errors.append(msg)]. *)
Definition not_found (expected_checks : Py.dict Expected) (key code warning msg e : string)
           (v : Verdict) : Outcome Verdict :=
  (if negb (Py.contains code e) then log_warn (warning ++ e) else Return tt) ;;
  Return (if truthy (Py.get expected_checks key) then failed msg v else v).

(** [# Check lifecycle rules if expected] *)
Definition check_lifecycle (s3_client : S3Client) (expected_checks : Py.dict Expected)
           (bucket_id : string) (v : Verdict) : Outcome Verdict :=
  if truthy (Py.get expected_checks "lifecycle_rule_count") then
    match get_bucket_lifecycle_configuration s3_client bucket_id with
    | Ok rules =>
        let v := compare_count expected_checks "lifecycle_rule_count" 1 "lifecycle rules"
                               "lifecycle_rule" (List.length rules) v in
        Return (wire "lifecycle_rule_attached" true v)
    | ClientError e =>
        not_found expected_checks "lifecycle_rule_count" "NoSuchLifecycleConfiguration"
                  "Could not check lifecycle: " "Lifecycle configuration not found" e v
    end
  else Return v.

(** [# Check public access block if expected] *)
Definition check_public_access_block (s3_client : S3Client)
           (expected_checks : Py.dict Expected) (bucket_id : string) (v : Verdict)
  : Outcome Verdict :=
  if truthy (Py.get expected_checks "public_access_block_count") then
    match get_public_access_block s3_client bucket_id with
    | Ok pab_config =>
        let v := count "public_access_block" 1 v in
        let v := detail "public_access_block" (DFlags pab_config) v in
        Return (wire "public_access_block_attached" true v)
    | ClientError e =>
        not_found expected_checks "public_access_block_count"
                  "NoSuchPublicAccessBlockConfiguration"
                  "Could not check public access block: "
                  "Public access block not found" e v
    end
  else Return v.

(** [# Check bucket policy if expected] *)
Definition check_bucket_policy (s3_client : S3Client) (expected_checks : Py.dict Expected)
           (bucket_id : string) (v : Verdict) : Outcome Verdict :=
  if truthy (Py.get expected_checks "bucket_policy_count") then
    match get_bucket_policy s3_client bucket_id with
    | Ok policy =>
        let v := count "bucket_policy" 1 v in
        let v := detail "bucket_policy" (DValue policy) v in
        Return (wire "bucket_policy_attached" true v)
    | ClientError e =>
        not_found expected_checks "bucket_policy_count" "NoSuchBucketPolicy"
                  "Could not check bucket policy: " "Bucket policy not found" e v
    end
  else Return v.

(** [# Check CORS configuration if expected] *)
Definition check_cors (s3_client : S3Client) (expected_checks : Py.dict Expected)
           (bucket_id : string) (v : Verdict) : Outcome Verdict :=
  if truthy (Py.get expected_checks "cors_configuration_count") then
    match get_bucket_cors s3_client bucket_id with
    | Ok cors_rules =>
        if Nat.ltb 0 (List.length cors_rules) then
          let v := count "cors_configuration" 1 v in
          let v := detail "cors_rules" (DList cors_rules) v in
          Return (wire "cors_configuration_attached" true v)
        else
          Return (if truthy (Py.get expected_checks "cors_configuration_count")
                  then failed "CORS configuration not found or empty" v
                  else v)
    | ClientError e =>
        not_found expected_checks "cors_configuration_count" "NoSuchCORSConfiguration"
                  "Could not check CORS configuration: "
                  "CORS configuration not found" e v
    end
  else Return v.

(** [_check_s3_tasks]; its last parameter, [spec], is not used. *)
Definition _check_s3_tasks (s3_client : S3Client) (outputs : Outputs)
           (task_id : string) (expected_checks : Py.dict Expected)
  : Outcome Verdict :=
  let v := start in
  let bucket_id := or_else (value outputs "bucket_id") (value outputs "bucket_name") in
  let bucket_arn := value outputs "bucket_arn" in
  if falsy bucket_id
  then Return (stop_with "Bucket ID/name not found in outputs")
  else
  let bucket_id := the bucket_id in
  let v := detail "bucket_id" (DValue (Some bucket_id)) v in
  let v := detail "bucket_arn" (DValue bucket_arn) v in
  (* Check bucket exists *)
  match head_bucket s3_client bucket_id with
  | ClientError e =>
      Return (stop_with ("Bucket " ++ bucket_id ++ " does not exist: " ++ e))
  | Ok _ =>
      let v := count "bucket" 1 v in
      v <- check_versioning s3_client expected_checks bucket_id v ;;
      v <- check_lifecycle s3_client expected_checks bucket_id v ;;
      v <- check_public_access_block s3_client expected_checks bucket_id v ;;
      v <- check_bucket_policy s3_client expected_checks bucket_id v ;;
      v <- check_cors s3_client expected_checks bucket_id v ;;
      Return v
  end.

Definition _check_generic (outputs : Outputs) (task_id : string)
           (expected_checks : Py.dict Expected) : Outcome Verdict :=
  let v := start in
  (* Basic validation - just check outputs exist *)
  if no_outputs outputs
  then Return (stop_with "No outputs found")
  else
  let v := detail "outputs" (DOutputs outputs) v in
  log_warn ("Using generic checks for " ++ task_id
              ++ " - consider adding specific checks") ;;
  Return v.

(** ** [run_checks] *)

(** The dictionary [run_checks] returns; the two early returns leave
    [details], [counts] and [wiring] out. *)
Record CheckResult := {
  cr_task_id : string;
  cr_pass : bool;
  cr_details : option (Py.dict Detail);
  cr_counts : option (Py.dict nat);
  cr_wiring : option (Py.dict bool);
  cr_errors : list string
}.

(** The eight branches of the dispatch, in the order of the [if]/[elif]
    chain, and its [else]. *)
Inductive Checker :=
| vpc_3subnets_3ec2 | s3_tasks | security_group | iam_role_policy
| vpc_internet_gateway | vpc_nat_gateway | ec2_instance_profile
| vpc_multiple_route_tables | generic.

Definition dispatch (task_id : string) : Checker :=
  if String.eqb task_id "task_vpc_3subnets_3ec2" then vpc_3subnets_3ec2
  else if Py.startswith task_id "task_s3" then s3_tasks
  else if String.eqb task_id "task_security_group_complex" then security_group
  else if String.eqb task_id "task_iam_role_policy" then iam_role_policy
  else if String.eqb task_id "task_vpc_internet_gateway" then vpc_internet_gateway
  else if String.eqb task_id "task_vpc_nat_gateway" then vpc_nat_gateway
  else if String.eqb task_id "task_ec2_instance_profile" then ec2_instance_profile
  else if String.eqb task_id "task_vpc_multiple_route_tables"
       then vpc_multiple_route_tables
  else generic.

Section RunChecks.

Variable ec2_client : Ec2Client.
Variable s3_client : S3Client.
(** The five checkers that are not modelled, each with its client. *)
Variable _check_iam_role_policy _check_vpc_internet_gateway
         _check_vpc_nat_gateway _check_ec2_instance_profile
         _check_vpc_multiple_route_tables
  : Outputs -> string -> Py.dict Expected -> Outcome Verdict.
(** [spec.get('checks', {})] of tasks/<task_id>/spec.yaml when the file
    exists, and the content of outputs.json when it exists. *)
Variable spec_checks : option (Py.dict Expected).
Variable outputs_file : option Outputs.

Definition run_checks (task_id : string) : Outcome CheckResult :=
  match spec_checks with
  | None =>
      Return {| cr_task_id := task_id; cr_pass := false; cr_details := None;
                cr_counts := None; cr_wiring := None;
                cr_errors := ["Spec file not found: tasks/" ++ task_id ++ "/spec.yaml"] |}
  | Some expected_checks =>
      match outputs_file with
      | None =>
          Return {| cr_task_id := task_id; cr_pass := false; cr_details := None;
                    cr_counts := None; cr_wiring := None;
                    cr_errors := ["outputs.json not found"] |}
      | Some outputs =>
          (* Route checks based on task type *)
          v <- match dispatch task_id with
               | vpc_3subnets_3ec2 =>
                   Return (_check_vpc_3subnets_3ec2 ec2_client outputs task_id
                                                    expected_checks)
               | s3_tasks => _check_s3_tasks s3_client outputs task_id expected_checks
               | security_group =>
                   Return (_check_security_group ec2_client outputs task_id
                                                 expected_checks)
               | iam_role_policy =>
                   _check_iam_role_policy outputs task_id expected_checks
               | vpc_internet_gateway =>
                   _check_vpc_internet_gateway outputs task_id expected_checks
               | vpc_nat_gateway =>
                   _check_vpc_nat_gateway outputs task_id expected_checks
               | ec2_instance_profile =>
                   _check_ec2_instance_profile outputs task_id expected_checks
               | vpc_multiple_route_tables =>
                   _check_vpc_multiple_route_tables outputs task_id expected_checks
               | generic =>
                   log_warn ("No specific checks defined for task " ++ task_id
                               ++ ", running basic validation") ;;
                   _check_generic outputs task_id expected_checks
               end ;;
          (* Build result *)
          Return {| cr_task_id := task_id; cr_pass := pass_check v;
                    cr_details := Some (details v); cr_counts := Some (counts v);
                    cr_wiring := Some (wiring v); cr_errors := errors v |}
      end
  end.

End RunChecks.

(** ** What a block of a checker leaves as it found it *)

(** [v'] comes after [v]: a failure stays a failure and no error is lost. *)
Record extends (v v' : Verdict) : Prop := {
  keeps_failure : pass_check v = false -> pass_check v' = false;
  keeps_errors : forall e, In e (errors v) -> In e (errors v')
}.

(** A block either returns a verdict that extends the one it was given, or
    it has raised [NameError] for [log_warn]. *)
Definition carried (v : Verdict) (o : Outcome Verdict) : Prop :=
  match o with
  | Return v' => extends v v'
  | Raise e => e = NameError "log_warn"
  end.

(** ** Control planes to check against *)

Definition vpc_outputs : Outputs :=
  {| scalars := [("vpc_id", Some "vpc-0a1b")];
     lists := [("subnet_ids", ["subnet-a"; "subnet-b"; "subnet-c"]);
               ("instance_ids", ["i-1"; "i-2"; "i-3"])] |}.

Definition subnets_of (vpc : string) : list Subnet :=
  [ {| subnet_SubnetId := "subnet-a"; subnet_VpcId := vpc |};
    {| subnet_SubnetId := "subnet-b"; subnet_VpcId := vpc |};
    {| subnet_SubnetId := "subnet-c"; subnet_VpcId := vpc |} ].

Definition instances_in (a b c : string) : list (list Instance) :=
  [ [ {| instance_InstanceId := "i-1"; instance_SubnetId := a |};
      {| instance_InstanceId := "i-2"; instance_SubnetId := b |} ];
    [ {| instance_InstanceId := "i-3"; instance_SubnetId := c |} ] ].

Definition a_group : SecurityGroup :=
  {| sg_VpcId := "vpc-0a1b"; IpPermissions := ["tcp/443"]; IpPermissionsEgress := ["all"] |}.

Definition healthy_ec2 : Ec2Client :=
  {| describe_vpcs := fun _ => Ok [ {| vpc_VpcId := "vpc-0a1b" |} ];
     describe_subnets := fun vpc _ => Ok (subnets_of vpc);
     describe_instances := fun _ _ => Ok (instances_in "subnet-a" "subnet-b" "subnet-c");
     describe_security_groups := fun _ _ => Ok [a_group] |}.

Definition misplaced_ec2 : Ec2Client :=
  {| describe_vpcs := describe_vpcs healthy_ec2;
     describe_subnets := fun _ _ => Ok (subnets_of "vpc-ffff");
     describe_instances := fun _ _ => Ok (instances_in "subnet-a" "subnet-b" "subnet-z");
     describe_security_groups := describe_security_groups healthy_ec2 |}.



Definition bucket_outputs : Outputs :=
  {| scalars := [("bucket_id", Some "bench-bucket");
                 ("bucket_arn", Some "arn:aws:s3:::bench-bucket")];
     lists := [] |}.

Definition suspended_s3 (lifecycle : Response (list string)) : S3Client :=
  {| head_bucket := fun _ => Ok tt;
     get_bucket_versioning := fun _ => Ok (Some "Suspended");
     get_bucket_lifecycle_configuration := fun _ => lifecycle;
     get_public_access_block := fun _ => Ok [];
     get_bucket_policy := fun _ => Ok None;
     get_bucket_cors := fun _ => Ok [] |}.

Definition versioning_only : Py.dict Expected := [("versioning_enabled", EBool true)].

Definition versioning_and_lifecycle : Py.dict Expected :=
  [("versioning_enabled", EBool true); ("lifecycle_rule_count", EInt 1)].

Definition access_denied : string :=
  "An error occurred (AccessDenied) when calling the GetBucketLifecycleConfiguration operation: Access Denied".

(** A checker that is not modelled and finds nothing wrong. *)
Definition nothing_to_check (outputs : Outputs) (task_id : string)
           (expected_checks : Py.dict Expected) : Outcome Verdict :=
  Return start.

(** The document with one output, of a task without a checker of its own. *)
Definition lambda_outputs : Outputs :=
  {| scalars := [("function_name", Some "bench-fn")]; lists := [] |}.

End Checks.

(* ================================================================== *)
(** * runner/run_task.py *)
(* ================================================================== *)

Module RunTask.

Definition FAILURE_CATEGORIES : list string :=
  [ "SYNTAX"; "INIT"; "VALIDATE"; "PLAN"; "APPLY";
    "CHECKS"; "IDEMPOTENCY"; "DESTROY"; "LOCALSTACK" ].

(** What [run_command(cmd, cwd, capture_output=True, check=False, timeout)]
    does: it returns a [CompletedProcess], or [subprocess.run] raises
    [TimeoutExpired], or something else is raised. *)
Inductive Process :=
| Completed (returncode : Z) (stdout stderr : string)
| TimeoutExpired
| OtherException (e : string).

(** What the call of [run_checks] in step 7 does: it returns its
    dictionary or raises. *)
Definition ChecksOutcome := Checks.Outcome Checks.CheckResult.

(** Everything outside the process.  [run_command] is asked once per
    command line; [run_checks] sees whether step 6 wrote outputs.json
    (and what). *)
Record World := {
  check_localstack : bool;
  run_command : list string -> Process;
  run_checks : option string -> ChecksOutcome
}.

Inductive Event :=
| Terraform (step_name : string) (cmd : list string) (success : bool) (output : string)
| WriteFile (name : string) (content : string)
| RunChecks (outcome : ChecksOutcome)
| WriteCheckJson (check_result : Checks.CheckResult).

Record Result := {
  pass : bool;
  failure_category : option string;
  timings : list string;                       (* the keys; values are clock readings *)
  tool_exit_codes : Py.dict (option Z);
  logs : Py.dict string;
  check_result : option Checks.CheckResult
}.

Record St := { result : Result; trace : list Event; outputs_json : option string }.

(** A statement of [run]: it changes the state and either goes on with a
    value or has executed [return result]. *)
Definition M (A : Type) := St -> St * option A.

Definition ret {A} (a : A) : M A := fun s => (s, Some a).
Definition bind {A B} (m : M A) (f : A -> M B) : M B :=
  fun s => match m s with
           | (s', Some a) => f a s'
           | (s', None) => (s', None)
           end.
Definition return_result {A} : M A := fun s => (s, None).
Definition modify (f : Result -> Result) : M unit :=
  fun s => ({| result := f (result s); trace := trace s;
               outputs_json := outputs_json s |}, Some tt).
Definition emit (e : Event) : M unit :=
  fun s => ({| result := result s; trace := (trace s ++ [e])%list;
               outputs_json := outputs_json s |}, Some tt).
Definition when (b : bool) (m : M unit) : M unit := if b then m else ret tt.

Declare Scope run_scope.
Delimit Scope run_scope with run.
Notation "x <- m ;; k" := (bind m (fun x => k))
  (at level 61, m at next level, right associativity) : run_scope.
Notation "' p <- m ;; k" := (bind m (fun x => let p := x in k))
  (at level 61, p pattern, m at next level, right associativity) : run_scope.
Notation "m ;; k" := (bind m (fun _ => k))
  (at level 61, right associativity) : run_scope.
Local Open Scope run_scope.

Definition set_failure_category (c : string) (r : Result) : Result :=
  {| pass := pass r; failure_category := Some c; timings := timings r;
     tool_exit_codes := tool_exit_codes r; logs := logs r;
     check_result := check_result r |}.
Definition set_pass (b : bool) (r : Result) : Result :=
  {| pass := b; failure_category := failure_category r; timings := timings r;
     tool_exit_codes := tool_exit_codes r; logs := logs r;
     check_result := check_result r |}.
Definition set_timing (k : string) (r : Result) : Result :=
  {| pass := pass r; failure_category := failure_category r;
     timings := if Py.mem k (timings r) then timings r else (timings r ++ [k])%list;
     tool_exit_codes := tool_exit_codes r; logs := logs r;
     check_result := check_result r |}.
Definition set_exit_code (k : string) (c : option Z) (r : Result) : Result :=
  {| pass := pass r; failure_category := failure_category r; timings := timings r;
     tool_exit_codes := Py.set (tool_exit_codes r) k c; logs := logs r;
     check_result := check_result r |}.
Definition set_log (k : string) (p : string) (r : Result) : Result :=
  {| pass := pass r; failure_category := failure_category r; timings := timings r;
     tool_exit_codes := tool_exit_codes r; logs := Py.set (logs r) k p;
     check_result := check_result r |}.
Definition set_check_result (c : Checks.CheckResult) (r : Result) : Result :=
  {| pass := pass r; failure_category := failure_category r; timings := timings r;
     tool_exit_codes := tool_exit_codes r; logs := logs r;
     check_result := Some c |}.

Section Runner.

(** [self.tf_vars] and [self.logs_dir] of the runner. *)
Variable tf_vars : list string.
Variable logs_dir : string.
Variable w : World.

Definition default_timeout (step_name : string) : Z :=
  if Py.mem step_name ["apply"; "apply_2"; "destroy"] then 300
  else if Py.mem step_name ["plan"; "plan_2"] then 120
  else 60.

(** The [try] statement of [_run_terraform]: [(success, output, exit_code)]
    for what [run_command] did, with [capture_output=True]. *)
Definition attempt (step_name : string) (timeout : Z) (p : Process)
  : bool * string * option Z :=
  match p with
  | Completed returncode stdout stderr =>
      (Z.eqb returncode 0, stdout ++ stderr, Some returncode)
  | TimeoutExpired =>
      (false, "Terraform " ++ step_name ++ " timed out after "
                ++ Py.str_of_Z timeout ++ "s", None)
  | OtherException e =>
      (false, "Exception running terraform " ++ step_name ++ ": " ++ e, None)
  end.

(** [_run_terraform(cmd, step_name, timeout=...)] *)
Definition _run_terraform (cmd : list string) (step_name : string)
           (timeout : option Z) : M (bool * string * option Z) :=
  let timeout := match timeout with Some t => t | None => default_timeout step_name end in
  let r := attempt step_name timeout (run_command w cmd) in
  emit (Terraform step_name cmd (fst (fst r)) (snd (fst r))) ;;
  ret r.

Definition record (step : string) (exit_code : option Z) : M unit :=
  modify (set_timing step) ;;
  modify (set_exit_code step exit_code) ;;
  modify (set_log step (logs_dir ++ "/terraform_" ++ step ++ ".txt")).

Definition fail (category : string) : M unit :=
  modify (set_failure_category category) ;;
  modify (set_pass false) ;;
  return_result.

Definition write_outputs (content : string) : M unit :=
  fun s => ({| result := result s;
               trace := (trace s ++ [WriteFile "outputs.json" content])%list;
               outputs_json := Some content |}, Some tt).

Definition read_outputs : M (option string) :=
  fun s => (s, Some (outputs_json s)).

Definition run_body : M unit :=
  (* Check LocalStack *)
  when (negb (check_localstack w)) (fail "LOCALSTACK") ;;
  (* Step 1: terraform fmt *)
  '(success, output, exit_code) <- _run_terraform ["terraform"; "fmt"] "fmt" None ;;
  record "fmt" exit_code ;;
  when (negb success) (fail "SYNTAX") ;;
  (* Step 1b: terraform fmt -check *)
  '(success, output, exit_code) <-
     _run_terraform ["terraform"; "fmt"; "-check"] "fmt_check" None ;;
  record "fmt_check" exit_code ;;
  when (negb success) (fail "SYNTAX") ;;
  (* Step 2: terraform init *)
  '(success, output, exit_code) <- _run_terraform ["terraform"; "init"] "init" None ;;
  record "init" exit_code ;;
  when (negb success) (fail "INIT") ;;
  (* Step 3: terraform validate *)
  '(success, output, exit_code) <-
     _run_terraform ["terraform"; "validate"] "validate" None ;;
  record "validate" exit_code ;;
  when (negb success) (fail "VALIDATE") ;;
  (* Step 4: terraform plan *)
  '(success, output, exit_code) <-
     _run_terraform (["terraform"; "plan"; "-out"; "plan.bin"] ++ tf_vars)%list "plan" None ;;
  record "plan" exit_code ;;
  emit (WriteFile "terraform_plan.txt" output) ;;
  when (negb success) (fail "PLAN") ;;
  (* Step 5: terraform apply *)
  '(success, output, exit_code) <-
     _run_terraform ["terraform"; "apply"; "-auto-approve"; "plan.bin"] "apply" None ;;
  record "apply" exit_code ;;
  emit (WriteFile "terraform_apply.txt" output) ;;
  when (negb success) (fail "APPLY") ;;
  (* Step 6: Get outputs *)
  '(success, output, exit_code) <-
     _run_terraform ["terraform"; "output"; "-json"] "output" None ;;
  when success (write_outputs output) ;;
  (* Step 7: Run checks *)
  outputs <- read_outputs ;;
  let check := run_checks w outputs in
  emit (RunChecks check) ;;
  match check with
  | Checks.Return check_result =>
      modify (set_timing "checks") ;;
      modify (set_check_result check_result) ;;
      emit (WriteCheckJson check_result) ;;
      when (negb (Checks.cr_pass check_result)) (fail "CHECKS")
  | Checks.Raise e => fail "CHECKS"
  end ;;
  (* Step 8: second plan (idempotency check) *)
  '(success, output, exit_code) <-
     _run_terraform (["terraform"; "plan"] ++ tf_vars)%list "plan_2" (Some 120%Z) ;;
  record "plan_2" exit_code ;;
  emit (WriteFile "terraform_plan_2.txt" output) ;;
  when (negb success)
       (when (Py.contains "timed out" (Py.lower output)) (fail "IDEMPOTENCY")) ;;
  when (negb (Py.contains "No changes" output)
        && negb (Py.contains "0 to add, 0 to change, 0 to destroy" output))
       (fail "IDEMPOTENCY") ;;
  record "apply_2" exit_code ;;
  emit (WriteFile "terraform_apply_2.txt" output) ;;
  when (negb (Py.contains "No changes" output)
        && negb (Py.contains "Apply complete!" output))
       (fail "IDEMPOTENCY") ;;
  (* Step 9: terraform destroy *)
  '(success, output, exit_code) <-
     _run_terraform ["terraform"; "destroy"; "-auto-approve"] "destroy" None ;;
  record "destroy" exit_code ;;
  emit (WriteFile "terraform_destroy.txt" output) ;;
  when (negb success) (fail "DESTROY") ;;
  (* All steps passed! *)
  modify (set_pass true) ;;
  modify (set_timing "total").

Definition initial : St :=
  {| result := {| pass := false; failure_category := None; timings := [];
                  tool_exit_codes := []; logs := []; check_result := None |};
     trace := []; outputs_json := None |}.

(** [TaskRunner.run()]: the result dictionary, and what the run did. *)
Definition run : Result * list Event :=
  let s := fst (run_body initial) in (result s, trace s).

End Runner.

(** ** What a run did *)

(** The stages of the pipeline, by the names the runner gives them. *)
Definition stage_names : list string :=
  [ "fmt"; "fmt_check"; "init"; "validate"; "plan"; "apply"; "output";
    "checks"; "plan_2"; "destroy" ].

(** The stage an event belongs to and whether it succeeded: the [success]
    of [_run_terraform], the [pass] of the check result. *)
Definition stage_of (e : Event) : list (string * bool) :=
  match e with
  | Terraform step_name _ success _ => [(step_name, success)]
  | RunChecks (Checks.Return check_result) => [("checks", Checks.cr_pass check_result)]
  | RunChecks (Checks.Raise _) => [("checks", false)]
  | WriteFile _ _ => []
  | WriteCheckJson _ => []
  end.

Definition stages (tr : list Event) : list (string * bool) := flat_map stage_of tr.

Definition executed (step : string) (tr : list Event) : bool :=
  Py.mem step (map fst (stages tr)).

(** The call of [run_checks] did not give a passing result. *)
Definition checks_failed (c : ChecksOutcome) : bool :=
  match c with
  | Checks.Return check_result => negb (Checks.cr_pass check_result)
  | Checks.Raise _ => true
  end.

(** The two texts line 339 of run_task.py looks for in the second plan. *)
Definition zero_change_marker (output : string) : bool :=
  Py.contains "No changes" output
  || Py.contains "0 to add, 0 to change, 0 to destroy" output.

(** The pairs of neighbouring stages between which [run] has an
    [if not success: ... return result] (or the test on the check result). *)
Definition gated : list (string * string) :=
  [ ("fmt", "fmt_check"); ("fmt_check", "init"); ("init", "validate");
    ("validate", "plan"); ("plan", "apply"); ("apply", "output");
    ("checks", "plan_2") ].

(** ** Worlds to run in *)

Definition same_command (a b : list string) : bool :=
  Nat.eqb (List.length a) (List.length b)
  && forallb (fun p => String.eqb (fst p) (snd p)) (combine a b).

(** [w], except that the command line [cmd] does [p]. *)
Definition but (cmd : list string) (p : Process) (w : World) : World :=
  {| check_localstack := check_localstack w;
     run_command := fun c => if same_command c cmd then p else run_command w c;
     run_checks := run_checks w |}.

Definition passing_check : Checks.CheckResult :=
  {| Checks.cr_task_id := "task_vpc_3subnets_3ec2"; Checks.cr_pass := true;
     Checks.cr_details := Some []; Checks.cr_counts := Some [];
     Checks.cr_wiring := Some []; Checks.cr_errors := [] |}.

Definition failing_check (errors : list string) : Checks.CheckResult :=
  {| Checks.cr_task_id := "task_vpc_3subnets_3ec2"; Checks.cr_pass := false;
     Checks.cr_details := None; Checks.cr_counts := None;
     Checks.cr_wiring := None; Checks.cr_errors := errors |}.

(** LocalStack is up, every command exits with 0, the second plan finds
    nothing to do, and the checks pass when outputs.json is there. *)
Definition all_green : World :=
  {| check_localstack := true;
     run_command := fun c =>
       if same_command c ["terraform"; "plan"]
       then Completed 0 "No changes. Your infrastructure matches the configuration." ""
       else Completed 0 "ok" "";
     run_checks := fun outputs =>
       match outputs with
       | Some _ => Checks.Return passing_check
       | None => Checks.Return (failing_check ["outputs.json not found"])
       end |}.

(** [terraform output -json] fails; outputs.json is never written. *)
Definition no_outputs_captured : World :=
  but ["terraform"; "output"; "-json"]
      (Completed 1 "" "Error: Failed to load state") all_green.

(** The second plan exits with 1, and its output says "No changes". *)
Definition unchanged_but_failed : string :=
  "No changes. Your infrastructure matches the configuration.Warning: provider error".
Definition second_plan_fails_unchanged : World :=
  but ["terraform"; "plan"]
      (Completed 1 "No changes. Your infrastructure matches the configuration."
                 "Warning: provider error")
      all_green.

(** The second plan exits with 1, its output says "No changes" and also
    "timed out". *)
Definition unchanged_but_timed_out : string :=
  "No changes. Your infrastructure matches the configuration.Error: request timed out".
Definition second_plan_fails_timed_out : World :=
  but ["terraform"; "plan"]
      (Completed 1 "No changes. Your infrastructure matches the configuration."
                 "Error: request timed out")
      all_green.

(** The second plan exits with 0 and its output has the count of changes,
    all zero, without "No changes". *)
Definition counted_zero : string := "Plan: 0 to add, 0 to change, 0 to destroy.".
Definition second_plan_counts_zero : World :=
  but ["terraform"; "plan"] (Completed 0 counted_zero "") all_green.

(** [run_checks] raises, as it does for a task without a checker of its
    own. *)
Definition checks_raise : World :=
  {| check_localstack := true;
     run_command := run_command all_green;
     run_checks := fun _ => Checks.Raise (Checks.NameError "log_warn") |}.

(** ** What a result says of the run *)

(** The category [run] gives to a run that ends at a stage. *)
Definition category_of (stage : string) : option string :=
  if Py.mem stage ["fmt"; "fmt_check"] then Some "SYNTAX"
  else if String.eqb stage "init" then Some "INIT"
  else if String.eqb stage "validate" then Some "VALIDATE"
  else if String.eqb stage "plan" then Some "PLAN"
  else if String.eqb stage "apply" then Some "APPLY"
  else if String.eqb stage "checks" then Some "CHECKS"
  else if String.eqb stage "plan_2" then Some "IDEMPOTENCY"
  else if String.eqb stage "destroy" then Some "DESTROY"
  else None.

(** [result.returncode == 0] for an exit code that [_run_terraform] returns *)
Definition succeeded (exit_code : option Z) : bool :=
  match exit_code with Some z => Z.eqb z 0 | None => false end.

(** LocalStack is not running. *)
Definition emulator_down : World :=
  {| check_localstack := false;
     run_command := run_command all_green;
     run_checks := run_checks all_green |}.

(** The first plan exits with 1. *)
Definition plan_fails : World :=
  but ["terraform"; "plan"; "-out"; "plan.bin"]
      (Completed 1 "" "Error: Invalid reference") all_green.

End RunTask.

(* ================================================================== *)
(** * Filenames *)
(* ================================================================== *)

Module Names.

Import Re Generator.

(** a character of a filename: a word character or the dot *)
Definition name_char (c : ascii) : bool := is_word c || Ascii.eqb c ".".

(** what [(\w+\.tf)] can hold, whatever the flags: word characters, then
    ".tf" in some case *)
Definition tf_match (s : string) : Prop :=
  exists w m, s = w ++ m /\ w <> "" /\ all_chars is_word w = true /\ Py.lower m = ".tf".

(** a filename that is safe to write under a directory *)
Definition good_name (k : string) : Prop :=
  k <> "" /\ all_chars name_char k = true /\ endswith k ".tf" = true
  /\ Py.contains "/" k = false.

(** every group 1 of the pattern is [(\w+\.tf)] *)
Fixpoint groups_ok (r : Regex) : Prop :=
  match r with
  | Group n r' => (n = 1 /\ r' = tf_name) \/ (n <> 1 /\ groups_ok r')
  | Seq r1 r2 | Alt r1 r2 => groups_ok r1 /\ groups_ok r2
  | Maybe r' | Ahead r' => groups_ok r'
  | Lit _ | Many _ _ _ | Bol | Eol => True
  end.

(** every match of the pattern closes group 1 *)
Fixpoint sets1 (r : Regex) : bool :=
  match r with
  | Group n r' => Nat.eqb n 1 || sets1 r'
  | Seq r1 r2 => sets1 r1 || sets1 r2
  | Alt r1 r2 => sets1 r1 && sets1 r2
  | _ => false
  end.

(** group 1 after a step of the matcher: as before, or a new [(\w+\.tf)] *)
Definition step (g g' : list (nat * string)) : Prop :=
  assoc 1 g' = assoc 1 g \/ exists s, assoc 1 g' = Some s /\ tf_match s.

Definition closed1 (g : list (nat * string)) : Prop :=
  exists s, assoc 1 g = Some s /\ tf_match s.

(** what a match object says of group 1 *)
Definition names_well (r : Regex) (m : Match) : Prop :=
  (forall s, group m 1 = Some s -> tf_match s)
  /\ (sets1 r = true -> exists s, group m 1 = Some s /\ tf_match s).

Definition good_files (files : files_t) : Prop := Forall good_name (Py.keys files).

End Names.

(* ================================================================== *)
(** * terraform_generator.py: [generate] and [save_files] *)
(* ================================================================== *)

Module Generate.

Import Re Generator.

(** [s.replace(old, new)] for an [old] that is not empty: the occurrences
    of [old] from left to right, without overlap; [skip] characters of an
    occurrence are still to be passed. *)
Fixpoint replace_from (old new : string) (skip : nat) (s : string) : string :=
  match s with
  | EmptyString => EmptyString
  | String c s' =>
      match skip with
      | S skip' => replace_from old new skip' s'
      | 0 =>
          if Py.startswith s old
          then new ++ replace_from old new (Nat.pred (String.length old)) s'
          else String c (replace_from old new 0 s')
      end
  end.
Definition replace (s old new : string) : string := replace_from old new 0 s.

(** ["="*80] *)
Definition rule : string := String.concat "" (repeat "=" 80).

Definition debug_file (task_id : string) : string :=
  "debug/" ++ task_id ++ "/llm_response_" ++ task_id ++ ".txt".
Definition debug_text (prompt response : string) : string :=
  rule ++ Py.nl ++ "PROMPT" ++ Py.nl ++ rule ++ Py.nl ++ prompt
       ++ Py.nl ++ Py.nl ++ rule ++ Py.nl ++ "LLM RESPONSE" ++ Py.nl ++ rule ++ Py.nl
       ++ response.

(** [rf'{re.escape(filename)}[:\s]*\n(.*?)(?=\n(?:variables|outputs|main)\.tf|$)'],
    [rf'#{re.escape(filename)}[:\s]*\n(.*?)(?=\n#\w+\.tf|$)'] and
    [rf'File:\s*{re.escape(filename)}[:\s]*\n(.*?)(?=\nFile:|$)'] *)
Definition patterns (filename : string) : list Regex :=
  [ seq [ Lit filename; colon_or_space; Lit Py.nl; body 1;
          Ahead (Alt (seq [ Lit Py.nl;
                            alt (Lit "variables") [Lit "outputs"; Lit "main"];
                            Lit ".tf" ])
                     Eol) ];
    seq [ Lit "#"; Lit filename; colon_or_space; Lit Py.nl; body 1;
          Ahead (Alt (seq [Lit Py.nl; Lit "#"; tf_name]) Eol) ];
    seq [ Lit "File:"; Many Space 0 false; Lit filename; colon_or_space; Lit Py.nl;
          body 1;
          Ahead (Alt (seq [Lit Py.nl; Lit "File:"]) Eol) ] ].

(** [for pattern in patterns: ...], with its [break] *)
Fixpoint try_patterns (response filename : string) (ps : list Regex) (files : files_t)
  : files_t :=
  match ps with
  | [] => files
  | pattern :: ps' =>
      match search DOTALL_IGNORECASE pattern response with
      | Some m =>
          let code := strip (group_or_empty m 1) in
          let code := remove MULTILINE_only opening_fence code in
          let code := remove MULTILINE_only closing_fence code in
          if nonempty code && Nat.ltb 20 (String.length code)
          then Py.set files filename code                          (* break *)
          else try_patterns response filename ps' files
      | None => try_patterns response filename ps' files
      end
  end.

(** Last resort: try to extract from raw response more aggressively *)
Definition last_resort (response : string) (files : files_t) (filename : string)
  : files_t :=
  try_patterns response filename (patterns filename) files.

(** The test under [# Reject if it's just a header or placeholder];
    [and] binds tighter than [or]. *)
Definition rejected (content : string) : bool :=
  Nat.ltb (String.length content) 50
  || match match_ no_flags only_a_header (strip content) with
     | Some _ => true
     | None => false
     end
  || (Py.startswith (strip content) "#" && Py.contains "placeholder" (Py.lower content))
  || (Py.startswith (strip content) "#" && Py.contains "failed" (Py.lower content)).

(** [for filename in list(files.keys()): if ...: del files[filename]] *)
Definition validate (files : files_t) : files_t :=
  filter (fun entry => negb (rejected (snd entry))) files.

Definition placeholder (filename task_id : string) : string :=
  "# " ++ filename ++ Py.nl ++ "# Code generation failed - placeholder file" ++ Py.nl
       ++ "# Check debug/" ++ task_id ++ "/llm_response_" ++ task_id
       ++ ".txt for raw LLM response".

(** [if filename not in files: files[filename] = f"# {filename}..."] *)
Definition fill (task_id : string) (files : files_t) (filename : string) : files_t :=
  if Py.mem filename (Py.keys files) then files
  else Py.set files filename (placeholder filename task_id).

(** What [generate] does with the response of the model. *)
Definition files_of (response task_id : string) : files_t :=
  (* Extract code blocks *)
  let files := extract_code_blocks response in
  (* Validate extracted files *)
  let missing := filter (fun f => negb (Py.mem f (Py.keys files))) required in
  let files := fold_left (last_resort response) missing files in
  (* Validate extracted files - reject headers or placeholders *)
  let files := validate files in
  (* Final check: if still missing, create placeholders *)
  fold_left (fill task_id) required files.

(** [TerraformGenerator.generate]: the mapping it returns and the file it
    writes.  [llm] is [self.llm_client.generate] with the temperature 0.0
    and at most 1000 tokens. *)
Definition generate (llm : string -> string) (prompt task_id : string)
           (save_raw_response : bool) : files_t * list (string * string) :=
  let prompt := replace prompt "<task_id>" task_id in
  let response := llm prompt in
  let written :=
    if save_raw_response then [(debug_file task_id, debug_text prompt response)] else [] in
  (files_of response task_id, written).

(** [TerraformGenerator.save_files]: the files written under [output_dir]. *)
Definition save_files (files : files_t) (output_dir : string) : list (string * string) :=
  map (fun entry => (output_dir ++ "/" ++ fst entry, snd entry)) files.

(** ** A response to generate from *)

(** Three blocks whose bodies are long enough to pass the validation. *)
Definition long_response : string :=
  lines [ "```main.tf";
          "resource aws_vpc main { cidr_block = var.cidr, enable_dns_support = true }";
          "```";
          "```variables.tf";
          "variable cidr { type = string, description = the range of the VPC }";
          "```";
          "```outputs.tf";
          "output vpc_id { value = aws_vpc.main.id, description = the id of the VPC }";
          "```"; "" ].

End Generate.

(* ================================================================== *)
(** * runner/checks.py: the other checkers *)
(* ================================================================== *)

Module MoreChecks.

Import Checks.

(** ** The control plane of the other checkers *)

Record Attachment := { att_VpcId : option string }.
Record InternetGateway := { Attachments : list Attachment }.
(** A key that a response leaves out is [None]. *)
Record Route := {
  DestinationCidrBlock : option string;
  GatewayId : option string;
  NatGatewayId : option string
}.
Record Association := { assoc_SubnetId : option string }.
Record RouteTable := { Routes : list Route; Associations : list Association }.
Record NatGateway := { nat_SubnetId : option string }.
(** ['IamInstanceProfile'] of an instance, when it has one *)
Record ProfiledInstance := { IamInstanceProfile : option (Py.dict string) }.

(** The calls of [ec2_client] that the first two checkers do not make. *)
Record Ec2More := {
  (** [describe_internet_gateways(InternetGatewayIds=...)], ['InternetGateways'] *)
  describe_internet_gateways : list string -> Response (list InternetGateway);
  (** [describe_route_tables(RouteTableIds=...)], ['RouteTables'] *)
  describe_route_tables : list string -> Response (list RouteTable);
  (** [describe_route_tables] filtered by [vpc-id], ['RouteTables'] *)
  describe_route_tables_of : string -> Response (list RouteTable);
  (** [describe_subnets(SubnetIds=..., Filters=tag:task_id)], ['Subnets'] *)
  describe_subnets_by_id : list string -> string -> Response (list Subnet);
  (** [describe_nat_gateways(NatGatewayIds=...)], ['NatGateways'] *)
  describe_nat_gateways : list string -> Response (list NatGateway);
  (** [describe_instances(InstanceIds=...)]: ['Instances'] of each of
      ['Reservations'] *)
  describe_instances_by_id : list string -> Response (list (list ProfiledInstance))
}.

Record IamClient := {
  get_role : string -> Response unit;
  (** ['Roles'] of ['InstanceProfile'] *)
  get_instance_profile : string -> Response (list string)
}.

(** ** Python values *)

(** [a == b] for two values that are a string or [None] *)
Definition same (a b : option string) : bool :=
  match a, b with
  | Some x, Some y => String.eqb x y
  | None, None => true
  | _, _ => false
  end.

(** [s.split(sep)] for a separator of one character *)
Fixpoint split_on (sep : ascii) (s : string) : list string :=
  match s with
  | EmptyString => [EmptyString]
  | String c s' =>
      if Ascii.eqb c sep then EmptyString :: split_on sep s'
      else match split_on sep s' with
           | x :: xs => String c x :: xs
           | [] => [String c EmptyString]
           end
  end.

(** [arn.split('/')[-1] if '/' in arn else arn] *)
Definition name_of_arn (arn : string) : string :=
  if Py.contains "/" arn then last (split_on "/" arn) EmptyString else arn.

(** [next((r for r in routes if r.get('DestinationCidrBlock') == '0.0.0.0/0'), None)] *)
Definition default_route (routes : list Route) : option Route :=
  find (fun r => same (DestinationCidrBlock r) (Some "0.0.0.0/0")) routes.

(** ** [_check_vpc_internet_gateway] *)

(** [# Check Internet Gateway] *)
Definition check_internet_gateway (ec2 : Ec2More) (expected_checks : Py.dict Expected)
           (vpc_id : string) (internet_gateway_id : option string) (v : Verdict) : Verdict :=
  if falsy internet_gateway_id then v else
  match describe_internet_gateways ec2 [the internet_gateway_id] with
  | Ok igws =>
      let igw_count := List.length igws in
      let v := compare_count expected_checks "internet_gateway_count" 1
                             "Internet Gateway" "internet_gateway" igw_count v in
      (* Check IGW is attached to VPC *)
      match igws with
      | igw :: _ =>
          let vpc_attached :=
            existsb (fun att => same (att_VpcId att) (Some vpc_id)) (Attachments igw) in
          if vpc_attached then wire "internet_gateway_attached_to_vpc" true v
          else failed "Internet Gateway not attached to VPC" v
      | [] => v
      end
  | ClientError e => failed ("Failed to describe Internet Gateway: " ++ e) v
  end.

(** [# Check Route Table] *)
Definition check_route_table (ec2 : Ec2More) (expected_checks : Py.dict Expected)
           (internet_gateway_id route_table_id subnet_id : option string) (v : Verdict)
  : Verdict :=
  if falsy route_table_id then v else
  match describe_route_tables ec2 [the route_table_id] with
  | Ok rts =>
      let rt_count := List.length rts in
      let v := compare_count expected_checks "route_table_count" 1
                             "Route Table" "route_table" rt_count v in
      match rts with
      | rt :: _ =>
          (* Check default route to IGW *)
          let v :=
            match default_route (Routes rt) with
            | Some route =>
                if same (GatewayId route) internet_gateway_id
                then wire "route_table_has_default_route_to_igw" true v
                else failed "Route Table missing default route to Internet Gateway" v
            | None => failed "Route Table missing default route to Internet Gateway" v
            end in
          (* Check subnet association *)
          let subnet_associated :=
            existsb (fun a => same (assoc_SubnetId a) subnet_id) (Associations rt) in
          if subnet_associated then wire "subnet_associated_with_route_table" true v
          else failed "Subnet not associated with Route Table" v
      | [] => v
      end
  | ClientError e => failed ("Failed to describe Route Table: " ++ e) v
  end.

(** [# Check Subnet] *)
Definition check_subnet (ec2 : Ec2More) (task_id : string)
           (expected_checks : Py.dict Expected) (subnet_id : option string) (v : Verdict)
  : Verdict :=
  if falsy subnet_id then v else
  match describe_subnets_by_id ec2 [the subnet_id] task_id with
  | Ok subnets =>
      compare_count expected_checks "subnet_count" 1 "subnet" "subnet"
                    (List.length subnets) v
  | ClientError e => failed ("Failed to describe Subnet: " ++ e) v
  end.

Definition _check_vpc_internet_gateway (ec2_client : Ec2Client) (ec2 : Ec2More)
           (outputs : Outputs) (task_id : string) (expected_checks : Py.dict Expected)
  : Verdict :=
  let v := start in
  let vpc_id := value outputs "vpc_id" in
  let internet_gateway_id := value outputs "internet_gateway_id" in
  let route_table_id := value outputs "route_table_id" in
  let subnet_id := value outputs "subnet_id" in
  if falsy vpc_id then stop_with "VPC ID not found in outputs" else
  let vpc_id := the vpc_id in
  let v := detail "vpc_id" (DValue (Some vpc_id)) v in
  let v := detail "internet_gateway_id" (DValue internet_gateway_id) v in
  let v := detail "route_table_id" (DValue route_table_id) v in
  let v := detail "subnet_id" (DValue subnet_id) v in
  (* Check VPC *)
  match describe_vpcs ec2_client [vpc_id] with
  | ClientError e => stop_with ("Failed to describe VPC: " ++ e)
  | Ok vpcs =>
      let v := compare_count expected_checks "vpc_count" 1 "VPC" "vpc"
                             (List.length vpcs) v in
      let v := check_internet_gateway ec2 expected_checks vpc_id internet_gateway_id v in
      let v := check_route_table ec2 expected_checks internet_gateway_id route_table_id
                                 subnet_id v in
      check_subnet ec2 task_id expected_checks subnet_id v
  end.

(** ** [_check_vpc_nat_gateway] *)

(** [# Check NAT Gateway] *)
Definition check_nat_gateway (ec2 : Ec2More) (expected_checks : Py.dict Expected)
           (nat_gateway_id public_subnet_id : option string) (v : Verdict) : Verdict :=
  if falsy nat_gateway_id then v else
  match describe_nat_gateways ec2 [the nat_gateway_id] with
  | Ok nats =>
      let nat_count := List.length nats in
      let v := compare_count expected_checks "nat_gateway_count" 1
                             "NAT Gateway" "nat_gateway" nat_count v in
      match nats with
      | nat :: _ =>
          if same (nat_SubnetId nat) public_subnet_id
          then wire "nat_gateway_in_public_subnet" true v
          else failed "NAT Gateway not in public subnet" v
      | [] => v
      end
  | ClientError e => failed ("Failed to describe NAT Gateway: " ++ e) v
  end.

(** [for rt in rt_response['RouteTables']: ...] *)
Definition route_loop (rts : list RouteTable) (v : Verdict) : Verdict :=
  fold_left
    (fun v rt =>
       match default_route (Routes rt) with
       | Some route =>
           match GatewayId route, NatGatewayId route with
           | Some _, _ => wire "public_route_to_igw" true v
           | None, Some _ => wire "private_route_to_nat" true v
           | None, None => v
           end
       | None => v
       end)
    rts v.

(** [# Check route tables] of the NAT checker *)
Definition check_nat_routes (ec2 : Ec2More) (expected_checks : Py.dict Expected)
           (vpc_id : string) (v : Verdict) : Verdict :=
  match describe_route_tables_of ec2 vpc_id with
  | Ok rts =>
      let rt_count := List.length rts in
      let expected_rt :=
        (int_of (Py.get_default expected_checks "public_route_table_count" (EInt 0))
         + int_of (Py.get_default expected_checks "private_route_table_count" (EInt 0)))%Z in
      let v := if Z.ltb (Z.of_nat rt_count) expected_rt
               then failed ("Expected at least " ++ Py.str_of_Z expected_rt
                              ++ " route tables, found " ++ Py.str_of_nat rt_count) v
               else v in
      let v := count "route_table" rt_count v in
      route_loop rts v
  | ClientError e => failed ("Failed to describe Route Tables: " ++ e) v
  end.

Definition _check_vpc_nat_gateway (ec2_client : Ec2Client) (ec2 : Ec2More)
           (outputs : Outputs) (task_id : string) (expected_checks : Py.dict Expected)
  : Verdict :=
  let v := start in
  let vpc_id := value outputs "vpc_id" in
  let nat_gateway_id := value outputs "nat_gateway_id" in
  let public_subnet_id := value outputs "public_subnet_id" in
  let private_subnet_id := value outputs "private_subnet_id" in
  if falsy vpc_id then stop_with "VPC ID not found in outputs" else
  let vpc_id := the vpc_id in
  let v := detail "vpc_id" (DValue (Some vpc_id)) v in
  let v := detail "nat_gateway_id" (DValue nat_gateway_id) v in
  (* Check VPC *)
  match describe_vpcs ec2_client [vpc_id] with
  | ClientError e => stop_with ("Failed to describe VPC: " ++ e)
  | Ok vpcs =>
      let v := count "vpc" (List.length vpcs) v in
      let v := check_nat_gateway ec2 expected_checks nat_gateway_id public_subnet_id v in
      check_nat_routes ec2 expected_checks vpc_id v
  end.

(** ** [_check_ec2_instance_profile] *)

(** [# Check instance] *)
Definition check_instance (ec2 : Ec2More) (expected_checks : Py.dict Expected)
           (instance_id : string) (v : Verdict) : Verdict :=
  match describe_instances_by_id ec2 [instance_id] with
  | Ok reservations =>
      let instances := List.concat reservations in
      let instance_count := List.length instances in
      let v := compare_count expected_checks "instance_count" 1 "instance" "instance"
                             instance_count v in
      match instances with
      | instance :: _ =>
          match IamInstanceProfile instance with
          | Some (_ :: _) => wire "instance_profile_attached_to_instance" true v
          | _ => failed "Instance profile not attached to instance" v
          end
      | [] => v
      end
  | ClientError e => failed ("Failed to describe instance: " ++ e) v
  end.

(** [# Check IAM role] *)
Definition check_iam_role (iam_client : IamClient) (role_arn : option string) (v : Verdict)
  : Verdict :=
  if falsy role_arn then v else
  let role_name := name_of_arn (the role_arn) in
  match get_role iam_client role_name with
  | Ok _ => count "iam_role" 1 v
  | ClientError e => failed ("Failed to get IAM role: " ++ e) v
  end.

(** [# Check instance profile] *)
Definition check_instance_profile (iam_client : IamClient)
           (instance_profile_arn : option string) (v : Verdict) : Verdict :=
  if falsy instance_profile_arn then v else
  let profile_name := name_of_arn (the instance_profile_arn) in
  match get_instance_profile iam_client profile_name with
  | Ok roles =>
      let v := count "instance_profile" 1 v in
      match roles with
      | _ :: _ => wire "role_attached_to_instance_profile" true v
      | [] => v
      end
  | ClientError e => failed ("Failed to get instance profile: " ++ e) v
  end.

Definition _check_ec2_instance_profile (ec2 : Ec2More) (iam_client : IamClient)
           (outputs : Outputs) (task_id : string) (expected_checks : Py.dict Expected)
  : Verdict :=
  let v := start in
  let instance_id := value outputs "instance_id" in
  let role_arn := value outputs "iam_role_arn" in
  let instance_profile_arn := value outputs "instance_profile_arn" in
  if falsy instance_id then stop_with "Instance ID not found in outputs" else
  let instance_id := the instance_id in
  let v := detail "instance_id" (DValue (Some instance_id)) v in
  let v := detail "role_arn" (DValue role_arn) v in
  let v := detail "instance_profile_arn" (DValue instance_profile_arn) v in
  let v := check_instance ec2 expected_checks instance_id v in
  let v := check_iam_role iam_client role_arn v in
  check_instance_profile iam_client instance_profile_arn v.

(** ** [_check_vpc_multiple_route_tables] *)

(** The subnets that the loop over the associations collects in the set
    [associated_subnets]. *)
Definition associated_subnets (rts : list RouteTable) : list string :=
  nodup string_dec
        (flat_map
           (fun rt =>
              flat_map (fun a => match assoc_SubnetId a with
                                 | Some s => if String.eqb s "" then [] else [s]
                                 | None => []
                                 end)
                       (Associations rt))
           rts).

(** [# Check subnets] *)
Definition check_subnet_count (ec2_client : Ec2Client) (task_id : string)
           (expected_checks : Py.dict Expected) (vpc_id : string) (v : Verdict) : Verdict :=
  match describe_subnets ec2_client vpc_id task_id with
  | Ok subnets =>
      compare_count expected_checks "subnet_count" 3 "subnets" "subnet"
                    (List.length subnets) v
  | ClientError e => failed ("Failed to describe subnets: " ++ e) v
  end.

(** [# Check route tables] *)
Definition check_route_tables (ec2 : Ec2More) (expected_checks : Py.dict Expected)
           (vpc_id : string) (subnet_ids : list string) (v : Verdict) : Verdict :=
  match describe_route_tables_of ec2 vpc_id with
  | Ok rts =>
      let v := compare_count expected_checks "route_table_count" 2 "route tables"
                             "route_table" (List.length rts) v in
      (* Check associations *)
      if Nat.eqb (List.length (associated_subnets rts)) (List.length subnet_ids)
      then wire "all_subnets_associated_with_route_tables" true v
      else failed "Not all subnets are associated with route tables" v
  | ClientError e => failed ("Failed to describe Route Tables: " ++ e) v
  end.

Definition _check_vpc_multiple_route_tables (ec2_client : Ec2Client) (ec2 : Ec2More)
           (outputs : Outputs) (task_id : string) (expected_checks : Py.dict Expected)
  : Verdict :=
  let v := start in
  let vpc_id := value outputs "vpc_id" in
  let subnet_ids := list_value outputs "subnet_ids" in
  let route_table_ids := list_value outputs "route_table_ids" in
  if falsy vpc_id then stop_with "VPC ID not found in outputs" else
  let vpc_id := the vpc_id in
  let v := detail "vpc_id" (DValue (Some vpc_id)) v in
  let v := detail "subnet_ids" (DList subnet_ids) v in
  let v := detail "route_table_ids" (DList route_table_ids) v in
  (* Check VPC *)
  match describe_vpcs ec2_client [vpc_id] with
  | ClientError e => stop_with ("Failed to describe VPC: " ++ e)
  | Ok vpcs =>
      let v := count "vpc" (List.length vpcs) v in
      let v := check_subnet_count ec2_client task_id expected_checks vpc_id v in
      check_route_tables ec2 expected_checks vpc_id subnet_ids v
  end.

(** ** [run_checks] with these checkers *)

(** [run_checks] with everything but the IAM checker, which stays a
    parameter. *)
Definition run_checks_with (ec2_client : Ec2Client) (ec2 : Ec2More) (s3_client : S3Client)
           (iam_client : IamClient)
           (_check_iam_role_policy : Outputs -> string -> Py.dict Expected -> Outcome Verdict)
           (spec_checks : option (Py.dict Expected)) (outputs_file : option Outputs)
           (task_id : string) : Outcome CheckResult :=
  Checks.run_checks
    ec2_client s3_client _check_iam_role_policy
    (fun outputs task_id expected_checks =>
       Return (_check_vpc_internet_gateway ec2_client ec2 outputs task_id expected_checks))
    (fun outputs task_id expected_checks =>
       Return (_check_vpc_nat_gateway ec2_client ec2 outputs task_id expected_checks))
    (fun outputs task_id expected_checks =>
       Return (_check_ec2_instance_profile ec2 iam_client outputs task_id expected_checks))
    (fun outputs task_id expected_checks =>
       Return (_check_vpc_multiple_route_tables ec2_client ec2 outputs task_id
                                                expected_checks))
    spec_checks outputs_file task_id.

(** ** What the checkers keep *)

(** [tidy] holds of the verdict a block returns, if it returns. *)
Definition kept (tidy : Verdict -> Prop) (o : Outcome Verdict) : Prop :=
  match o with
  | Return v => tidy v
  | Raise _ => True
  end.

(** a verdict passes exactly when it has no error *)
Definition consistent (v : Verdict) : Prop := pass_check v = true <-> errors v = [].

(** a verdict has no wiring entry that is false *)
Definition unbroken (v : Verdict) : Prop :=
  forall key, Py.get (wiring v) key <> Some false.

(** ** Where the S3 checker reaches [log_warn] *)

(** A block raises [NameError] when [reached], and returns otherwise. *)
Definition trips (reached : bool) (o : Outcome Verdict) : Prop :=
  if reached then o = Raise (NameError "log_warn") else exists v, o = Return v.


(** the query was refused, and not with the code that says "none" *)
Definition unexpected {A} (code : string) (r : Response A) : bool :=
  match r with
  | ClientError e => negb (Py.contains code e)
  | Ok _ => false
  end.

Definition refused {A} (r : Response A) : bool :=
  match r with
  | ClientError _ => true
  | Ok _ => false
  end.

(** One of the five handlers of [_check_s3_tasks] calls [log_warn]. *)
Definition log_warn_reached (s3_client : S3Client) (expected_checks : Py.dict Expected)
           (bucket_id : string) : bool :=
  (truthy (Py.get expected_checks "versioning_enabled")
   && refused (get_bucket_versioning s3_client bucket_id))
  || (truthy (Py.get expected_checks "lifecycle_rule_count")
      && unexpected "NoSuchLifecycleConfiguration"
                    (get_bucket_lifecycle_configuration s3_client bucket_id))
  || (truthy (Py.get expected_checks "public_access_block_count")
      && unexpected "NoSuchPublicAccessBlockConfiguration"
                    (get_public_access_block s3_client bucket_id))
  || (truthy (Py.get expected_checks "bucket_policy_count")
      && unexpected "NoSuchBucketPolicy" (get_bucket_policy s3_client bucket_id))
  || (truthy (Py.get expected_checks "cors_configuration_count")
      && unexpected "NoSuchCORSConfiguration" (get_bucket_cors s3_client bucket_id)).

(** The keys of [expected_checks] that [_check_s3_tasks] reads. *)
Definition s3_expectations : list string :=
  [ "versioning_enabled"; "lifecycle_rule_count"; "public_access_block_count";
    "bucket_policy_count"; "cors_configuration_count" ].

(** ** Control planes to check against *)

Definition quiet_ec2 : Ec2More :=
  {| describe_internet_gateways := fun _ => Ok [];
     describe_route_tables := fun _ => Ok [];
     describe_route_tables_of := fun _ => Ok [];
     describe_subnets_by_id := fun _ _ => Ok [];
     describe_nat_gateways := fun _ => Ok [];
     describe_instances_by_id := fun _ => Ok [] |}.

Definition quiet_iam : IamClient :=
  {| get_role := fun _ => Ok tt; get_instance_profile := fun _ => Ok [] |}.

(** A route table whose default route goes through a NAT gateway and whose
    only association is the main one. *)
Definition private_table : RouteTable :=
  {| Routes := [ {| DestinationCidrBlock := Some "10.0.0.0/16"; GatewayId := Some "local";
                    NatGatewayId := None |};
                 {| DestinationCidrBlock := Some "0.0.0.0/0"; GatewayId := None;
                    NatGatewayId := Some "nat-0c1d" |} ];
     Associations := [ {| assoc_SubnetId := None |} ] |}.

Definition private_ec2 : Ec2More :=
  {| describe_internet_gateways := fun _ => Ok [];
     describe_route_tables := fun _ => Ok [private_table];
     describe_route_tables_of := fun _ => Ok [private_table];
     describe_subnets_by_id := fun _ _ => Ok [];
     describe_nat_gateways := fun _ => Ok [];
     describe_instances_by_id := fun _ => Ok [] |}.

(** Outputs with a VPC and a route table, and neither gateway nor subnet. *)
Definition table_outputs : Outputs :=
  {| scalars := [("vpc_id", Some "vpc-0a1b"); ("route_table_id", Some "rtb-1")];
     lists := [] |}.

(** Two route tables associated with two subnets that the outputs do not
    list. *)
Definition other_tables : list RouteTable :=
  [ {| Routes := []; Associations := [ {| assoc_SubnetId := Some "subnet-x" |} ] |};
    {| Routes := []; Associations := [ {| assoc_SubnetId := Some "subnet-y" |};
                                       {| assoc_SubnetId := Some "subnet-x" |} ] |} ].

Definition other_ec2 : Ec2More :=
  {| describe_internet_gateways := fun _ => Ok [];
     describe_route_tables := fun _ => Ok other_tables;
     describe_route_tables_of := fun _ => Ok other_tables;
     describe_subnets_by_id := fun _ _ => Ok [];
     describe_nat_gateways := fun _ => Ok [];
     describe_instances_by_id := fun _ => Ok [] |}.

Definition two_subnet_outputs : Outputs :=
  {| scalars := [("vpc_id", Some "vpc-0a1b")];
     lists := [("subnet_ids", ["subnet-a"; "subnet-b"]);
               ("route_table_ids", ["rtb-1"; "rtb-2"])] |}.

Definition no_expectations : Py.dict Expected :=
  [ ("versioning_enabled", EBool false); ("lifecycle_rule_count", EInt 0) ].

End MoreChecks.

(* ================================================================== *)
(** * benchmark.py *)
(* ================================================================== *)

Module Benchmark.

(** [f"{provider}_{model.replace('-', '_').replace('/', '_')}"], the name
    of the directories of a model in [run_single_benchmark]. *)
Definition model_name (provider model : string) : string :=
  provider ++ "_" ++ Generate.replace (Generate.replace model "-" "_") "/" "_".

End Benchmark.

(* ================================================================== *)
(** * Properties of the decomposition *)
(* ================================================================== *)

Section GeneratorProperties.

Import Re Generator.

(** ** The matcher stays within its fuel *)

Lemma eat_shrinks fl lit : forall p s p' s',
  eat fl lit p s = Some (p', s') -> String.length s' <= String.length s.
Proof.
  induction lit as [|a lit IH]; intros p s p' s'; cbn [eat].
  - intros [= _ <-]. lia.
  - destruct s as [|c s]; [ discriminate | ].
    destruct (same_char fl a c); [ | discriminate ].
    intros H. apply IH in H. cbn [String.length]. lia.
Qed.

Lemma greedy_shrinks ok g k x : forall s min p,
  greedy ok min p s g k = Some x ->
  exists st, String.length (rest st) <= String.length s /\ k st = Some x.
Proof.
  induction s as [|c s IH]; intros min p; cbn [greedy].
  - destruct (Nat.eqb min 0); [ | discriminate ].
    intros H. eexists. split; [ | exact H ]. cbn. lia.
  - assert (Hstop : (if Nat.eqb min 0
                     then k {| prev := p; rest := String c s; groups := g |}
                     else None) = Some x ->
                    exists st, String.length (rest st) <= String.length (String c s)
                               /\ k st = Some x).
    { destruct (Nat.eqb min 0); [ | discriminate ].
      intros H. eexists. split; [ | exact H ]. cbn. lia. }
    destruct (ok c); [ | exact Hstop ].
    destruct (greedy ok (Nat.pred min) (Some c) s g k) as [y|] eqn:E; [ | exact Hstop ].
    intros [= <-]. apply IH in E. destruct E as (st & Hl & Hk).
    exists st. split; [ cbn [String.length]; lia | exact Hk ].
Qed.

Lemma lazily_shrinks ok g k x : forall s min p,
  lazily ok min p s g k = Some x ->
  exists st, String.length (rest st) <= String.length s /\ k st = Some x.
Proof.
  induction s as [|c s IH]; intros min p; cbn [lazily].
  - destruct (Nat.eqb min 0).
    + destruct (k _) as [y|] eqn:E; [ | discriminate ].
      intros [= <-]. eexists. split; [ | exact E ]. cbn. lia.
    + discriminate.
  - destruct (if Nat.eqb min 0 then k _ else None) as [y|] eqn:E.
    + intros [= <-]. destruct (Nat.eqb min 0); [ | discriminate ].
      eexists. split; [ | exact E ]. cbn. lia.
    + destruct (ok c); [ | discriminate ].
      intros H. apply IH in H. destruct H as (st & Hl & Hk).
      exists st. split; [ cbn [String.length]; lia | exact Hk ].
Qed.

(** The matcher only moves forward: what the continuation accepts is a
    position at or after the one the matcher started from. *)
Lemma exec_shrinks fl r : forall st k x,
  exec fl r st k = Some x ->
  exists st', String.length (rest st') <= String.length (rest st) /\ k st' = Some x.
Proof.
  induction r as [lit|cs min lazy|r IH|r1 IH1 r2 IH2|r1 IH1 r2 IH2|n r IH|r IH| |];
    intros st k x; cbn [exec].
  - destruct (eat fl lit (prev st) (rest st)) as [[p s']|] eqn:E; [ | discriminate ].
    intros H. apply eat_shrinks in E. eexists. split; [ | exact H ]. exact E.
  - destruct lazy; [ apply lazily_shrinks | apply greedy_shrinks ].
  - destruct (exec fl r st k) as [y|] eqn:E.
    + intros [= <-]. now apply IH.
    + intros H. exists st. split; [ lia | exact H ].
  - intros H. apply IH1 in H. destruct H as (st1 & Hl1 & H).
    apply IH2 in H. destruct H as (st2 & Hl2 & H).
    exists st2. split; [ lia | exact H ].
  - destruct (exec fl r1 st k) as [y|] eqn:E.
    + intros [= <-]. now apply IH1.
    + apply IH2.
  - intros H. apply IH in H. destruct H as (st' & Hl & H).
    eexists. split; [ | exact H ]. exact Hl.
  - destruct (exec fl r st Some); [ | discriminate ].
    intros H. exists st. split; [ lia | exact H ].
  - destruct (at_bol fl st); [ | discriminate ].
    intros H. exists st. split; [ lia | exact H ].
  - destruct (at_eol fl st); [ | discriminate ].
    intros H. exists st. split; [ lia | exact H ].
Qed.

Lemma substring_nothing s : substring 0 0 s = "".
Proof. destruct s; reflexivity. Qed.

Lemma match_here_shrinks fl r p s m :
  match_here fl r p s = Some m ->
  String.length (rest (stop m)) <= String.length s
  /\ (matched m <> "" -> String.length (rest (stop m)) < String.length s).
Proof.
  unfold match_here.
  destruct (exec fl r _ Some) as [st'|] eqn:E; [ | discriminate ].
  intros [= <-]. apply exec_shrinks in E. destruct E as (st'' & Hl & [= ->]).
  cbn [rest stop matched] in *. split; [ exact Hl | ].
  unfold consumed. cbn [rest]. intros Hne.
  destruct (Nat.eq_dec (String.length (rest st')) (String.length s)) as [E|E]; [ | lia ].
  exfalso. apply Hne. rewrite E, Nat.sub_diag. apply substring_nothing.
Qed.

Lemma scan_shrinks fl r : forall s p m,
  scan fl r p s = Some m ->
  String.length (rest (stop m)) <= String.length s
  /\ (matched m <> "" -> String.length (rest (stop m)) < String.length s).
Proof.
  induction s as [|c s IH]; intros p m; cbn [scan].
  - destruct (match_here fl r p "") as [m'|] eqn:E; [ | discriminate ].
    intros [= <-]. now apply match_here_shrinks in E.
  - destruct (match_here fl r p (String c s)) as [m'|] eqn:E.
    + intros [= <-]. now apply match_here_shrinks in E.
    + destruct (scan fl r (Some c) s) as [m'|] eqn:E'; [ | discriminate ].
      intros [= <-]. apply IH in E'. cbn [stop matched String.length].
      destruct E' as (Hl & Hlt). split; [ lia | ]. intros Hne. specialize (Hlt Hne). lia.
Qed.

(** Every round of [matches_from] passes at least one character, so any
    fuel above the length of the text gives the same matches. *)
Lemma matches_fuel fl r : forall n1 n2 pre p s,
  String.length s < n1 -> String.length s < n2 ->
  matches_from n1 fl r pre p s = matches_from n2 fl r pre p s.
Proof.
  induction n1 as [|n1 IH]; intros n2 pre p s H1 H2; [ lia | ].
  destruct n2 as [|n2]; [ lia | ].
  cbn [matches_from].
  destruct (scan fl r p s) as [m|] eqn:E; [ | reflexivity ].
  apply scan_shrinks in E. destruct E as (Hl & Hlt).
  destruct (matched m) as [|a t].
  - destruct (rest (stop m)) as [|c s'] eqn:Er; [ reflexivity | ].
    cbn [String.length] in Hl.
    rewrite (IH n2 (String c "") (Some c) s') by lia. reflexivity.
  - assert (Hs : String.length (rest (stop m)) < String.length s)
      by (apply Hlt; discriminate).
    rewrite (IH n2 "" (prev (stop m)) (rest (stop m))) by lia. reflexivity.
Qed.

Lemma finditer_fuel fl r s n :
  String.length s < n -> fst (matches_from n fl r "" None s) = finditer fl r s.
Proof.
  intros H. unfold finditer. now rewrite (matches_fuel fl r n (S (String.length s))) by lia.
Qed.

(** ** The mapping *)

Lemma mem_true x l : Py.mem x l = true <-> In x l.
Proof.
  unfold Py.mem. rewrite existsb_exists. split.
  - intros (y & Hy & E). apply String.eqb_eq in E. now subst.
  - intros H. exists x. split; [ exact H | apply String.eqb_refl ].
Qed.



Lemma get_set_same {V} (d : Py.dict V) k v : Py.get (Py.set d k v) k = Some v.
Proof.
  induction d as [|[k' v'] d IH]; cbn.
  - now rewrite String.eqb_refl.
  - destruct (String.eqb k k') eqn:E; cbn; rewrite E; auto.
Qed.

Lemma get_set_other {V} (d : Py.dict V) k k' v :
  String.eqb k' k = false -> Py.get (Py.set d k v) k' = Py.get d k'.
Proof.
  intros Hk. induction d as [|[k0 v0] d IH]; cbn.
  - now rewrite Hk.
  - destruct (String.eqb k k0) eqn:E; cbn.
    + apply String.eqb_eq in E. subst k0. now rewrite Hk.
    + destruct (String.eqb k' k0); auto.
Qed.











(** ** Strings *)

Lemma app_assoc_s (a b c : string) : (a ++ b) ++ c = a ++ (b ++ c).
Proof. induction a; cbn; congruence. Qed.

Lemma app_empty_r (a : string) : a ++ "" = a.
Proof. induction a; cbn; congruence. Qed.

Lemma length_app (a b : string) : String.length (a ++ b) = String.length a + String.length b.
Proof. induction a; cbn; congruence. Qed.

Lemma substring_prefix (a b : string) : substring 0 (String.length a) (a ++ b) = a.
Proof.
  induction a; cbn.
  - destruct b; reflexivity.
  - now rewrite IHa.
Qed.

Lemma consumed_app (a : string) from to :
  rest from = a ++ rest to -> consumed from to = a.
Proof.
  intros H. unfold consumed. rewrite H, length_app.
  replace (String.length a + String.length (rest to) - String.length (rest to))
    with (String.length a) by lia.
  apply substring_prefix.
Qed.

Lemma last_or_app p a b : last_or p (a ++ b) = last_or (last_or p a) b.
Proof. revert p. induction a; cbn; auto. Qed.














Lemma startswith_empty s : Py.startswith s "" = true.
Proof. destruct s; reflexivity. Qed.




Lemma all_chars_app ok a b :
  all_chars ok (a ++ b) = all_chars ok a && all_chars ok b.
Proof.
  induction a as [|c a IH]; cbn; [ reflexivity | ]. rewrite IH. apply andb_assoc.
Qed.

(** ** [pattern1] on a named block *)
























Lemma substring_suffix (a b : string) :
  substring (String.length a) (String.length b) (a ++ b) = b.
Proof.
  induction a as [|c a IH]; cbn [String.length append substring].
  - rewrite <- (app_empty_r b) at 2. apply substring_prefix.
  - exact IH.
Qed.





(** ** Assignments that do not look at the mapping *)















(** ** The filenames of the mapping *)

Import Names.

Lemma step_refl g : step g g.
Proof. now left. Qed.

Lemma step_trans g1 g2 g3 : step g1 g2 -> step g2 g3 -> step g1 g3.
Proof.
  intros [E12|H12] [E23|H23]; unfold step.
  - left. congruence.
  - now right.
  - right. destruct H12 as (s & Hs & Ht). exists s. split; [ congruence | exact Ht ].
  - now right.
Qed.

Lemma closed1_step g g' : closed1 g -> step g g' -> closed1 g'.
Proof.
  intros (s & Hs & Ht) [E|H]; [ | exact H ].
  exists s. split; [ congruence | exact Ht ].
Qed.

Lemma greedy_inv ok g k x : forall s min p,
  greedy ok min p s g k = Some x ->
  exists w s', s = w ++ s' /\ all_chars ok w = true /\ min <= String.length w
               /\ k {| prev := last_or p w; rest := s'; groups := g |} = Some x.
Proof.
  induction s as [|c s IH]; intros min p; cbn [greedy].
  - destruct (Nat.eqb_spec min 0) as [->|_]; [ | discriminate ].
    intros H. exists "", "". repeat split; auto.
  - assert (Hstop : (if Nat.eqb min 0
                     then k {| prev := p; rest := String c s; groups := g |}
                     else None) = Some x ->
                    exists w s', String c s = w ++ s' /\ all_chars ok w = true
                                 /\ min <= String.length w
                                 /\ k {| prev := last_or p w; rest := s'; groups := g |}
                                    = Some x).
    { destruct (Nat.eqb_spec min 0) as [->|_]; [ | discriminate ].
      intros H. exists "", (String c s). repeat split; auto. }
    destruct (ok c) eqn:Hc; [ | exact Hstop ].
    destruct (greedy ok (Nat.pred min) (Some c) s g k) as [y|] eqn:E; [ | exact Hstop ].
    intros [= <-]. apply IH in E. destruct E as (w & s' & -> & Hw & Hmin & Hk).
    exists (String c w), s'. cbn. rewrite Hc, Hw. repeat split; auto. lia.
Qed.

Lemma lazily_inv ok g k x : forall s min p,
  lazily ok min p s g k = Some x ->
  exists w s', s = w ++ s' /\ all_chars ok w = true /\ min <= String.length w
               /\ k {| prev := last_or p w; rest := s'; groups := g |} = Some x.
Proof.
  induction s as [|c s IH]; intros min p; cbn [lazily].
  - destruct (Nat.eqb_spec min 0) as [->|_].
    + destruct (k _) as [y|] eqn:E; [ | discriminate ].
      intros [= <-]. exists "", "". repeat split; auto.
    + discriminate.
  - destruct (if Nat.eqb min 0 then k _ else None) as [y|] eqn:E.
    + intros [= <-]. destruct (Nat.eqb_spec min 0) as [->|_]; [ | discriminate ].
      exists "", (String c s). repeat split; auto.
    + destruct (ok c) eqn:Hc; [ | discriminate ].
      intros H. apply IH in H. destruct H as (w & s' & -> & Hw & Hmin & Hk).
      exists (String c w), s'. cbn. rewrite Hc, Hw. repeat split; auto. lia.
Qed.

Lemma same_char_lower fl a c :
  same_char fl a c = true -> Py.lower_char c = Py.lower_char a.
Proof.
  unfold same_char. destruct (IGNORECASE fl); intros H; apply Ascii.eqb_eq in H; congruence.
Qed.

Lemma eat_inv fl lit : forall p s p' s',
  eat fl lit p s = Some (p', s') ->
  exists m, s = m ++ s' /\ Py.lower m = Py.lower lit.
Proof.
  induction lit as [|a lit IH]; intros p s p' s'; cbn [eat].
  - intros [= _ <-]. now exists "".
  - destruct s as [|c s]; [ discriminate | ].
    destruct (same_char fl a c) eqn:Hc; [ | discriminate ].
    intros H. apply IH in H. destruct H as (m & -> & Hm).
    exists (String c m). cbn. rewrite Hm, (same_char_lower _ _ _ Hc). auto.
Qed.

Lemma assoc_other n c g : n <> 1 -> assoc 1 ((n, c) :: g) = assoc 1 g.
Proof.
  intros H. cbn [assoc]. destruct (Nat.eqb_spec 1 n) as [E|_]; [ congruence | reflexivity ].
Qed.

(** [(\w+\.tf)] closes group 1 with word characters and ".tf". *)
Lemma exec_tf_name fl st k x :
  exec fl (Group 1 tf_name) st k = Some x ->
  exists st', k st' = Some x /\ closed1 (groups st').
Proof.
  unfold tf_name. cbn [exec member]. intros H.
  apply greedy_inv in H. destruct H as (w & s' & Hrest & Hw & Hmin & H).
  cbn [prev rest groups] in H.
  destruct (eat fl ".tf" (last_or (prev st) w) s') as [[p' s'']|] eqn:E; [ | discriminate ].
  apply eat_inv in E. destruct E as (m & -> & Hm).
  eexists. split; [ exact H | ].
  exists (w ++ m). split.
  - cbn [close_group groups assoc Nat.eqb]. f_equal.
    apply consumed_app. cbn [rest]. now rewrite Hrest, app_assoc_s.
  - exists w, m. repeat split; auto. intros ->. cbn in Hmin. lia.
Qed.

(** Through a match, group 1 only ever holds what [(\w+\.tf)] matched. *)
Lemma exec_groups fl r : groups_ok r -> forall st k x,
  exec fl r st k = Some x ->
  exists st', k st' = Some x
              /\ step (groups st) (groups st')
              /\ (sets1 r = true -> closed1 (groups st')).
Proof.
  induction r as [lit|cs min lazy|r IH|r1 IH1 r2 IH2|r1 IH1 r2 IH2|n r IH|r IH| |];
    intros Hok st k x; cbn [exec sets1]; cbn [groups_ok] in Hok.
  - destruct (eat fl lit (prev st) (rest st)) as [[p s']|]; [ | discriminate ].
    intros H. eexists. split; [ exact H | ]. split; [ apply step_refl | discriminate ].
  - intros H.
    assert (Hinv : exists w s', rest st = w ++ s' /\ all_chars (member fl cs) w = true
                                /\ min <= String.length w
                                /\ k {| prev := last_or (prev st) w; rest := s';
                                        groups := groups st |} = Some x).
    { destruct lazy; [ now apply lazily_inv in H | now apply greedy_inv in H ]. }
    destruct Hinv as (w & s' & _ & _ & _ & Hk).
    eexists. split; [ exact Hk | ]. split; [ apply step_refl | discriminate ].
  - destruct (exec fl r st k) as [y|] eqn:E.
    + intros [= <-]. destruct (IH Hok _ _ _ E) as (st' & Hk & Hs & _).
      exists st'. split; [ exact Hk | ]. split; [ exact Hs | discriminate ].
    + intros H. exists st. split; [ exact H | ]. split; [ apply step_refl | discriminate ].
  - destruct Hok as (Hok1 & Hok2). intros H.
    destruct (IH1 Hok1 _ _ _ H) as (st1 & H1 & Hs1 & Hc1).
    destruct (IH2 Hok2 _ _ _ H1) as (st2 & H2 & Hs2 & Hc2).
    exists st2. split; [ exact H2 | ]. split; [ eapply step_trans; eauto | ].
    intros Hset. apply orb_true_iff in Hset. destruct Hset as [Hset|Hset].
    + eapply closed1_step; eauto.
    + auto.
  - destruct Hok as (Hok1 & Hok2).
    destruct (exec fl r1 st k) as [y|] eqn:E.
    + intros [= <-]. destruct (IH1 Hok1 _ _ _ E) as (st' & Hk & Hs & Hc).
      exists st'. split; [ exact Hk | ]. split; [ exact Hs | ].
      intros Hset. apply andb_true_iff in Hset. tauto.
    + intros H. destruct (IH2 Hok2 _ _ _ H) as (st' & Hk & Hs & Hc).
      exists st'. split; [ exact Hk | ]. split; [ exact Hs | ].
      intros Hset. apply andb_true_iff in Hset. tauto.
  - destruct Hok as [(-> & ->)|(Hn & Hok)].
    + intros H.
      assert (H' : exec fl (Group 1 tf_name) st k = Some x) by exact H.
      apply exec_tf_name in H'. destruct H' as (st' & Hk & Hc).
      exists st'. split; [ exact Hk | ]. split; [ now right | auto ].
    + intros H. destruct (IH Hok _ _ _ H) as (st' & Hk & Hs & Hc).
      eexists. split; [ exact Hk | ].
      cbn [close_group groups]. unfold step, closed1. rewrite (assoc_other _ _ _ Hn).
      split; [ exact Hs | ].
      intros Hset. apply Hc. apply orb_true_iff in Hset. destruct Hset as [E|E]; [ | exact E ].
      apply Nat.eqb_eq in E. contradiction.
  - destruct (exec fl r st Some); [ | discriminate ].
    intros H. exists st. split; [ exact H | ]. split; [ apply step_refl | discriminate ].
  - destruct (at_bol fl st); [ | discriminate ].
    intros H. exists st. split; [ exact H | ]. split; [ apply step_refl | discriminate ].
  - destruct (at_eol fl st); [ | discriminate ].
    intros H. exists st. split; [ exact H | ]. split; [ apply step_refl | discriminate ].
Qed.

Lemma names_well_stop r m m' : stop m' = stop m -> names_well r m -> names_well r m'.
Proof. unfold names_well, group. intros ->. auto. Qed.

Lemma match_here_names fl r p s m :
  groups_ok r -> match_here fl r p s = Some m -> names_well r m.
Proof.
  intros Hok. unfold match_here.
  destruct (exec fl r _ Some) as [st'|] eqn:E; [ | discriminate ].
  intros [= <-]. destruct (exec_groups fl r Hok _ _ _ E) as (st'' & [= ->] & Hs & Hc).
  unfold names_well, group. cbn [stop groups] in *. split.
  - intros s0 H0. destruct Hs as [E0|(s1 & E1 & Ht)].
    + cbn in E0. congruence.
    + congruence.
  - exact Hc.
Qed.

Lemma scan_names fl r : groups_ok r -> forall s p m,
  scan fl r p s = Some m -> names_well r m.
Proof.
  intros Hok. induction s as [|c s IH]; intros p m; cbn [scan].
  - destruct (match_here fl r p "") as [m'|] eqn:E; [ | discriminate ].
    intros [= <-]. eapply match_here_names; eauto.
  - destruct (match_here fl r p (String c s)) as [m'|] eqn:E.
    + intros [= <-]. eapply match_here_names; eauto.
    + destruct (scan fl r (Some c) s) as [m'|] eqn:E'; [ | discriminate ].
      intros [= <-]. apply IH in E'. eapply names_well_stop; [ | exact E' ]. reflexivity.
Qed.

Lemma matches_names fl r : groups_ok r -> forall n pre p s,
  Forall (names_well r) (fst (matches_from n fl r pre p s)).
Proof.
  intros Hok. induction n as [|n IH]; intros pre p s; cbn [matches_from].
  - constructor.
  - destruct (scan fl r p s) as [m|] eqn:E; [ | constructor ].
    apply (scan_names fl r Hok) in E.
    assert (Hm : names_well r (after pre m))
      by (eapply names_well_stop; [ | exact E ]; reflexivity).
    destruct (matched m) as [|a t].
    + destruct (rest (stop m)) as [|c s'].
      * cbn. constructor; [ exact Hm | constructor ].
      * specialize (IH (String c "") (Some c) s').
        destruct (matches_from n fl r (String c "") (Some c) s') as [ms tail].
        cbn in *. constructor; assumption.
    + specialize (IH "" (prev (stop m)) (rest (stop m))).
      destruct (matches_from n fl r "" (prev (stop m)) (rest (stop m))) as [ms tail].
      cbn in *. constructor; assumption.
Qed.

Lemma finditer_names fl r s :
  groups_ok r -> Forall (names_well r) (finditer fl r s).
Proof. intros Hok. apply matches_names, Hok. Qed.

Lemma search_names fl r s m :
  groups_ok r -> search fl r s = Some m -> names_well r m.
Proof. intros Hok. apply scan_names, Hok. Qed.

Lemma name_char_lower c : name_char (Py.lower_char c) = name_char c.
Proof. destruct c as [[] [] [] [] [] [] [] []]; vm_compute; reflexivity. Qed.

Lemma word_is_name c : is_word c = true -> name_char c = true.
Proof. unfold name_char. intros ->. reflexivity. Qed.

Lemma all_chars_lower s : all_chars name_char (Py.lower s) = all_chars name_char s.
Proof. induction s as [|c s IH]; cbn; [ reflexivity | ]. now rewrite name_char_lower, IH. Qed.

Lemma all_chars_weaken (p q : ascii -> bool) s :
  (forall c, p c = true -> q c = true) -> all_chars p s = true -> all_chars q s = true.
Proof.
  intros Hpq. induction s as [|c s IH]; cbn; [ auto | ].
  intros H. apply andb_true_iff in H. destruct H as (Hc & Hs).
  rewrite (Hpq _ Hc). auto.
Qed.

Lemma lower_app a b : Py.lower (a ++ b) = Py.lower a ++ Py.lower b.
Proof. induction a as [|c a IH]; cbn; [ reflexivity | ]. now rewrite IH. Qed.

Lemma endswith_app a b : endswith (a ++ b) b = true.
Proof.
  unfold endswith. rewrite length_app.
  replace (String.length a + String.length b - String.length b)
    with (String.length a) by lia.
  rewrite substring_suffix, String.eqb_refl, andb_true_r.
  apply Nat.leb_le. lia.
Qed.

Lemma no_slash s : all_chars name_char s = true -> Py.contains "/" s = false.
Proof.
  induction s as [|c s IH]; cbn [all_chars Py.contains Py.startswith]; [ reflexivity | ].
  intros H. apply andb_true_iff in H. destruct H as (Hc & Hs).
  rewrite (IH Hs).
  destruct (Ascii.eqb_spec "/" c) as [<-|_]; [ discriminate Hc | ].
  destruct s; reflexivity.
Qed.

Lemma tf_match_chars s : tf_match s -> s <> "" /\ all_chars name_char s = true.
Proof.
  intros (w & m & -> & Hne & Hw & Hm). split.
  - destruct w; [ congruence | discriminate ].
  - rewrite all_chars_app.
    rewrite (all_chars_weaken _ _ _ word_is_name Hw).
    rewrite <- all_chars_lower, Hm. reflexivity.
Qed.

Lemma good_name_of k :
  k <> "" -> all_chars name_char k = true -> endswith k ".tf" = true -> good_name k.
Proof. intros H1 H2 H3. repeat split; auto. now apply no_slash. Qed.

(** [match.group(1).lower()] is a good name. *)
Lemma lower_good s : tf_match s -> good_name (Py.lower s).
Proof.
  intros H. destruct (tf_match_chars s H) as (Hne & Hc).
  destruct H as (w & m & -> & Hw & _ & Hm).
  apply good_name_of.
  - destruct w; [ congruence | discriminate ].
  - now rewrite all_chars_lower.
  - rewrite lower_app, Hm. apply endswith_app.
Qed.

(** and so is the name Method 1 stores. *)
Lemma stored_good s : tf_match s -> good_name (stored_name s).
Proof.
  intros H. destruct (tf_match_chars s H) as (Hne & Hc). unfold stored_name.
  destruct (endswith s ".tf") eqn:E; cbn [negb].
  - now apply good_name_of.
  - apply good_name_of.
    + destruct s; [ congruence | discriminate ].
    + rewrite all_chars_app, Hc. reflexivity.
    + apply endswith_app.
Qed.

Lemma required_good k : In k required -> good_name k.
Proof.
  intros [<-|[<-|[<-|[]]]]; (apply good_name_of; [ discriminate | reflexivity | reflexivity ]).
Qed.

Lemma set_good (files : files_t) k v :
  good_files files -> good_name k -> good_files (Py.set files k v).
Proof.
  unfold good_files. induction files as [|[k' v'] files IH]; cbn; intros Hf Hk.
  - constructor; [ exact Hk | constructor ].
  - inversion Hf as [|? ? Hk' Hf']; subst.
    destruct (String.eqb k k'); cbn; constructor; auto.
Qed.

Lemma fold_good {A} (f : files_t -> A -> files_t) (l : list A) (P : A -> Prop) :
  (forall files a, good_files files -> P a -> good_files (f files a)) ->
  Forall P l -> forall files, good_files files -> good_files (fold_left f l files).
Proof.
  intros Hf Hl. induction Hl as [|a l Ha Hl IH]; cbn; intros files Hg; [ exact Hg | ].
  apply IH, Hf; assumption.
Qed.

Lemma fold_good_all {A} (f : files_t -> A -> files_t) (l : list A) :
  (forall files a, good_files files -> good_files (f files a)) ->
  forall files, good_files files -> good_files (fold_left f l files).
Proof.
  intros Hf. apply (fold_good f l (fun _ => True)); auto.
  apply Forall_forall. auto.
Qed.

Lemma group_or_empty_good r m :
  sets1 r = true -> names_well r m -> good_name (Py.lower (group_or_empty m 1)).
Proof.
  intros Hset (_ & H). destruct (H Hset) as (s & Hs & Ht).
  unfold group_or_empty. rewrite Hs. now apply lower_good.
Qed.

Ltac pattern_ok :=
  cbn; repeat match goal with
              | |- _ /\ _ => split
              | |- True => exact I
              | |- (1 = 1 /\ _) \/ _ => left; split; reflexivity
              | |- (2 = 1 /\ _) \/ _ => right; split; [ discriminate | ]
              end.

Lemma method1_good text files : good_files files -> good_files (method1 text files).
Proof.
  unfold method1, fenced_blocks. intros Hg.
  assert (Hok : groups_ok pattern1).
  { pattern_ok. }
  pose proof (finditer_names DOTALL_IGNORECASE pattern1 text Hok) as Hn.
  revert files Hg. induction Hn as [|m ms Hm _ IH]; cbn [map fold_left]; intros files Hg.
  - exact Hg.
  - apply IH. cbn [fst snd].
    destruct (group m 1) as [f|] eqn:E.
    + apply set_good; [ exact Hg | ]. apply stored_good. now apply (proj1 Hm).
    + destruct (_ && _); [ | exact Hg ].
      apply set_good; [ exact Hg | ]. apply required_good. now left.
Qed.

Lemma bold_match_good r files m :
  sets1 r = true -> names_well r m -> good_files files -> good_files (bold_match files m).
Proof.
  intros Hset Hm Hg. unfold bold_match. cbv zeta.
  destruct (match_ no_flags only_a_header _); [ exact Hg | ].
  destruct (_ && _); [ | exact Hg ].
  apply set_good; [ exact Hg | ]. eapply group_or_empty_good; eauto.
Qed.

Lemma bold_loop_good text : forall patterns files,
  Forall (fun r => groups_ok r /\ sets1 r = true) patterns ->
  good_files files -> good_files (bold_loop patterns text files).
Proof.
  induction patterns as [|r patterns IH]; intros files Hp Hg; cbn [bold_loop]; [ exact Hg | ].
  inversion Hp as [|? ? (Hok & Hset) Hp']; subst. cbv zeta.
  assert (Hfold : good_files (fold_left bold_match (finditer DOTALL_IGNORECASE r text) files)).
  { apply (fold_good bold_match _ (names_well r)); auto.
    - intros fs m Hfs Hm. eapply bold_match_good; eauto.
    - now apply finditer_names. }
  destruct (Nat.leb 3 _); [ exact Hfold | ].
  now apply IH.
Qed.

Lemma bold_patterns_ok :
  Forall (fun r => groups_ok r /\ sets1 r = true) bold_patterns.
Proof.
  unfold bold_patterns.
  constructor; [ split; [ pattern_ok | reflexivity ] | ].
  constructor; [ split; [ pattern_ok | reflexivity ] | constructor ].
Qed.

Lemma method2_good text files : good_files files -> good_files (method2 text files).
Proof.
  intros Hg. unfold method2. destruct (Nat.ltb _ 3); [ | exact Hg ].
  apply bold_loop_good; [ apply bold_patterns_ok | exact Hg ].
Qed.

Lemma method2b_good text files : good_files files -> good_files (method2b text files).
Proof.
  intros Hg. unfold method2b. destruct (Nat.ltb _ 3); [ | exact Hg ]. cbv zeta.
  match goal with
  | |- context [fold_left ?f (finditer ?fl file_header_with_block text) files] =>
      assert (H1 : good_files (fold_left f (finditer fl file_header_with_block text) files))
  end.
  { apply (fold_good _ _ (names_well file_header_with_block)); auto.
    - intros fs m Hfs Hm. cbv beta zeta. destruct (_ && _); [ | exact Hfs ].
      apply set_good; [ exact Hfs | ].
      apply (group_or_empty_good file_header_with_block); [ reflexivity | exact Hm ].
    - apply finditer_names. pattern_ok. }
  destruct (Nat.ltb _ 3); [ | exact H1 ].
  apply (fold_good _ _ (names_well file_header_pattern)); auto.
  - intros fs m Hfs Hm. cbv beta zeta. destruct (_ && _); [ | exact Hfs ].
    apply set_good; [ exact Hfs | ].
    apply (group_or_empty_good file_header_pattern); [ reflexivity | exact Hm ].
  - apply finditer_names. pattern_ok.
Qed.

Lemma method3_good text files : good_files files -> good_files (method3 text files).
Proof.
  intros Hg. unfold method3. destruct (Nat.ltb _ 3); [ | exact Hg ].
  apply fold_good_all; [ | exact Hg ].
  intros fs section Hfs. cbv beta.
  destruct (search IGNORECASE_only a_filename (first_line section)) as [m|] eqn:E;
    [ | exact Hfs ].
  cbv zeta. destruct (_ && _); [ | exact Hfs ].
  apply set_good; [ exact Hfs | ].
  apply (group_or_empty_good a_filename); [ reflexivity | ].
  eapply search_names; [ | exact E ]. pattern_ok.
Qed.

Lemma method4_good text files : good_files files -> good_files (method4 text files).
Proof.
  intros Hg. unfold method4. cbv zeta.
  apply (fold_good _ _ (fun f => In f required)); auto.
  - intros fs f Hfs Hf. unfold rescan.
    destruct (search _ _ _); [ | exact Hfs ].
    cbv zeta. destruct (_ && _); [ | exact Hfs ].
    apply set_good; [ exact Hfs | now apply required_good ].
  - apply Forall_forall. intros f Hf. apply filter_In in Hf. tauto.
Qed.

Lemma extract_good text : good_files (extract_code_blocks text).
Proof.
  unfold extract_code_blocks. cbv zeta.
  apply method4_good, method3_good, method2b_good, method2_good, method1_good.
  constructor.
Qed.

(** X5: every filename [extract_code_blocks] returns is not empty, ends in
    ".tf" and has no "/" in it. *)
Theorem extracted_names_are_safe :
  forall text k,
    In k (Py.keys (extract_code_blocks text)) ->
    k <> "" /\ endswith k ".tf" = true /\ Py.contains "/" k = false.
Proof.
  intros text k Hin. pose proof (extract_good text) as Hg.
  unfold good_files in Hg. rewrite Forall_forall in Hg.
  destruct (Hg k Hin) as (Hne & _ & Htf & Hslash).
  split; [ exact Hne | split; [ exact Htf | exact Hslash ] ].
Qed.

Lemma extracted_names_are_safe_witness :
  "main.tf" <> "" /\ endswith "main.tf" ".tf" = true
  /\ Py.contains "/" "main.tf" = false.
Proof.
  apply (extracted_names_are_safe canonical_response "main.tf").
  vm_compute. tauto.
Defined.

(** ** [generate] *)

Import Generate.

Lemma keys_set {V} (d : Py.dict V) k v k' :
  In k' (Py.keys (Py.set d k v)) <-> k' = k \/ In k' (Py.keys d).
Proof.
  induction d as [|[k0 v0] d IH]; cbn.
  - intuition.
  - destruct (String.eqb_spec k k0) as [->|Hne]; cbn.
    + intuition.
    + rewrite IH. intuition.
Qed.

Lemma in_set {V} (d : Py.dict V) k v k' v' :
  In (k', v') (Py.set d k v) -> (k' = k /\ v' = v) \/ In (k', v') d.
Proof.
  induction d as [|[k0 v0] d IH]; cbn.
  - intros [[= <- <-]|[]]. now left.
  - destruct (String.eqb_spec k k0) as [->|Hne]; cbn.
    + intros [[= <- <-]|H]; [ now left | right; now right ].
    + intros [H|H]; [ right; now left | ].
      destruct (IH H) as [?|?]; [ now left | right; now right ].
Qed.

Lemma get_some_in {V} (d : Py.dict V) k : In k (Py.keys d) -> exists v, Py.get d k = Some v.
Proof.
  induction d as [|[k0 v0] d IH]; cbn; [ intros [] | ].
  destruct (String.eqb_spec k k0) as [->|Hne]; [ eauto | ].
  intros [E|H]; [ congruence | auto ].
Qed.

Lemma fill_keeps task_id files f k :
  In k (Py.keys files) -> In k (Py.keys (fill task_id files f)).
Proof.
  unfold fill. destruct (Py.mem f (Py.keys files)); [ auto | ].
  intros H. apply keys_set. now right.
Qed.

Lemma fill_adds task_id files f : In f (Py.keys (fill task_id files f)).
Proof.
  unfold fill. destruct (Py.mem f (Py.keys files)) eqn:E.
  - now apply mem_true.
  - apply keys_set. now left.
Qed.

Lemma fill_all_keeps task_id l : forall files k,
  In k (Py.keys files) -> In k (Py.keys (fold_left (fill task_id) l files)).
Proof.
  induction l as [|f l IH]; cbn; intros files k H; [ exact H | ].
  apply IH, fill_keeps, H.
Qed.

Lemma fill_all_adds task_id l : forall files f,
  In f l -> In f (Py.keys (fold_left (fill task_id) l files)).
Proof.
  induction l as [|f0 l IH]; cbn; intros files f; [ intros [] | ].
  intros [->|H]; [ apply fill_all_keeps, fill_adds | now apply IH ].
Qed.

(** X6: [generate] always returns the three required files. *)
Theorem required_files_are_always_returned :
  forall llm prompt task_id save_raw_response,
    Forall (fun filename =>
              exists content,
                Py.get (fst (generate llm prompt task_id save_raw_response)) filename
                = Some content)
           required.
Proof.
  intros llm prompt task_id save. apply Forall_forall. intros f Hf.
  apply get_some_in. cbn [generate fst]. unfold files_of. cbv zeta.
  now apply fill_all_adds.
Qed.

Lemma startswith_app s p t : Py.startswith s p = true -> Py.startswith (s ++ t) p = true.
Proof.
  revert s. induction p as [|a p IH]; intros s; [ intros _; apply startswith_empty | ].
  destruct s as [|b s]; cbn; [ discriminate | ].
  intros H. apply andb_true_iff in H. destruct H as (-> & H). now rewrite IH.
Qed.

Lemma contains_step n c a :
  Py.contains n (String c a) = Py.startswith (String c a) n || Py.contains n a.
Proof. cbn [Py.contains]. now destruct (Py.startswith (String c a) n). Qed.

Lemma contains_left n a b : Py.contains n a = true -> Py.contains n (a ++ b) = true.
Proof.
  induction a as [|c a IH].
  - cbn [Py.contains append]. destruct (Py.startswith "" n) eqn:E; [ | discriminate ].
    intros _. destruct n; [ | discriminate E ]. destruct b; reflexivity.
  - change (String c a ++ b) with (String c (a ++ b)). rewrite !contains_step.
    intros H. apply orb_true_iff in H. destruct H as [H|H].
    + change (String c (a ++ b)) with (String c a ++ b).
      now rewrite (startswith_app _ _ b H).
    + rewrite (IH H). apply orb_true_r.
Qed.

Lemma contains_right n a b : Py.contains n b = true -> Py.contains n (a ++ b) = true.
Proof.
  intros H. induction a as [|c a IH]; [ exact H | ].
  change (String c a ++ b) with (String c (a ++ b)). rewrite contains_step, IH.
  apply orb_true_r.
Qed.

Lemma strip_hash s : Py.startswith (strip (String "#" s)) "#" = true.
Proof.
  unfold strip. cbn [lstrip]. change (is_space "#") with false. cbv iota.
  cbn [rstrip]. destruct (rstrip s); reflexivity.
Qed.

Lemma placeholder_rejected filename task_id : rejected (placeholder filename task_id) = true.
Proof.
  unfold rejected.
  assert (H1 : Py.startswith (strip (placeholder filename task_id)) "#" = true)
    by apply strip_hash.
  assert (H2 : Py.contains "placeholder" (Py.lower (placeholder filename task_id)) = true).
  { unfold placeholder. rewrite !lower_app.
    apply contains_right, contains_right, contains_right, contains_left. reflexivity. }
  rewrite H1, H2. cbn [andb]. rewrite orb_true_r. reflexivity.
Qed.

Lemma placeholder_length filename task_id : 50 <= String.length (placeholder filename task_id).
Proof.
  unfold placeholder. rewrite !length_app. cbn [String.length Py.nl]. lia.
Qed.

Lemma in_fill task_id files f k v :
  In (k, v) (fill task_id files f) ->
  In (k, v) files \/ (k = f /\ v = placeholder f task_id).
Proof.
  unfold fill. destruct (Py.mem f (Py.keys files)); [ auto | ].
  intros H. apply in_set in H. tauto.
Qed.

Lemma in_fill_all task_id l : forall files k v,
  In (k, v) (fold_left (fill task_id) l files) ->
  In (k, v) files \/ (In k l /\ v = placeholder k task_id).
Proof.
  induction l as [|f l IH]; cbn; intros files k v H; [ now left | ].
  apply IH in H. destruct H as [H|(Hk & Hv)].
  - apply in_fill in H. destruct H as [H|(-> & ->)]; [ now left | right; auto ].
  - right. auto.
Qed.

(** X7: every file [generate] returns has at least 50 characters, and it
    has passed the validation, so that a file that begins with "#" mentions
    neither "failed" nor "placeholder", or it is the placeholder of a
    required file, which the validation would reject. *)
Theorem every_file_is_valid_or_a_placeholder :
  forall llm prompt task_id save_raw_response filename content,
    In (filename, content) (fst (generate llm prompt task_id save_raw_response)) ->
    50 <= String.length content
    /\ ((rejected content = false
         /\ (Py.startswith (strip content) "#" = true ->
             Py.contains "failed" (Py.lower content) = false
             /\ Py.contains "placeholder" (Py.lower content) = false))
        \/ (rejected content = true
            /\ In filename required /\ content = placeholder filename task_id)).
Proof.
  intros llm prompt task_id save k v. cbn [generate fst]. unfold files_of. cbv zeta.
  intros H. apply in_fill_all in H. destruct H as [H|(Hk & ->)].
  - unfold validate in H. apply filter_In in H. destruct H as (_ & H).
    cbn [snd] in H. apply negb_true_iff in H. pose proof H as Hr. unfold rejected in H.
    apply orb_false_iff in H. destruct H as (H & Hf).
    apply orb_false_iff in H. destruct H as (H & Hp).
    apply orb_false_iff in H. destruct H as (Hlen & _).
    apply Nat.ltb_ge in Hlen. split; [ exact Hlen | ]. left. split; [ exact Hr | ].
    intros Hs. rewrite Hs in Hf, Hp. cbn [andb] in Hf, Hp. auto.
  - split; [ apply placeholder_length | ]. right.
    split; [ apply placeholder_rejected | auto ].
Qed.

Lemma filter_all {A} (p : A -> bool) l : (forall a, In a l -> p a = true) -> filter p l = l.
Proof.
  induction l as [|a l IH]; cbn; intros H; [ reflexivity | ].
  rewrite (H a) by now left. f_equal. apply IH. intros b Hb. apply H. now right.
Qed.

Lemma filter_none {A} (p : A -> bool) l : (forall a, In a l -> p a = false) -> filter p l = [].
Proof.
  induction l as [|a l IH]; cbn; intros H; [ reflexivity | ].
  rewrite (H a) by now left. apply IH. intros b Hb. apply H. now right.
Qed.

Lemma fill_present task_id l : forall files,
  (forall f, In f l -> In f (Py.keys files)) -> fold_left (fill task_id) l files = files.
Proof.
  induction l as [|f l IH]; cbn; intros files H; [ reflexivity | ].
  unfold fill at 2. rewrite (proj2 (mem_true f (Py.keys files))) by (apply H; now left).
  apply IH. intros g Hg. apply H. now right.
Qed.

(** X8: when the extraction has the three required files and nothing in it
    is rejected, [generate] returns it as it is. *)
Theorem a_clean_extraction_is_returned_as_it_is :
  forall llm prompt task_id save_raw_response,
    let response := llm (replace prompt "<task_id>" task_id) in
    (forall filename, In filename required ->
                      In filename (Py.keys (extract_code_blocks response))) ->
    (forall filename content,
        In (filename, content) (extract_code_blocks response) -> rejected content = false) ->
    fst (generate llm prompt task_id save_raw_response) = extract_code_blocks response.
Proof.
  intros llm prompt task_id save response Hall Hok.
  cbn [generate fst]. fold response. unfold files_of. cbv zeta.
  rewrite (filter_none _ required).
  2:{ intros f Hf. apply negb_false_iff, mem_true, Hall, Hf. }
  cbn [fold_left]. unfold validate.
  rewrite filter_all.
  2:{ intros [k v] Hin. cbn [snd]. apply negb_true_iff. eapply Hok, Hin. }
  now apply fill_present.
Qed.

Lemma a_clean_extraction_is_returned_as_it_is_witness :
  fst (generate (fun _ => long_response) "Write the files of <task_id>." "task_vpc" true)
  = [ ("main.tf",
       "resource aws_vpc main { cidr_block = var.cidr, enable_dns_support = true }");
      ("variables.tf",
       "variable cidr { type = string, description = the range of the VPC }");
      ("outputs.tf",
       "output vpc_id { value = aws_vpc.main.id, description = the id of the VPC }") ].
Proof.
  pose proof (a_clean_extraction_is_returned_as_it_is
                (fun _ => long_response) "Write the files of <task_id>." "task_vpc" true)
    as H.
  cbv beta zeta in H.
  assert (E : extract_code_blocks long_response
              = [ ("main.tf",
                   "resource aws_vpc main { cidr_block = var.cidr, enable_dns_support = true }");
                  ("variables.tf",
                   "variable cidr { type = string, description = the range of the VPC }");
                  ("outputs.tf",
                   "output vpc_id { value = aws_vpc.main.id, description = the id of the VPC }") ])
    by (vm_compute; reflexivity).
  rewrite E in H. apply H.
  - intros f Hf. vm_compute in Hf |- *. tauto.
  - intros f c Hin.
    repeat (destruct Hin as [Hin|Hin]; [ injection Hin as <- <-; vm_compute; reflexivity | ]).
    contradiction.
Defined.

Lemma try_patterns_good response filename : forall ps files,
  good_name filename -> good_files files ->
  good_files (try_patterns response filename ps files).
Proof.
  induction ps as [|p ps IH]; intros files Hf Hg; cbn [try_patterns]; [ exact Hg | ].
  destruct (search _ _ _); [ | now apply IH ].
  cbv zeta. destruct (_ && _); [ now apply set_good | now apply IH ].
Qed.

Lemma filter_good (p : string * string -> bool) (files : files_t) :
  good_files files -> good_files (filter p files).
Proof.
  unfold good_files, Py.keys. induction files as [|e files IH]; cbn; intros H; [ constructor | ].
  inversion H; subst. destruct (p e); cbn; [ constructor | ]; auto.
Qed.

Lemma files_of_good response task_id : good_files (files_of response task_id).
Proof.
  unfold files_of. cbv zeta.
  apply (fold_good _ _ (fun f => In f required)).
  - intros files f Hg Hf. unfold fill. destruct (Py.mem _ _); [ exact Hg | ].
    apply set_good; [ exact Hg | now apply required_good ].
  - apply Forall_forall. auto.
  - apply filter_good.
    apply (fold_good _ _ (fun f => In f required)).
    + intros files f Hg Hf. apply try_patterns_good; [ now apply required_good | exact Hg ].
    + apply Forall_forall. intros f Hf. apply filter_In in Hf. tauto.
    + apply extract_good.
Qed.

(** X9: the files of a generation are written directly under the output
    directory, under names that end in ".tf": whatever the model answers,
    no path that [save_files] opens leaves the directory. *)
Theorem generated_files_stay_in_the_directory :
  forall llm prompt task_id save_raw_response output_dir path content,
    In (path, content)
       (save_files (fst (generate llm prompt task_id save_raw_response)) output_dir) ->
    exists filename,
      path = output_dir ++ "/" ++ filename
      /\ filename <> ""
      /\ Py.contains "/" filename = false
      /\ all_chars name_char filename = true
      /\ endswith filename ".tf" = true.
Proof.
  intros llm prompt task_id save output_dir path content Hin.
  unfold save_files in Hin. apply in_map_iff in Hin.
  destruct Hin as ([k v] & [= <- <-] & Hin). cbn [fst snd generate] in *.
  pose proof (files_of_good (llm (replace prompt "<task_id>" task_id)) task_id) as Hg.
  unfold good_files in Hg. rewrite Forall_forall in Hg.
  destruct (Hg k) as (H1 & H2 & H3 & H4).
  { unfold Py.keys. apply in_map_iff. exists (k, v). split; [ reflexivity | exact Hin ]. }
  exists k. split; [ reflexivity | ]. split; [ exact H1 | ]. split; [ exact H4 | ].
  split; [ exact H2 | exact H3 ].
Qed.

Lemma every_file_is_valid_or_a_placeholder_witness :
  let content := placeholder "main.tf" "task_vpc" in
  50 <= String.length content
  /\ ((rejected content = false
       /\ (Py.startswith (strip content) "#" = true ->
           Py.contains "failed" (Py.lower content) = false
           /\ Py.contains "placeholder" (Py.lower content) = false))
      \/ (rejected content = true
          /\ In "main.tf" required /\ content = placeholder "main.tf" "task_vpc")).
Proof.
  apply (every_file_is_valid_or_a_placeholder
           (fun _ => canonical_response) "Write the files of <task_id>." "task_vpc" true
           "main.tf" (placeholder "main.tf" "task_vpc")).
  vm_compute. tauto.
Defined.

Lemma generated_files_stay_in_the_directory_witness :
  exists filename,
    "generated/openai_gpt_4/task_vpc/run1/main.tf"
    = "generated/openai_gpt_4/task_vpc/run1" ++ "/" ++ filename
    /\ filename <> ""
    /\ Py.contains "/" filename = false
    /\ all_chars name_char filename = true
    /\ endswith filename ".tf" = true.
Proof.
  apply (generated_files_stay_in_the_directory
           (fun _ => long_response) "Write the files of <task_id>." "task_vpc" true
           "generated/openai_gpt_4/task_vpc/run1"
           "generated/openai_gpt_4/task_vpc/run1/main.tf"
           "resource aws_vpc main { cidr_block = var.cidr, enable_dns_support = true }").
  vm_compute. tauto.
Defined.

End GeneratorProperties.

(* ================================================================== *)
(** * Properties of the checkers *)
(* ================================================================== *)

Section CheckerProperties.

Import Checks.

Lemma extends_refl v : extends v v.
Proof. split; auto. Qed.

Lemma extends_trans v1 v2 v3 : extends v1 v2 -> extends v2 v3 -> extends v1 v3.
Proof. intros [a b] [c d]. split; auto. Qed.

Lemma failed_spec msg v :
  pass_check (failed msg v) = false
  /\ In msg (errors (failed msg v))
  /\ counts (failed msg v) = counts v
  /\ wiring (failed msg v) = wiring v
  /\ extends v (failed msg v).
Proof.
  repeat split; cbn; auto.
  - apply in_or_app. right. now left.
  - intros e H. apply in_or_app. now left.
Qed.

Lemma maybe_failed_spec (b : bool) msg v :
  let v' := if b then failed msg v else v in
  counts v' = counts v /\ wiring v' = wiring v /\ extends v v'.
Proof.
  destruct b; cbn zeta.
  - destruct (failed_spec msg v) as (_ & _ & ? & ? & ?). auto.
  - repeat split; auto.
Qed.

Lemma compare_count_spec expected_checks key default what name n v :
  let v' := compare_count expected_checks key default what name n v in
  counts v' = Py.set (counts v) name n /\ wiring v' = wiring v /\ extends v v'.
Proof.
  unfold compare_count. cbn zeta.
  destruct (differs n _); cbn.
  - repeat split; cbn; auto. intros e H. apply in_or_app. now left.
  - repeat split; auto.
Qed.

Lemma subnet_loop_spec vpc_id subnets : forall v,
  let v' := subnet_loop vpc_id subnets v in
  counts v' = counts v /\ wiring v' = wiring v /\ extends v v'.
Proof.
  unfold subnet_loop.
  induction subnets as [|s l IH]; intros v; cbn [fold_left]; cbn zeta.
  - repeat split; auto.
  - destruct (maybe_failed_spec (negb (subnet_VpcId s =? vpc_id)%string)
                "Subnet wiring error: subnet not in expected VPC" v) as (Hc & Hw & He).
    cbn zeta in *.
    destruct (IH (if negb (subnet_VpcId s =? vpc_id)%string
                  then failed "Subnet wiring error: subnet not in expected VPC" v
                  else v)) as (Hc' & Hw' & He').
    cbn zeta in *.
    rewrite Hc', Hw', Hc, Hw.
    split; [ reflexivity | split; [ reflexivity | eapply extends_trans; eauto ] ].
Qed.

Lemma wire_spec k b v :
  counts (wire k b v) = counts v /\ wiring (wire k b v) = Py.set (wiring v) k b
  /\ extends v (wire k b v).
Proof. repeat split; auto. Qed.

Lemma check_subnets_spec ec2_client task_id expected_checks vpc_id v :
  let v' := check_subnets ec2_client task_id expected_checks vpc_id v in
  extends v v'
  /\ match describe_subnets ec2_client vpc_id task_id with
     | Ok subnets =>
         counts v' = Py.set (counts v) "subnet" (List.length subnets)
         /\ wiring v' = Py.set (wiring v) "subnets_in_vpc" true
     | ClientError e =>
         pass_check v' = false
         /\ In ("Failed to describe subnets: " ++ e) (errors v')
         /\ counts v' = counts v /\ wiring v' = wiring v
     end.
Proof.
  unfold check_subnets. cbn zeta.
  destruct (describe_subnets _ _ _) as [subnets|e].
  - destruct (compare_count_spec expected_checks "subnet_count" 3 "subnets" "subnet"
                (List.length subnets) v) as (Hc & Hw & He).
    destruct (subnet_loop_spec vpc_id subnets
                (compare_count expected_checks "subnet_count" 3 "subnets" "subnet"
                               (List.length subnets) v)) as (Hc' & Hw' & He').
    cbn zeta in *. cbn [counts wiring wire].
    rewrite Hc', Hw', Hc, Hw. repeat split; auto.
    + intros Hp. apply He', He, Hp.
    + intros e Hin. cbn. apply He', He, Hin.
  - destruct (failed_spec ("Failed to describe subnets: " ++ e) v) as (? & ? & ? & ? & ?).
    repeat split; auto; apply H3.
Qed.

Lemma check_instances_spec ec2_client task_id expected_checks vpc_id subnet_ids v :
  let v' := check_instances ec2_client task_id expected_checks vpc_id subnet_ids v in
  extends v v'
  /\ match describe_instances ec2_client task_id vpc_id with
     | Ok reservations =>
         counts v' = Py.set (counts v) "instance" (List.length (List.concat reservations))
         /\ wiring v' = Py.set (wiring v) "instances_in_subnets" true
     | ClientError e =>
         pass_check v' = false
         /\ In ("Failed to describe instances: " ++ e) (errors v')
         /\ counts v' = counts v /\ wiring v' = wiring v
     end.
Proof.
  unfold check_instances. cbn zeta.
  destruct (describe_instances _ _ _) as [reservations|e].
  - destruct (compare_count_spec expected_checks "instance_count" 3 "instances" "instance"
                (List.length (List.concat reservations)) v) as (Hc & Hw & He).
    match goal with |- context [if ?b then failed ?m ?x else _] =>
      destruct (maybe_failed_spec b m x) as (Hc' & Hw' & He') end.
    cbn zeta in *. cbn [counts wiring wire].
    rewrite Hc', Hw', Hc, Hw. repeat split; auto.
    + intros Hp. apply He', He, Hp.
    + intros e Hin. cbn. apply He', He, Hin.
  - destruct (failed_spec ("Failed to describe instances: " ++ e) v) as (? & ? & ? & ? & ?).
    repeat split; auto; apply H3.
Qed.

(** The checker up to the queries for subnets and instances. *)
Lemma vpc_checker_unfolded ec2_client outputs task_id expected_checks vpcs :
  falsy (value outputs "vpc_id") || String.eqb (the (value outputs "vpc_id")) "null" = false ->
  describe_vpcs ec2_client [the (value outputs "vpc_id")] = Ok vpcs ->
  exists v0,
    counts v0 = [("vpc", List.length vpcs)] /\ wiring v0 = []
    /\ _check_vpc_3subnets_3ec2 ec2_client outputs task_id expected_checks
       = check_instances ec2_client task_id expected_checks (the (value outputs "vpc_id"))
           (list_value outputs "subnet_ids")
           (check_subnets ec2_client task_id expected_checks
              (the (value outputs "vpc_id")) v0).
Proof.
  intros Hid Hvpc. unfold _check_vpc_3subnets_3ec2. cbn zeta.
  rewrite Hid, Hvpc.
  eexists. split; [ | split; [ | reflexivity ] ].
  - match goal with |- counts (compare_count ?a ?b ?c ?d ?e ?f ?g) = _ =>
      destruct (compare_count_spec a b c d e f g) as (Hc & _) end.
    cbn zeta in Hc. rewrite Hc. reflexivity.
  - match goal with |- wiring (compare_count ?a ?b ?c ?d ?e ?f ?g) = _ =>
      destruct (compare_count_spec a b c d e f g) as (_ & Hw & _) end.
    cbn zeta in Hw. rewrite Hw. reflexivity.
Qed.

(** C10: no wiring entry of the VPC checker is ever false, and when the
    checker gets as far as the subnet and instance queries (the VPC id is
    there and the VPC query answered) and both succeed, the wiring map is
    exactly [subnets_in_vpc: true, instances_in_subnets: true], whatever
    the subnets and instances are. *)
Theorem vpc_wiring_is_never_false :
  forall ec2_client outputs task_id expected_checks,
    let v := _check_vpc_3subnets_3ec2 ec2_client outputs task_id expected_checks in
    let vpc_id := the (value outputs "vpc_id") in
    (forall k, Py.get (wiring v) k <> Some false)
    /\ (forall vpcs subnets reservations,
          falsy (value outputs "vpc_id") || String.eqb vpc_id "null" = false ->
          describe_vpcs ec2_client [vpc_id] = Ok vpcs ->
          describe_subnets ec2_client vpc_id task_id = Ok subnets ->
          describe_instances ec2_client task_id vpc_id = Ok reservations ->
          wiring v = [("subnets_in_vpc", true); ("instances_in_subnets", true)]).
Proof.
  intros ec2_client outputs task_id expected_checks v vpc_id.
  assert (Hcases : wiring v = [] \/ wiring v = [("subnets_in_vpc", true)]
                   \/ wiring v = [("instances_in_subnets", true)]
                   \/ wiring v = [("subnets_in_vpc", true); ("instances_in_subnets", true)]).
  { subst v.
    destruct (falsy (value outputs "vpc_id") || String.eqb vpc_id "null") eqn:Hid.
    { unfold _check_vpc_3subnets_3ec2. cbn zeta. fold vpc_id. rewrite Hid. now left. }
    destruct (describe_vpcs ec2_client [vpc_id]) as [vpcs|e] eqn:Hvpc.
    2:{ unfold _check_vpc_3subnets_3ec2. cbn zeta. fold vpc_id. rewrite Hid, Hvpc. now left. }
    destruct (vpc_checker_unfolded ec2_client outputs task_id expected_checks vpcs Hid Hvpc)
      as (v0 & Hc0 & Hw0 & ->).
    fold vpc_id.
    destruct (check_subnets_spec ec2_client task_id expected_checks vpc_id v0) as (_ & Hs).
    destruct (check_instances_spec ec2_client task_id expected_checks vpc_id
                (list_value outputs "subnet_ids")
                (check_subnets ec2_client task_id expected_checks vpc_id v0)) as (_ & Hi).
    cbn zeta in *.
    destruct (describe_subnets ec2_client vpc_id task_id);
      destruct (describe_instances ec2_client task_id vpc_id).
    - right; right; right. destruct Hs as (_ & Hs), Hi as (_ & Hi).
      rewrite Hi, Hs, Hw0. reflexivity.
    - right; left. destruct Hs as (_ & Hs), Hi as (_ & _ & _ & Hi).
      rewrite Hi, Hs, Hw0. reflexivity.
    - right; right; left. destruct Hs as (_ & _ & _ & Hs), Hi as (_ & Hi).
      rewrite Hi, Hs, Hw0. reflexivity.
    - left. destruct Hs as (_ & _ & _ & Hs), Hi as (_ & _ & _ & Hi).
      rewrite Hi, Hs, Hw0. reflexivity. }
  split.
  - intros k.
    destruct Hcases as [H|[H|[H|H]]]; rewrite H; cbn;
      repeat match goal with |- context [if ?c then _ else _] => destruct c end;
      discriminate.
  - intros vpcs subnets reservations Hid Hvpc Hsub Hinst. subst v.
    destruct (vpc_checker_unfolded ec2_client outputs task_id expected_checks vpcs Hid Hvpc)
      as (v0 & Hc0 & Hw0 & ->).
    fold vpc_id.
    destruct (check_subnets_spec ec2_client task_id expected_checks vpc_id v0) as (_ & Hs).
    destruct (check_instances_spec ec2_client task_id expected_checks vpc_id
                (list_value outputs "subnet_ids")
                (check_subnets ec2_client task_id expected_checks vpc_id v0)) as (_ & Hi).
    cbn zeta in *. rewrite Hsub in Hs. rewrite Hinst in Hi.
    destruct Hs as (_ & Hs), Hi as (_ & Hi).
    rewrite Hi, Hs, Hw0. reflexivity.
Qed.



Lemma log_warn_raises msg : log_warn msg = Raise (NameError "log_warn").
Proof. reflexivity. Qed.

Lemma not_found_carried expected_checks key code warning msg e v :
  carried v (not_found expected_checks key code warning msg e v).
Proof.
  unfold not_found. destruct (negb (Py.contains code e)); cbn.
  - reflexivity.
  - apply maybe_failed_spec.
Qed.

Lemma check_lifecycle_carried s3_client expected_checks bucket_id v :
  carried v (check_lifecycle s3_client expected_checks bucket_id v).
Proof.
  unfold check_lifecycle.
  destruct (truthy _); [ | apply extends_refl ].
  destruct (get_bucket_lifecycle_configuration _ _); [ | apply not_found_carried ].
  cbn. eapply extends_trans; [ apply compare_count_spec | apply wire_spec ].
Qed.

Lemma check_public_access_block_carried s3_client expected_checks bucket_id v :
  carried v (check_public_access_block s3_client expected_checks bucket_id v).
Proof.
  unfold check_public_access_block.
  destruct (truthy _); [ | apply extends_refl ].
  destruct (get_public_access_block _ _); [ | apply not_found_carried ].
  cbn. split; auto.
Qed.

Lemma check_bucket_policy_carried s3_client expected_checks bucket_id v :
  carried v (check_bucket_policy s3_client expected_checks bucket_id v).
Proof.
  unfold check_bucket_policy.
  destruct (truthy _); [ | apply extends_refl ].
  destruct (get_bucket_policy _ _); [ | apply not_found_carried ].
  cbn. split; auto.
Qed.

Lemma check_cors_carried s3_client expected_checks bucket_id v :
  carried v (check_cors s3_client expected_checks bucket_id v).
Proof.
  unfold check_cors.
  destruct (truthy _) eqn:E; [ | apply extends_refl ].
  destruct (get_bucket_cors _ _); [ | apply not_found_carried ].
  destruct (Nat.ltb _ _); cbn.
  - split; auto.
  - apply failed_spec.
Qed.

Lemma carried_bind v m f :
  carried v m -> (forall v', extends v v' -> carried v' (f v')) ->
  carried v (obind m f).
Proof.
  intros Hm Hf. destruct m as [v'|e]; cbn in *.
  - specialize (Hf v' Hm). destruct (f v'); cbn in *; auto.
    eapply extends_trans; eauto.
  - exact Hm.
Qed.

(** Under the hypotheses of C9 the checker reports the status when it
    returns, and when it does not return it has raised [NameError]. *)
Lemma suspended_versioning_is_reported_or_log_warn_raises
      s3_client outputs task_id expected_checks :
  let bucket_id := or_else (value outputs "bucket_id") (value outputs "bucket_name") in
  falsy bucket_id = false ->
  head_bucket s3_client (the bucket_id) = Ok tt ->
  truthy (Py.get expected_checks "versioning_enabled") = true ->
  get_bucket_versioning s3_client (the bucket_id) = Ok (Some "Suspended") ->
  match _check_s3_tasks s3_client outputs task_id expected_checks with
  | Return v =>
      pass_check v = false /\ In "Versioning not enabled: Suspended" (errors v)
  | Raise e => e = NameError "log_warn"
  end.
Proof.
  intros bucket_id Hid Hhead Hexp Hver.
  unfold _check_s3_tasks. cbn zeta. fold bucket_id. rewrite Hid, Hhead.
  unfold check_versioning at 1. rewrite Hexp, Hver. cbn [obind negb String.eqb Ascii.eqb Bool.eqb].
  match goal with |- context [obind (check_lifecycle ?a ?b ?c ?v0) ?f] =>
    assert (H0 : pass_check v0 = false /\ In "Versioning not enabled: Suspended" (errors v0))
      by (split; [ reflexivity | cbn; now left ]);
    assert (Hc : carried v0 (obind (check_lifecycle a b c v0) f));
    [ | destruct (obind (check_lifecycle a b c v0) f) as [v|e]; cbn in Hc;
        [ destruct H0; destruct Hc; auto | exact Hc ] ]
  end.
  apply carried_bind; [ apply check_lifecycle_carried | intros v1 _ ].
  apply carried_bind; [ apply check_public_access_block_carried | intros v2 _ ].
  apply carried_bind; [ apply check_bucket_policy_carried | intros v3 _ ].
  apply carried_bind; [ apply check_cors_carried | intros v4 _ ].
  apply extends_refl.
Qed.

(** The misplaced subnets and instance are reported as errors, and the
    two wiring entries are true all the same. *)
Lemma vpc_wiring_is_never_false_witness :
  let v := _check_vpc_3subnets_3ec2 misplaced_ec2 vpc_outputs "task_vpc_3subnets_3ec2" [] in
  wiring v = [("subnets_in_vpc", true); ("instances_in_subnets", true)].
Proof.
  apply (proj2 (vpc_wiring_is_never_false
                  misplaced_ec2 vpc_outputs "task_vpc_3subnets_3ec2" [])
               [ {| vpc_VpcId := "vpc-0a1b" |} ]
               (subnets_of "vpc-ffff")
               (instances_in "subnet-a" "subnet-b" "subnet-z"));
    reflexivity.
Defined.



(** C9 fails on the code where a later handler calls [log_warn]: the bucket
    exists, its versioning is Suspended and expected to be enabled, and the
    lifecycle query is refused; the checker raises [NameError] and returns
    no result. *)
Theorem suspended_versioning_is_lost_to_name_error :
  _check_s3_tasks (suspended_s3 (ClientError access_denied)) bucket_outputs
                  "task_s3_lifecycle" versioning_and_lifecycle
  = Raise (NameError "log_warn")
  /\ run_checks healthy_ec2 (suspended_s3 (ClientError access_denied))
                nothing_to_check nothing_to_check nothing_to_check
                nothing_to_check nothing_to_check
                (Some versioning_and_lifecycle) (Some bucket_outputs)
                "task_s3_lifecycle"
     = Raise (NameError "log_warn")
  /\ _check_s3_tasks (suspended_s3 (Ok ["expire-after-30-days"])) bucket_outputs
                     "task_s3_lifecycle" versioning_and_lifecycle
     = Return {| pass_check := false;
                 errors := ["Versioning not enabled: Suspended"];
                 counts := [("bucket", 1); ("lifecycle_rule", 1)];
                 wiring := [("lifecycle_rule_attached", true)];
                 details := [("bucket_id", DValue (Some "bench-bucket"));
                             ("bucket_arn", DValue (Some "arn:aws:s3:::bench-bucket"));
                             ("versioning_status", DValue (Some "Suspended"))] |}.
Proof.
  repeat split.
Qed.

(** C3 fails on the code: for a task identifier that no branch of the
    dispatch matches, [run_checks] calls [log_warn], which the module does
    not import; with the spec and the outputs document there it raises
    [NameError], and it never returns a result that passes. *)
Theorem unrecognised_tasks_raise_name_error :
  forall ec2_client s3_client iam igw nat profile route_tables task_id,
    dispatch task_id = generic ->
    (forall expected_checks outputs,
        run_checks ec2_client s3_client iam igw nat profile route_tables
                   (Some expected_checks) (Some outputs) task_id
        = Raise (NameError "log_warn"))
    /\ (forall spec_checks outputs_file r,
           run_checks ec2_client s3_client iam igw nat profile route_tables
                      spec_checks outputs_file task_id
           = Return r ->
           cr_pass r = false).
Proof.
  intros ec2_client s3_client iam igw nat profile route_tables task_id Hgeneric.
  assert (Hraise : forall expected_checks outputs,
             run_checks ec2_client s3_client iam igw nat profile route_tables
                        (Some expected_checks) (Some outputs) task_id
             = Raise (NameError "log_warn")).
  { intros expected_checks outputs. unfold run_checks. rewrite Hgeneric. reflexivity. }
  split; [ exact Hraise | ].
  intros [expected_checks|] [outputs|] r H.
  - rewrite Hraise in H. discriminate H.
  - injection H as <-. reflexivity.
  - injection H as <-. reflexivity.
  - injection H as <-. reflexivity.
Qed.

Lemma unrecognised_tasks_raise_name_error_witness :
  dispatch "task_lambda_function" = generic
  /\ no_outputs lambda_outputs = false
  /\ run_checks healthy_ec2 (suspended_s3 (Ok []))
                nothing_to_check nothing_to_check nothing_to_check
                nothing_to_check nothing_to_check
                (Some []) (Some lambda_outputs) "task_lambda_function"
     = Raise (NameError "log_warn").
Proof.
  split; [ reflexivity | split; [ reflexivity | ] ].
  apply (proj1 (unrecognised_tasks_raise_name_error
                  healthy_ec2 (suspended_s3 (Ok []))
                  nothing_to_check nothing_to_check nothing_to_check
                  nothing_to_check nothing_to_check
                  "task_lambda_function" eq_refl)).
Defined.

(** ** All the checkers *)

Import MoreChecks.

(** ** What every block of every checker keeps *)

Section Invariant.

(** A property of verdicts that the six ways to build a verdict keep. *)
Variable tidy : Verdict -> Prop.
Hypothesis tidy_start : tidy start.
Hypothesis tidy_stop_with : forall msg, tidy (stop_with msg).
Hypothesis tidy_failed : forall msg v, tidy v -> tidy (failed msg v).
Hypothesis tidy_count : forall k n v, tidy v -> tidy (count k n v).
Hypothesis tidy_detail : forall k d v, tidy v -> tidy (detail k d v).
Hypothesis tidy_wire : forall k v, tidy v -> tidy (wire k true v).

Lemma tidy_if (b : bool) v1 v2 : tidy v1 -> tidy v2 -> tidy (if b then v1 else v2).
Proof. now destruct b. Qed.

Lemma tidy_compare_count expected_checks key default what name n v :
  tidy v -> tidy (compare_count expected_checks key default what name n v).
Proof.
  intros H. unfold compare_count. cbv zeta. apply tidy_count, tidy_if; [ | exact H ].
  now apply tidy_failed.
Qed.

Lemma tidy_fold {A} (f : Verdict -> A -> Verdict) (l : list A) :
  (forall v a, tidy v -> tidy (f v a)) -> forall v, tidy v -> tidy (fold_left f l v).
Proof.
  intros Hf. induction l as [|a l IH]; cbn; intros v H; [ exact H | ]. apply IH, Hf, H.
Qed.

Ltac keep :=
  repeat first
    [ assumption
    | apply tidy_start | apply tidy_stop_with
    | apply tidy_failed | apply tidy_count | apply tidy_detail | apply tidy_wire
    | apply tidy_compare_count
    | apply tidy_if
    | match goal with
      | |- tidy (match ?x with _ => _ end) => destruct x
      | |- kept tidy (match ?x with _ => _ end) => destruct x
      | |- kept tidy (Return _) => cbn [kept]
      | |- kept tidy (Raise _) => exact I
      end ].

Lemma tidy_subnet_loop vpc_id subnets v : tidy v -> tidy (subnet_loop vpc_id subnets v).
Proof. unfold subnet_loop. apply tidy_fold. intros v' a Hv. keep. Qed.

Lemma tidy_check_subnets ec2_client task_id expected_checks vpc_id v :
  tidy v -> tidy (check_subnets ec2_client task_id expected_checks vpc_id v).
Proof. intros H. unfold check_subnets. cbv zeta. keep. apply tidy_subnet_loop. keep. Qed.

Lemma tidy_check_instances ec2_client task_id expected_checks vpc_id subnet_ids v :
  tidy v -> tidy (check_instances ec2_client task_id expected_checks vpc_id subnet_ids v).
Proof. intros H. unfold check_instances. cbv zeta. keep. Qed.

Lemma tidy_vpc ec2_client outputs task_id expected_checks :
  tidy (_check_vpc_3subnets_3ec2 ec2_client outputs task_id expected_checks).
Proof.
  unfold _check_vpc_3subnets_3ec2. cbv zeta. keep.
  apply tidy_check_instances, tidy_check_subnets. keep.
Qed.

Lemma tidy_check_group ec2_client task_id expected_checks vpc_id security_group_id v :
  tidy v -> tidy (check_group ec2_client task_id expected_checks vpc_id security_group_id v).
Proof. intros H. unfold check_group. cbv zeta. keep. Qed.

Lemma tidy_security_group ec2_client outputs task_id expected_checks :
  tidy (_check_security_group ec2_client outputs task_id expected_checks).
Proof.
  unfold _check_security_group. cbv zeta. keep. apply tidy_check_group. keep.
Qed.

Lemma tidy_bind (f : Verdict -> Outcome Verdict) (o : Outcome Verdict) :
  kept tidy o -> (forall v, tidy v -> kept tidy (f v)) -> kept tidy (obind o f).
Proof. destruct o; cbn; auto. Qed.

Lemma tidy_not_found expected_checks key code warning msg e v :
  tidy v -> kept tidy (not_found expected_checks key code warning msg e v).
Proof.
  intros H. unfold not_found.
  destruct (negb (Py.contains code e)).
  - rewrite log_warn_raises. exact I.
  - cbn. keep.
Qed.

Lemma tidy_check_versioning s3_client expected_checks bucket_id v :
  tidy v -> kept tidy (check_versioning s3_client expected_checks bucket_id v).
Proof.
  intros H. unfold check_versioning.
  destruct (truthy _); [ | exact H ].
  destruct (get_bucket_versioning _ _).
  - cbn. keep.
  - rewrite log_warn_raises. exact I.
Qed.

Lemma tidy_check_lifecycle s3_client expected_checks bucket_id v :
  tidy v -> kept tidy (check_lifecycle s3_client expected_checks bucket_id v).
Proof.
  intros H. unfold check_lifecycle.
  destruct (truthy _); [ | exact H ].
  destruct (get_bucket_lifecycle_configuration _ _); [ cbn; keep | now apply tidy_not_found ].
Qed.

Lemma tidy_check_public_access_block s3_client expected_checks bucket_id v :
  tidy v -> kept tidy (check_public_access_block s3_client expected_checks bucket_id v).
Proof.
  intros H. unfold check_public_access_block.
  destruct (truthy _); [ | exact H ].
  destruct (get_public_access_block _ _); [ cbn; keep | now apply tidy_not_found ].
Qed.

Lemma tidy_check_bucket_policy s3_client expected_checks bucket_id v :
  tidy v -> kept tidy (check_bucket_policy s3_client expected_checks bucket_id v).
Proof.
  intros H. unfold check_bucket_policy.
  destruct (truthy _); [ | exact H ].
  destruct (get_bucket_policy _ _); [ cbn; keep | now apply tidy_not_found ].
Qed.

Lemma tidy_check_cors s3_client expected_checks bucket_id v :
  tidy v -> kept tidy (check_cors s3_client expected_checks bucket_id v).
Proof.
  intros H. unfold check_cors.
  destruct (truthy _) eqn:E; [ | exact H ].
  destruct (get_bucket_cors _ _); [ | now apply tidy_not_found ].
  destruct (Nat.ltb _ _); cbn; keep.
Qed.

Lemma tidy_s3 s3_client outputs task_id expected_checks :
  kept tidy (_check_s3_tasks s3_client outputs task_id expected_checks).
Proof.
  unfold _check_s3_tasks. cbv zeta.
  destruct (falsy _); [ cbn; keep | ].
  destruct (head_bucket _ _); [ | cbn; keep ].
  apply tidy_bind; [ apply tidy_check_versioning; keep | intros v1 H1 ].
  apply tidy_bind; [ now apply tidy_check_lifecycle | intros v2 H2 ].
  apply tidy_bind; [ now apply tidy_check_public_access_block | intros v3 H3 ].
  apply tidy_bind; [ now apply tidy_check_bucket_policy | intros v4 H4 ].
  apply tidy_bind; [ now apply tidy_check_cors | intros v5 H5 ].
  exact H5.
Qed.

Lemma tidy_generic outputs task_id expected_checks :
  kept tidy (_check_generic outputs task_id expected_checks).
Proof.
  unfold _check_generic. cbv zeta. destruct (no_outputs _); [ cbn; keep | ].
  rewrite log_warn_raises. exact I.
Qed.

Lemma tidy_internet_gateway ec2_client ec2 outputs task_id expected_checks :
  tidy (_check_vpc_internet_gateway ec2_client ec2 outputs task_id expected_checks).
Proof.
  unfold _check_vpc_internet_gateway, check_subnet, check_route_table,
    check_internet_gateway. cbv zeta. keep.
Qed.

Lemma tidy_route_loop rts v : tidy v -> tidy (route_loop rts v).
Proof. unfold route_loop. apply tidy_fold. intros v' rt Hv. keep. Qed.

Lemma tidy_nat_gateway ec2_client ec2 outputs task_id expected_checks :
  tidy (_check_vpc_nat_gateway ec2_client ec2 outputs task_id expected_checks).
Proof.
  unfold _check_vpc_nat_gateway, check_nat_routes, check_nat_gateway. cbv zeta. keep.
  all: apply tidy_route_loop; keep.
Qed.

Lemma tidy_instance_profile ec2 iam_client outputs task_id expected_checks :
  tidy (_check_ec2_instance_profile ec2 iam_client outputs task_id expected_checks).
Proof.
  unfold _check_ec2_instance_profile, check_instance_profile, check_iam_role,
    check_instance. cbv zeta. keep.
Qed.

Lemma tidy_route_tables ec2_client ec2 outputs task_id expected_checks :
  tidy (_check_vpc_multiple_route_tables ec2_client ec2 outputs task_id expected_checks).
Proof.
  unfold _check_vpc_multiple_route_tables, check_route_tables, check_subnet_count.
  cbv zeta. keep.
Qed.

(** The verdict behind a result of [run_checks] is keep. *)
Lemma tidy_result ec2_client ec2 s3_client iam_client iam_checker
      spec_checks outputs_file task_id r :
  (forall outputs task_id expected_checks,
      kept tidy (iam_checker outputs task_id expected_checks)) ->
  run_checks_with ec2_client ec2 s3_client iam_client iam_checker
                        spec_checks outputs_file task_id = Return r ->
  (cr_wiring r = None /\ cr_pass r = false /\ exists msg, cr_errors r = [msg])
  \/ exists v, tidy v /\ cr_pass r = pass_check v /\ cr_errors r = errors v
               /\ cr_wiring r = Some (wiring v).
Proof.
  intros Hiam. unfold run_checks_with, Checks.run_checks.
  destruct spec_checks as [expected_checks|].
  2:{ intros [= <-]. cbn. left. eauto. }
  destruct outputs_file as [outputs|].
  2:{ intros [= <-]. cbn. left. eauto. }
  match goal with
  | |- obind ?o _ = _ -> _ => assert (Ho : kept tidy o)
  end.
  { destruct (dispatch task_id); cbn [kept].
    - apply tidy_vpc.
    - apply tidy_s3.
    - apply tidy_security_group.
    - apply Hiam.
    - apply tidy_internet_gateway.
    - apply tidy_nat_gateway.
    - apply tidy_instance_profile.
    - apply tidy_route_tables.
    - rewrite log_warn_raises. exact I. }
  match goal with
  | |- obind ?o _ = _ -> _ => destruct o as [v|e]
  end; cbn; [ | discriminate ].
  intros [= <-]. cbn. right. exists v. auto.
Qed.

End Invariant.

Lemma consistent_failed msg v : consistent (failed msg v).
Proof.
  cbn. split; [ discriminate | ]. cbn. intros H. destruct (errors v); discriminate H.
Qed.

(** X10: every result of [run_checks] passes exactly when its error list
    is empty, with any checker of the IAM task that keeps to this. *)
Theorem a_check_passes_exactly_without_errors :
  forall ec2_client ec2 s3_client iam_client iam_checker spec_checks outputs_file task_id r,
    (forall outputs task_id expected_checks v,
        iam_checker outputs task_id expected_checks = Return v ->
        (pass_check v = true <-> errors v = [])) ->
    run_checks_with ec2_client ec2 s3_client iam_client iam_checker
                          spec_checks outputs_file task_id = Return r ->
    (cr_pass r = true <-> cr_errors r = []).
Proof.
  intros ec2_client ec2 s3_client iam_client iam_checker spec_checks outputs_file task_id r
         Hiam Hr.
  assert (H1 : consistent start) by (split; reflexivity).
  assert (H2 : forall msg, consistent (stop_with msg)) by (intros msg; split; discriminate).
  assert (H3 : forall msg v, consistent v -> consistent (failed msg v))
    by (intros msg v _; apply consistent_failed).
  assert (H4 : forall k n v, consistent v -> consistent (count k n v)) by (intros k n v H; exact H).
  assert (H5 : forall k d v, consistent v -> consistent (detail k d v))
    by (intros k d v H; exact H).
  assert (H6 : forall k v, consistent v -> consistent (wire k true v))
    by (intros k v H; exact H).
  assert (H7 : forall outputs t e, kept consistent (iam_checker outputs t e)).
  { intros outputs t e. unfold kept.
    destruct (iam_checker outputs t e) eqn:E; [ eapply Hiam; eauto | exact I ]. }
  destruct (tidy_result consistent H1 H2 H3 H4 H5 H6 _ _ _ _ _ _ _ _ _ H7 Hr)
    as [(_ & Hp & msg & He)|(v & Hv & Hp & He & _)].
  - rewrite Hp, He. split; discriminate.
  - rewrite Hp, He. exact Hv.
Qed.

(** X11: no result of [run_checks] has a wiring entry that is false, for
    any of the checkers: an entry is true or it is not there. *)
Theorem no_wiring_entry_is_false :
  forall ec2_client ec2 s3_client iam_client iam_checker spec_checks outputs_file task_id r
         wiring_of_r key,
    (forall outputs task_id expected_checks v key,
        iam_checker outputs task_id expected_checks = Return v ->
        Py.get (wiring v) key <> Some false) ->
    run_checks_with ec2_client ec2 s3_client iam_client iam_checker
                          spec_checks outputs_file task_id = Return r ->
    cr_wiring r = Some wiring_of_r ->
    Py.get wiring_of_r key <> Some false.
Proof.
  intros ec2_client ec2 s3_client iam_client iam_checker spec_checks outputs_file task_id r
         w key Hiam Hr Hw.
  assert (H1 : unbroken start) by (intros k; discriminate).
  assert (H2 : forall msg, unbroken (stop_with msg)) by (intros msg k; discriminate).
  assert (H3 : forall msg v, unbroken v -> unbroken (failed msg v)) by (intros msg v H; exact H).
  assert (H4 : forall k n v, unbroken v -> unbroken (count k n v)) by (intros k n v H; exact H).
  assert (H5 : forall k d v, unbroken v -> unbroken (detail k d v)) by (intros k d v H; exact H).
  assert (H6 : forall k v, unbroken v -> unbroken (wire k true v)).
  { intros k v H k'. cbn [wiring wire].
    destruct (String.eqb k' k) eqn:E.
    - apply String.eqb_eq in E. subst k'. rewrite get_set_same. discriminate.
    - rewrite get_set_other by exact E. apply H. }
  assert (H7 : forall outputs t e, kept unbroken (iam_checker outputs t e)).
  { intros outputs t e. unfold kept.
    destruct (iam_checker outputs t e) eqn:E; [ | exact I ].
    intros k. eapply Hiam; eauto. }
  destruct (tidy_result unbroken H1 H2 H3 H4 H5 H6 _ _ _ _ _ _ _ _ _ H7 Hr)
    as [(Hn & _)|(v & Hv & _ & _ & Hwv)].
  - congruence.
  - rewrite Hw in Hwv. injection Hwv as ->. apply Hv.
Qed.

Lemma a_check_passes_exactly_without_errors_witness :
  exists r,
    run_checks_with misplaced_ec2 quiet_ec2 (suspended_s3 (Ok [])) quiet_iam
                    nothing_to_check (Some []) (Some vpc_outputs)
                    "task_vpc_3subnets_3ec2" = Return r
    /\ (cr_pass r = true <-> cr_errors r = []).
Proof.
  eexists. split; [ vm_compute; reflexivity | ].
  apply (a_check_passes_exactly_without_errors
           misplaced_ec2 quiet_ec2 (suspended_s3 (Ok [])) quiet_iam nothing_to_check
           (Some []) (Some vpc_outputs) "task_vpc_3subnets_3ec2").
  - intros outputs task_id expected_checks v [= <-]. split; reflexivity.
  - vm_compute. reflexivity.
Defined.

Lemma no_wiring_entry_is_false_witness :
  Py.get [("subnets_in_vpc", true); ("instances_in_subnets", true)] "subnets_in_vpc"
  <> Some false.
Proof.
  apply (no_wiring_entry_is_false
           misplaced_ec2 quiet_ec2 (suspended_s3 (Ok [])) quiet_iam nothing_to_check
           (Some []) (Some vpc_outputs) "task_vpc_3subnets_3ec2"
           {| cr_task_id := "task_vpc_3subnets_3ec2"; cr_pass := false;
              cr_details := Some [ ("vpc_id", DValue (Some "vpc-0a1b"));
                                   ("subnet_ids",
                                    DList ["subnet-a"; "subnet-b"; "subnet-c"]);
                                   ("instance_ids", DList ["i-1"; "i-2"; "i-3"]) ];
              cr_counts := Some [("vpc", 1); ("subnet", 3); ("instance", 3)];
              cr_wiring := Some [("subnets_in_vpc", true); ("instances_in_subnets", true)];
              cr_errors := [ "Subnet wiring error: subnet not in expected VPC";
                             "Subnet wiring error: subnet not in expected VPC";
                             "Subnet wiring error: subnet not in expected VPC";
                             "Instance wiring error: instance in unexpected subnet" ] |}).
  - intros outputs task_id expected_checks v key [= <-]. discriminate.
  - vm_compute. reflexivity.
  - reflexivity.
Defined.

(** ** The S3 checker and [log_warn] *)

Lemma not_found_trips expected_checks key code warning msg e v :
  trips (negb (Py.contains code e))
        (not_found expected_checks key code warning msg e v).
Proof.
  unfold not_found, trips. destruct (negb (Py.contains code e)).
  - now rewrite log_warn_raises.
  - cbn. eauto.
Qed.

Lemma check_versioning_trips s3_client expected_checks bucket_id v :
  trips (truthy (Py.get expected_checks "versioning_enabled")
         && refused (get_bucket_versioning s3_client bucket_id))
        (check_versioning s3_client expected_checks bucket_id v).
Proof.
  unfold check_versioning, trips. destruct (truthy _); cbn [andb]; [ | eauto ].
  destruct (get_bucket_versioning _ _); cbn [refused].
  - eauto.
  - now rewrite log_warn_raises.
Qed.

Lemma check_lifecycle_trips s3_client expected_checks bucket_id v :
  trips (truthy (Py.get expected_checks "lifecycle_rule_count")
         && unexpected "NoSuchLifecycleConfiguration"
                       (get_bucket_lifecycle_configuration s3_client bucket_id))
        (check_lifecycle s3_client expected_checks bucket_id v).
Proof.
  unfold check_lifecycle. destruct (truthy _); cbn [andb]; [ | cbn; eauto ].
  destruct (get_bucket_lifecycle_configuration _ _); cbn [unexpected].
  - cbn. eauto.
  - apply not_found_trips.
Qed.

Lemma check_public_access_block_trips s3_client expected_checks bucket_id v :
  trips (truthy (Py.get expected_checks "public_access_block_count")
         && unexpected "NoSuchPublicAccessBlockConfiguration"
                       (get_public_access_block s3_client bucket_id))
        (check_public_access_block s3_client expected_checks bucket_id v).
Proof.
  unfold check_public_access_block. destruct (truthy _); cbn [andb]; [ | cbn; eauto ].
  destruct (get_public_access_block _ _); cbn [unexpected].
  - cbn. eauto.
  - apply not_found_trips.
Qed.

Lemma check_bucket_policy_trips s3_client expected_checks bucket_id v :
  trips (truthy (Py.get expected_checks "bucket_policy_count")
         && unexpected "NoSuchBucketPolicy" (get_bucket_policy s3_client bucket_id))
        (check_bucket_policy s3_client expected_checks bucket_id v).
Proof.
  unfold check_bucket_policy. destruct (truthy _); cbn [andb]; [ | cbn; eauto ].
  destruct (get_bucket_policy _ _); cbn [unexpected].
  - cbn. eauto.
  - apply not_found_trips.
Qed.

Lemma check_cors_trips s3_client expected_checks bucket_id v :
  trips (truthy (Py.get expected_checks "cors_configuration_count")
         && unexpected "NoSuchCORSConfiguration" (get_bucket_cors s3_client bucket_id))
        (check_cors s3_client expected_checks bucket_id v).
Proof.
  unfold check_cors. destruct (truthy _); cbn [andb]; [ | cbn; eauto ].
  destruct (get_bucket_cors _ _); cbn [unexpected].
  - destruct (Nat.ltb _ _); cbn; eauto.
  - apply not_found_trips.
Qed.

Lemma trips_bind a b o (f : Verdict -> Outcome Verdict) :
  trips a o -> (forall v, trips b (f v)) -> trips (a || b) (obind o f).
Proof.
  unfold trips at 1. destruct a; cbn [orb].
  - intros -> _. reflexivity.
  - intros (v & ->) H. cbn. apply H.
Qed.

(** X12: [_check_s3_tasks] returns a verdict unless one of its handlers
    reaches [log_warn]; it raises [NameError] exactly then. *)
Theorem the_s3_checker_raises_exactly_when_it_warns :
  forall s3_client outputs task_id expected_checks,
    let bucket_id := or_else (value outputs "bucket_id") (value outputs "bucket_name") in
    let reached :=
      negb (falsy bucket_id)
      && negb (refused (head_bucket s3_client (the bucket_id)))
      && log_warn_reached s3_client expected_checks (the bucket_id) in
    (reached = true ->
     _check_s3_tasks s3_client outputs task_id expected_checks
     = Raise (NameError "log_warn"))
    /\ (reached = false ->
        exists v, _check_s3_tasks s3_client outputs task_id expected_checks = Return v).
Proof.
  intros s3_client outputs task_id expected_checks bucket_id reached.
  assert (H : trips reached (_check_s3_tasks s3_client outputs task_id expected_checks)).
  { subst reached. unfold _check_s3_tasks. cbv zeta. fold bucket_id.
    destruct (falsy bucket_id); cbn [negb andb]; [ cbn; eauto | ].
    destruct (head_bucket s3_client (the bucket_id)); cbn [refused negb andb];
      [ | cbn; eauto ].
    unfold log_warn_reached.
    repeat rewrite <- orb_assoc.
    apply trips_bind; [ apply check_versioning_trips | intros v1 ].
    apply trips_bind; [ apply check_lifecycle_trips | intros v2 ].
    apply trips_bind; [ apply check_public_access_block_trips | intros v3 ].
    apply trips_bind; [ apply check_bucket_policy_trips | intros v4 ].
    rewrite <- (orb_false_r (_ && unexpected "NoSuchCORSConfiguration" _)).
    apply trips_bind; [ apply check_cors_trips | intros v5 ].
    cbn. eauto. }
  unfold trips in H. split; intros E; rewrite E in H; exact H.
Qed.

(** X13: an expectation that is absent, zero or false is not checked: with
    none of the five, the verdict only says that the bucket exists,
    whatever the bucket is like. *)
Theorem an_expectation_of_zero_is_not_checked :
  forall s3_client outputs task_id expected_checks,
    let bucket_id := or_else (value outputs "bucket_id") (value outputs "bucket_name") in
    (forall key, In key s3_expectations ->
                 truthy (Py.get expected_checks key) = false) ->
    falsy bucket_id = false ->
    head_bucket s3_client (the bucket_id) = Ok tt ->
    _check_s3_tasks s3_client outputs task_id expected_checks
    = Return {| pass_check := true; errors := []; counts := [("bucket", 1)];
                wiring := [];
                details := [ ("bucket_id", DValue (Some (the bucket_id)));
                             ("bucket_arn", DValue (value outputs "bucket_arn")) ] |}.
Proof.
  intros s3_client outputs task_id expected_checks bucket_id Hnone Hb Hhead.
  unfold _check_s3_tasks. cbv zeta. fold bucket_id. rewrite Hb, Hhead.
  unfold check_versioning, check_lifecycle, check_public_access_block,
    check_bucket_policy, check_cors.
  rewrite !Hnone by (unfold s3_expectations; cbn; tauto).
  reflexivity.
Qed.

Lemma an_expectation_of_zero_is_not_checked_witness :
  _check_s3_tasks (suspended_s3 (ClientError access_denied)) bucket_outputs
                  "task_s3_basic" no_expectations
  = Return {| pass_check := true; errors := []; counts := [("bucket", 1)];
              wiring := [];
              details := [ ("bucket_id", DValue (Some "bench-bucket"));
                           ("bucket_arn", DValue (Some "arn:aws:s3:::bench-bucket")) ] |}.
Proof.
  apply (an_expectation_of_zero_is_not_checked
           (suspended_s3 (ClientError access_denied)) bucket_outputs "task_s3_basic"
           no_expectations).
  - intros key Hkey. unfold s3_expectations in Hkey.
    repeat (destruct Hkey as [<-|Hkey]; [ reflexivity | ]). contradiction.
  - reflexivity.
  - reflexivity.
Defined.

Lemma the_s3_checker_raises_exactly_when_it_warns_witness :
  _check_s3_tasks (suspended_s3 (ClientError access_denied)) bucket_outputs
                  "task_s3_lifecycle" versioning_and_lifecycle
  = Raise (NameError "log_warn").
Proof.
  apply (proj1 (the_s3_checker_raises_exactly_when_it_warns
                  (suspended_s3 (ClientError access_denied)) bucket_outputs
                  "task_s3_lifecycle" versioning_and_lifecycle)).
  reflexivity.
Defined.

(** ** The checkers of the network tasks *)

Lemma compare_count_pass expected_checks key default what name n v :
  pass_check (compare_count expected_checks key default what name n v)
  = pass_check v
    && negb (differs n (Py.get_default expected_checks key (EInt default))).
Proof.
  unfold compare_count. cbv zeta. destruct (differs n _); cbn.
  - now rewrite andb_false_r.
  - now rewrite andb_true_r.
Qed.

Lemma compare_count_wiring expected_checks key default what name n v :
  wiring (compare_count expected_checks key default what name n v) = wiring v.
Proof. unfold compare_count. cbv zeta. now destruct (differs n _). Qed.

(** X14: the checker of the task with several route tables passes exactly when
    the VPC query answers, the numbers of subnets and of route tables are
    the expected ones, and the route tables are associated with as many
    different subnets as the outputs list: neither the number of VPCs nor
    which subnets are associated is looked at. *)
Theorem route_tables_are_checked_by_count :
  forall ec2_client ec2 outputs task_id expected_checks,
    let vpc_id := the (value outputs "vpc_id") in
    pass_check (_check_vpc_multiple_route_tables ec2_client ec2 outputs task_id
                                                 expected_checks) = true
    <-> falsy (value outputs "vpc_id") = false
        /\ exists vpcs subnets rts,
             describe_vpcs ec2_client [vpc_id] = Ok vpcs
             /\ describe_subnets ec2_client vpc_id task_id = Ok subnets
             /\ differs (List.length subnets)
                        (Py.get_default expected_checks "subnet_count" (EInt 3)) = false
             /\ describe_route_tables_of ec2 vpc_id = Ok rts
             /\ differs (List.length rts)
                        (Py.get_default expected_checks "route_table_count" (EInt 2))
                = false
             /\ List.length (associated_subnets rts)
                = List.length (list_value outputs "subnet_ids").
Proof.
  intros ec2_client ec2 outputs task_id expected_checks vpc_id.
  unfold _check_vpc_multiple_route_tables. cbv zeta. fold vpc_id.
  destruct (falsy (value outputs "vpc_id")).
  { cbn. split; [ discriminate | intros (H & _); discriminate H ]. }
  destruct (describe_vpcs ec2_client [vpc_id]) as [vpcs|e].
  2:{ cbn. split; [ discriminate | intros (_ & ? & ? & ? & H & _); discriminate H ]. }
  unfold check_route_tables, check_subnet_count.
  destruct (describe_subnets ec2_client vpc_id task_id) as [subnets|e].
  2:{ destruct (describe_route_tables_of ec2 vpc_id) as [rts|e'].
      - destruct (Nat.eqb _ _); cbn [pass_check wire failed];
          [ rewrite compare_count_pass; cbn | ];
          (split; [ discriminate | intros (_ & ? & ? & ? & _ & H & _); discriminate H ]).
      - cbn. split; [ discriminate | intros (_ & ? & ? & ? & _ & H & _); discriminate H ]. }
  destruct (describe_route_tables_of ec2 vpc_id) as [rts|e].
  2:{ cbn. split; [ discriminate
                  | intros (_ & ? & ? & ? & _ & _ & _ & H & _); discriminate H ]. }
  destruct (Nat.eqb_spec (List.length (associated_subnets rts))
                         (List.length (list_value outputs "subnet_ids"))) as [El|El].
  - cbn [pass_check wire]. rewrite !compare_count_pass. cbn [pass_check count detail start].
    cbn [andb]. rewrite andb_true_iff, !negb_true_iff. split.
    + intros (H1 & H2). split; [ reflexivity | ]. exists vpcs, subnets, rts. auto 10.
    + intros (_ & vpcs' & subnets' & rts' & _ & [= <-] & H1 & [= <-] & H2 & _). auto.
  - cbn [pass_check failed]. split; [ discriminate | ].
    intros (_ & vpcs' & subnets' & rts' & _ & _ & _ & [= <-] & _ & H). contradiction.
Qed.

Lemma route_tables_are_checked_by_count_witness :
  pass_check (_check_vpc_multiple_route_tables healthy_ec2 other_ec2 two_subnet_outputs
                                               "task_vpc_multiple_route_tables" [])
  = true.
Proof.
  apply (proj2 (route_tables_are_checked_by_count
                  healthy_ec2 other_ec2 two_subnet_outputs
                  "task_vpc_multiple_route_tables" [])).
  split; [ reflexivity | ].
  exists [ {| vpc_VpcId := "vpc-0a1b" |} ], (subnets_of "vpc-0a1b"), other_tables.
  repeat split; reflexivity.
Defined.

(** X15: in the checker of the task with an internet gateway, an identifier that
    the outputs lack compares equal to a field that the response lacks:
    without [internet_gateway_id] a default route through no gateway counts
    as the route to the internet gateway, and without [subnet_id] an
    association with no subnet counts as the association of the subnet. *)
Theorem a_missing_output_matches_a_missing_field :
  forall ec2_client ec2 outputs task_id expected_checks vpcs rt rts,
    let v := _check_vpc_internet_gateway ec2_client ec2 outputs task_id expected_checks in
    falsy (value outputs "vpc_id") = false ->
    describe_vpcs ec2_client [the (value outputs "vpc_id")] = Ok vpcs ->
    falsy (value outputs "route_table_id") = false ->
    describe_route_tables ec2 [the (value outputs "route_table_id")] = Ok (rt :: rts) ->
    (forall route,
        value outputs "internet_gateway_id" = None ->
        default_route (Routes rt) = Some route ->
        GatewayId route = None ->
        Py.get (wiring v) "route_table_has_default_route_to_igw" = Some true)
    /\ (value outputs "subnet_id" = None ->
        existsb (fun a => same (assoc_SubnetId a) None) (Associations rt) = true ->
        Py.get (wiring v) "subnet_associated_with_route_table" = Some true).
Proof.
  intros ec2_client ec2 outputs task_id expected_checks vpcs rt rts v Hvpc Hvpcs Hrt Hrts.
  subst v. unfold _check_vpc_internet_gateway. cbv zeta. rewrite Hvpc, Hvpcs.
  unfold check_route_table. rewrite Hrt, Hrts.
  split.
  - intros route Higw Hroute Hgw.
    unfold check_internet_gateway, check_subnet. rewrite Higw, Hroute, Hgw. cbn [falsy same].
    destruct (value outputs "subnet_id") as [subnet_id|]; cbn [falsy].
    + destruct (String.eqb subnet_id "").
      * destruct (existsb _ _); cbn [wiring wire failed]; rewrite ?compare_count_wiring;
          cbn; reflexivity.
      * destruct (describe_subnets_by_id _ _ _);
          destruct (existsb _ _); rewrite ?compare_count_wiring;
          cbn [wiring wire failed]; rewrite ?compare_count_wiring; cbn; reflexivity.
    + destruct (existsb _ _); cbn [wiring wire failed]; rewrite ?compare_count_wiring;
        cbn; reflexivity.
  - intros Hsubnet Hassoc.
    unfold check_subnet. rewrite Hsubnet, Hassoc. cbn [falsy wiring wire].
    apply get_set_same.
Qed.

Lemma a_missing_output_matches_a_missing_field_witness :
  let v := _check_vpc_internet_gateway healthy_ec2 private_ec2 table_outputs
                                       "task_vpc_internet_gateway" [] in
  Py.get (wiring v) "route_table_has_default_route_to_igw" = Some true
  /\ Py.get (wiring v) "subnet_associated_with_route_table" = Some true.
Proof.
  destruct (a_missing_output_matches_a_missing_field
              healthy_ec2 private_ec2 table_outputs "task_vpc_internet_gateway" []
              [ {| vpc_VpcId := "vpc-0a1b" |} ] private_table [])
    as (Hroute & Hsubnet); try reflexivity.
  split.
  - apply (Hroute {| DestinationCidrBlock := Some "0.0.0.0/0"; GatewayId := None;
                     NatGatewayId := Some "nat-0c1d" |}); reflexivity.
  - apply Hsubnet; reflexivity.
Defined.

(** ** Names from ARNs *)

Lemma split_on_nonempty sep s : split_on sep s <> [].
Proof.
  destruct s as [|c s]; cbn; [ discriminate | ].
  destruct (Ascii.eqb c sep); [ discriminate | ].
  destruct (split_on sep s); discriminate.
Qed.

Lemma contains_char sep c s :
  Py.contains (String sep "") (String c s)
  = Ascii.eqb sep c || Py.contains (String sep "") s.
Proof.
  cbn [Py.contains Py.startswith].
  replace (Py.startswith s "") with true by (destruct s; reflexivity).
  rewrite andb_true_r. now destruct (Ascii.eqb sep c).
Qed.

(** The last piece of [s.split(sep)] ends [s], has no separator in it, and
    is all of [s] or comes right after a separator. *)
Lemma last_piece sep : forall s,
  exists before,
    s = before ++ last (split_on sep s) ""
    /\ Py.contains (String sep "") (last (split_on sep s) "") = false
    /\ ((before = "" /\ exists piece, split_on sep s = [piece])
        \/ (2 <= List.length (split_on sep s)
            /\ exists p, before = p ++ String sep "")).
Proof.
  induction s as [|c s IH].
  - exists "". cbn. split; [ reflexivity | ]. split; [ reflexivity | ]. left. eauto.
  - destruct IH as (before & Hs & Hno & Hshape).
    cbn [split_on]. destruct (Ascii.eqb_spec c sep) as [->|Hne].
    + exists (String sep before).
      assert (Hlast : last ("" :: split_on sep s) "" = last (split_on sep s) "").
      { destruct (split_on sep s) eqn:E; [ now apply split_on_nonempty in E | reflexivity ]. }
      rewrite Hlast. cbn [append]. rewrite <- Hs.
      split; [ reflexivity | ]. split; [ exact Hno | ]. right. split.
      * cbn [List.length].
        destruct (split_on sep s) eqn:E; [ now apply split_on_nonempty in E | cbn; lia ].
      * destruct Hshape as [(-> & _)|(_ & p & ->)].
        -- now exists "".
        -- now exists (String sep p).
    + destruct (split_on sep s) as [|x xs] eqn:Ex; [ now apply split_on_nonempty in Ex | ].
      destruct Hshape as [(-> & piece & [= -> ->])|(Hlen & p & ->)].
      * cbn [last append] in *. exists "". subst s.
        split; [ reflexivity | ]. split.
        -- rewrite contains_char, Hno.
           assert (Ascii.eqb sep c = false) as -> by (apply Ascii.eqb_neq; congruence).
           reflexivity.
        -- left. eauto.
      * destruct xs as [|y ys]; [ cbn in Hlen; lia | ].
        change (last ((String c x) :: y :: ys) "") with (last (y :: ys) "").
        change (last (x :: y :: ys) "") with (last (y :: ys) "") in Hs, Hno.
        exists (String c (p ++ String sep "")). cbn [append]. rewrite <- Hs.
        split; [ reflexivity | ]. split; [ exact Hno | ]. right. split.
        -- cbn in *. lia.
        -- now exists (String c p).
Qed.

(** X16: the name the checkers take from an ARN is what follows its last
    "/": it has no "/" in it, the ARN ends with it, and what is before it is
    nothing or ends with "/". *)
Theorem the_name_of_an_arn_follows_its_last_slash :
  forall arn,
    Py.contains "/" (name_of_arn arn) = false
    /\ exists before,
         arn = before ++ name_of_arn arn
         /\ (before = "" \/ exists p, before = p ++ "/").
Proof.
  intros arn. unfold name_of_arn.
  destruct (last_piece "/" arn) as (before & Hs & Hno & Hshape).
  destruct (Py.contains "/" arn) eqn:E.
  - split; [ exact Hno | ]. exists before. split; [ exact Hs | ].
    destruct Hshape as [(-> & _)|(_ & p & ->)]; [ now left | right; eauto ].
  - split; [ exact E | ]. exists "". split; [ reflexivity | now left ].
Qed.

End CheckerProperties.

(* ================================================================== *)
(** * Properties of the runner *)
(* ================================================================== *)

Section RunnerProperties.

Import RunTask.

(** One step of a case analysis of [run]: on what a command did, on what
    the checks gave, or on a test on a command's output. *)
Ltac run_step H att has rc chk :=
  match type of H with
  | context [att ?s ?t (rc ?c)] =>
      let E := fresh "Hcmd" in
      destruct (att s t (rc c)) as [[[] ?] ?] eqn:E
  | context [chk ?o] =>
      let E := fresh "Hchecks" in
      destruct (chk o) as [[? [] ? ? ? ?]|] eqn:E
  | context [has ?a ?b] =>
      let E := fresh "Hin" in
      destruct (has a b) eqn:E
  end; vm_compute in H.

(** All the ways [run tf_vars logs_dir w] can go, for a variable [w]. *)
Ltac run_cases tf_vars logs_dir w :=
  let H := fresh "Hrun" in
  let att := fresh "att" in
  let has := fresh "has" in
  let low := fresh "low" in
  let ls := fresh "ls" in
  let rc := fresh "rc" in
  let chk := fresh "chk" in
  let res := fresh "res" in
  remember (run tf_vars logs_dir w) as res eqn:H in *;
  destruct w as [ls rc chk];
  unfold run, run_body, _run_terraform in H;
  remember attempt as att in H;
  remember Py.contains as has in H;
  remember Py.lower as low in H;
  destruct ls;
  vm_compute in H;
  repeat run_step H att has rc chk; subst;
  cbv beta iota delta [fst snd pass failure_category] in *.

Ltac in_list := repeat (first [left; reflexivity | right]).

(** C6, as the code has it: a finished run either passed and has no failure
    category, or failed and has one category, which is one of
    [FAILURE_CATEGORIES] (the ninth is LOCALSTACK). *)
Theorem failure_category_iff_failed :
  forall tf_vars logs_dir w,
    let r := fst (run tf_vars logs_dir w) in
    (pass r = true /\ failure_category r = None)
    \/ (pass r = false
        /\ exists c, failure_category r = Some c /\ In c FAILURE_CATEGORIES).
Proof.
  intros tf_vars logs_dir w r. subst r.
  run_cases tf_vars logs_dir w.
  all: try (left; split; reflexivity).
  all: right; split; [reflexivity|]; eexists; split; [reflexivity|].
  all: unfold FAILURE_CATEGORIES; in_list.
Qed.

(** C6, as the claim states it, fails when LocalStack is down: the run
    fails with the category LOCALSTACK, which is not in the claim's set. *)
Lemma localstack_down_is_not_in_the_claimed_set :
  let w := {| check_localstack := false;
              run_command := run_command all_green;
              run_checks := run_checks all_green |} in
  let r := fst (run [] "results/logs" w) in
  pass r = false
  /\ failure_category r = Some "LOCALSTACK"
  /\ ~ In "LOCALSTACK" [ "SYNTAX"; "INIT"; "VALIDATE"; "PLAN"; "APPLY"; "CHECKS";
                         "IDEMPOTENCY"; "DESTROY"; "PRECONDITION" ].
Proof.
  repeat split.
  intros H. repeat (destruct H as [H|H]; [discriminate H|]). exact H.
Qed.

Ltac which_event H :=
  repeat (destruct H as [H|H]; [try discriminate H|]); try contradiction.

(** C4: when the call of [run_checks] returns a result that does not pass,
    or raises, the run fails with the category CHECKS and terraform destroy
    is not run. *)
Theorem failed_checks_leave_the_infrastructure :
  forall tf_vars logs_dir w outcome,
    In (RunChecks outcome) (snd (run tf_vars logs_dir w)) ->
    checks_failed outcome = true ->
    let r := run tf_vars logs_dir w in
    failure_category (fst r) = Some "CHECKS"
    /\ pass (fst r) = false
    /\ executed "destroy" (snd r) = false.
Proof.
  intros tf_vars logs_dir w outcome Hin Hfailed r. subst r.
  run_cases tf_vars logs_dir w.
  all: which_event Hin.
  all: try (injection Hin as <-; discriminate Hfailed).
  all: repeat split; reflexivity.
Qed.

Lemma failed_checks_leave_the_infrastructure_witness :
  let r := run [] "results/logs" checks_raise in
  failure_category (fst r) = Some "CHECKS"
  /\ pass (fst r) = false
  /\ executed "destroy" (snd r) = false.
Proof.
  apply (failed_checks_leave_the_infrastructure
           [] "results/logs" checks_raise (Checks.Raise (Checks.NameError "log_warn"))).
  - vm_compute. in_list.
  - reflexivity.
Defined.

(** C5, as the code has it: the stages a run executes are a prefix of the
    fixed order; between the stages of [gated] the later one is executed
    only if the earlier one succeeded (so apply is never entered after an
    unsuccessful validate); the checks are run whenever the output capture
    was, whatever it gave, and only then; destroy is executed only after a
    second plan whose output has a zero-change marker; and a run that
    passes has executed every stage. *)
Theorem stages_run_in_order :
  forall tf_vars logs_dir w,
    let r := run tf_vars logs_dir w in
    (exists n, map fst (stages (snd r)) = firstn n stage_names)
    /\ (forall a b, In (a, b) gated -> executed b (snd r) = true ->
                    In (a, true) (stages (snd r)))
    /\ (executed "apply" (snd r) = true -> In ("validate", true) (stages (snd r)))
    /\ (forall captured, In ("output", captured) (stages (snd r)) ->
                         executed "checks" (snd r) = true)
    /\ (executed "checks" (snd r) = true -> executed "output" (snd r) = true)
    /\ (executed "destroy" (snd r) = true ->
        exists cmd success output,
          In (Terraform "plan_2" cmd success output) (snd r)
          /\ zero_change_marker output = true)
    /\ (pass (fst r) = true -> map fst (stages (snd r)) = stage_names).
Proof.
  intros tf_vars logs_dir w r. subst r.
  run_cases tf_vars logs_dir w.
  all: split;
    [ first [ exists 0; reflexivity | exists 1; reflexivity | exists 2; reflexivity
            | exists 3; reflexivity | exists 4; reflexivity | exists 5; reflexivity
            | exists 6; reflexivity | exists 7; reflexivity | exists 8; reflexivity
            | exists 9; reflexivity | exists 10; reflexivity ] | ].
  all: split;
    [ intros a b Hab Hb; unfold gated in Hab;
      repeat (destruct Hab as [Hab|Hab];
              [ injection Hab as <- <-; first [ discriminate Hb | cbn; in_list ] | ]);
      contradiction | ].
  all: split; [ intros Hb; first [ discriminate Hb | cbn; in_list ] | ].
  all: split; [ intros captured Hb; first [ reflexivity | cbn in Hb; which_event Hb ] | ].
  all: split; [ intros Hb; first [ discriminate Hb | reflexivity ] | ].
  all: split; [ | intros Hb; first [ discriminate Hb | reflexivity ] ].
  all: intros Hb; first [ discriminate Hb | idtac ].
  all: do 3 eexists; split; [ in_list | ]; unfold zero_change_marker.
  all: repeat match goal with H : Py.contains _ _ = _ |- _ => rewrite H end; reflexivity.
Qed.

Lemma stages_run_in_order_witness :
  map fst (stages (snd (run [] "results/logs" all_green))) = stage_names
  /\ In ("validate", true) (stages (snd (run [] "results/logs" all_green)))
  /\ executed "checks" (snd (run [] "results/logs" no_outputs_captured)) = true.
Proof.
  pose proof (stages_run_in_order [] "results/logs" all_green) as H.
  pose proof (stages_run_in_order [] "results/logs" no_outputs_captured) as H'.
  cbv zeta in H, H'.
  destruct H as (_ & _ & Hvalidate & _ & _ & _ & Hall).
  destruct H' as (_ & _ & _ & Hchecks & _).
  split; [ | split ].
  - apply Hall. reflexivity.
  - apply Hvalidate. reflexivity.
  - apply (Hchecks false). vm_compute. in_list.
Defined.

(** C5, as the claim states it, fails between output capture and checks:
    [terraform output -json] does not succeed and the checks are run and
    recorded all the same. *)
Lemma checks_run_after_failed_output_capture :
  let r := run [] "results/logs" no_outputs_captured in
  In ("output", false) (stages (snd r))
  /\ executed "checks" (snd r) = true
  /\ In "checks" (timings (fst r))
  /\ check_result (fst r) = Some (failing_check ["outputs.json not found"]).
Proof.
  vm_compute. repeat split; in_list.
Qed.

(** C1, as the code has it, for a run that reaches the second plan.  The
    stage fails with IDEMPOTENCY when the output has neither zero-change
    marker, and when the plan did not succeed and its output, in lower
    case, contains "timed out", which it does after a timeout.  When the
    output contains "No changes" there is no other failure: the stage fails
    exactly when the plan did not succeed and its output contains
    "timed out", and destroy is run otherwise. *)
Theorem idempotency_verdict :
  forall tf_vars logs_dir w cmd success output,
    In (Terraform "plan_2" cmd success output) (snd (run tf_vars logs_dir w)) ->
    let r := run tf_vars logs_dir w in
    let fails := failure_category (fst r) = Some "IDEMPOTENCY" /\ pass (fst r) = false in
    let timed_out := Py.contains "timed out" (Py.lower output) in
    (zero_change_marker output = false -> fails)
    /\ (success = false -> timed_out = true -> fails)
    /\ (run_command w (["terraform"; "plan"] ++ tf_vars)%list = TimeoutExpired -> fails)
    /\ (Py.contains "No changes" output = true ->
        (fails <-> success = false /\ timed_out = true))
    /\ (Py.contains "No changes" output = true ->
        success = true \/ timed_out = false ->
        failure_category (fst r) <> Some "IDEMPOTENCY"
        /\ executed "destroy" (snd r) = true).
Proof.
  intros tf_vars logs_dir w cmd success output Hin r fails timed_out.
  subst r fails timed_out.
  run_cases tf_vars logs_dir w.
  all: which_event Hin.
  all: injection Hin as <- <- <-.
  all: split; [ intros Hz | split; [ intros Hs Ht | split; [ intros Hto | split; [ intros Hnc | intros Hnc Hor ] ] ] ].
  all: try (split; reflexivity).
  all: try (apply Bool.orb_false_iff in Hz; destruct Hz; congruence).
  all: try congruence.
  all: try (split; [ discriminate | reflexivity ]).
  all: try (destruct Hor; congruence).
  all: try (split; [ intros [Hc Hp]; first [ discriminate Hc | discriminate Hp | split; congruence ]
                   | intros [Hs Ht]; first [ discriminate Hs | congruence | split; reflexivity ] ]).
  all: cbn in Hto; rewrite Hto in *.
  all: match goal with
       | H : attempt "plan_2" _ TimeoutExpired = _ |- _ => inversion H; subst
       end.
  all: match goal with
       | H : Py.contains "timed out" _ = false |- _ => vm_compute in H; discriminate H
       end.
Qed.

Lemma idempotency_verdict_witness :
  let r := run [] "results/logs" (but ["terraform"; "plan"] TimeoutExpired all_green) in
  failure_category (fst r) = Some "IDEMPOTENCY" /\ pass (fst r) = false.
Proof.
  assert (Hin : In (Terraform "plan_2" ["terraform"; "plan"] false
                              "Terraform plan_2 timed out after 120s")
                   (snd (run [] "results/logs"
                             (but ["terraform"; "plan"] TimeoutExpired all_green)))).
  { vm_compute. in_list. }
  destruct (idempotency_verdict _ _ _ _ _ _ Hin) as (_ & _ & Htimeout & _).
  apply Htimeout. reflexivity.
Defined.

(** C1, as the claim states it, fails.  A second plan that fails with
    "No changes" in its output does not fail the stage, so a failure of the
    second plan is not mapped to IDEMPOTENCY: the run goes on to destroy and
    passes.  A second plan that fails with "timed out" in its output fails
    the stage although the output has the zero-change marker, and so does a
    second plan that succeeds with the count of changes, all zero, as its
    only marker. *)
Lemma second_plan_failure_is_not_the_verdict :
  (let r := run [] "results/logs" second_plan_fails_unchanged in
   In (Terraform "plan_2" ["terraform"; "plan"] false unchanged_but_failed) (snd r)
   /\ failure_category (fst r) = None
   /\ pass (fst r) = true
   /\ executed "destroy" (snd r) = true)
  /\
  (let r := run [] "results/logs" second_plan_fails_timed_out in
   In (Terraform "plan_2" ["terraform"; "plan"] false unchanged_but_timed_out) (snd r)
   /\ Py.contains "No changes" unchanged_but_timed_out = true
   /\ failure_category (fst r) = Some "IDEMPOTENCY"
   /\ pass (fst r) = false)
  /\
  (let r := run [] "results/logs" second_plan_counts_zero in
   In (Terraform "plan_2" ["terraform"; "plan"] true counted_zero) (snd r)
   /\ zero_change_marker counted_zero = true
   /\ failure_category (fst r) = Some "IDEMPOTENCY"
   /\ pass (fst r) = false).
Proof.
  vm_compute. repeat split; in_list.
Qed.

(** ** What a result says of the run *)

(** X1: LocalStack is checked before anything else: a run has the category
    LOCALSTACK exactly when the emulator is down, and exactly then it has
    run no command and no check, and recorded nothing. *)
Theorem nothing_runs_while_the_emulator_is_down :
  forall tf_vars logs_dir w,
    let r := run tf_vars logs_dir w in
    (check_localstack w = false <-> failure_category (fst r) = Some "LOCALSTACK")
    /\ (check_localstack w = false <-> snd r = [])
    /\ (check_localstack w = false ->
        timings (fst r) = [] /\ tool_exit_codes (fst r) = [] /\ logs (fst r) = []
        /\ check_result (fst r) = None).
Proof.
  intros tf_vars logs_dir w r. subst r.
  run_cases tf_vars logs_dir w.
  all: cbn [check_localstack].
  all: repeat split; intros; try reflexivity; try discriminate.
Qed.

Lemma nothing_runs_while_the_emulator_is_down_witness :
  snd (run [] "results/logs" emulator_down) = [].
Proof.
  apply (proj1 (proj1 (proj2 (nothing_runs_while_the_emulator_is_down
                                [] "results/logs" emulator_down)))).
  reflexivity.
Defined.

(** X2: the category of a failed run names the last stage it executed:
    apart from LOCALSTACK, the category is the one of that stage, and the
    stage did not succeed, unless it is the second plan. *)
Theorem the_category_names_the_last_stage :
  forall tf_vars logs_dir w c,
    let r := run tf_vars logs_dir w in
    failure_category (fst r) = Some c ->
    c = "LOCALSTACK"
    \/ exists stage ok,
         last (stages (snd r)) ("", true) = (stage, ok)
         /\ category_of stage = Some c
         /\ (stage <> "plan_2" -> ok = false).
Proof.
  intros tf_vars logs_dir w c r. subst r.
  run_cases tf_vars logs_dir w.
  all: intros Hc; try discriminate Hc; injection Hc as <-.
  all: first [ left; reflexivity | right ].
  all: do 2 eexists; split; [ reflexivity | split; [ reflexivity | ] ].
  all: intros Hne; first [ reflexivity | exfalso; apply Hne; reflexivity ].
Qed.

Lemma the_category_names_the_last_stage_witness :
  "PLAN" = "LOCALSTACK"
  \/ exists stage ok,
       last (stages (snd (run [] "results/logs" plan_fails))) ("", true) = (stage, ok)
       /\ category_of stage = Some "PLAN"
       /\ (stage <> "plan_2" -> ok = false).
Proof.
  apply (the_category_names_the_last_stage [] "results/logs" plan_fails "PLAN").
  reflexivity.
Defined.

(** X3: a run passes exactly when destroy succeeded, and exactly then the
    timing "total" is recorded; in a run that passes, a stage that did not
    succeed can only be the capture of the outputs or the second plan, and
    the result of the checks is recorded and passes. *)
Theorem what_a_passing_run_did :
  forall tf_vars logs_dir w,
    let r := run tf_vars logs_dir w in
    (pass (fst r) = true <-> In ("destroy", true) (stages (snd r)))
    /\ (pass (fst r) = true <-> In "total" (timings (fst r)))
    /\ (pass (fst r) = true ->
        (forall stage, In (stage, false) (stages (snd r)) ->
                       stage = "output" \/ stage = "plan_2")
        /\ exists c, check_result (fst r) = Some c /\ Checks.cr_pass c = true).
Proof.
  intros tf_vars logs_dir w r. subst r.
  run_cases tf_vars logs_dir w.
  all: cbn [timings check_result].
  all: split; [ split; [ intros H; first [ discriminate H | cbn; in_list ]
                       | intros H; first [ reflexivity | cbn in H; which_event H ] ] | ].
  all: split; [ split; [ intros H; first [ discriminate H | in_list ]
                       | intros H; first [ reflexivity | which_event H ] ] | ].
  all: intros H; try discriminate H.
  all: split; [ intros stage Hs; cbn in Hs; which_event Hs;
                injection Hs as <-; auto
              | eexists; split; reflexivity ].
Qed.

Lemma what_a_passing_run_did_witness :
  In "total" (timings (fst (run [] "results/logs" all_green))).
Proof.
  apply (proj1 (proj1 (proj2 (what_a_passing_run_did [] "results/logs" all_green)))).
  reflexivity.
Defined.

Lemma attempt_code step_name timeout p success output exit_code :
  attempt step_name timeout p = (success, output, exit_code) ->
  success = succeeded exit_code
  /\ (exit_code = None <-> forall z out err, p <> Completed z out err).
Proof.
  destruct p; cbn; intros [= <- <- <-]; (split; [ reflexivity | ]).
  - split; [ discriminate | intros H; exfalso; eapply H; reflexivity ].
  - split; [ intros _ z out err; discriminate | reflexivity ].
  - split; [ intros _ z out err; discriminate | reflexivity ].
Qed.

Lemma get_In {V} (d : Py.dict V) k v : Py.get d k = Some v -> In (k, v) d.
Proof.
  induction d as [|[k' v'] d IH]; cbn; [ discriminate | ].
  destruct (String.eqb_spec k k') as [->|_].
  - intros [= ->]. now left.
  - intros H. right. auto.
Qed.

Ltac codes :=
  repeat match goal with
         | H : attempt _ _ _ = _ |- _ => apply attempt_code in H; destruct H as (H & _)
         end.

(** X4: the exit codes of the result tell which steps succeeded: a step
    other than "apply_2" whose exit code is recorded was executed, and it
    succeeded exactly when the code is 0 (a code that is null, after a
    timeout or an exception, is a failure); no code is recorded for the
    capture of the outputs; no command "apply_2" is ever run, and the code
    recorded under that name is the one of the second plan; the logs have
    the keys of the exit codes. *)
Theorem exit_codes_tell_success :
  forall tf_vars logs_dir w,
    let r := run tf_vars logs_dir w in
    (forall step exit_code,
        Py.get (tool_exit_codes (fst r)) step = Some exit_code ->
        step <> "apply_2" ->
        In (step, succeeded exit_code) (stages (snd r)))
    /\ Py.get (tool_exit_codes (fst r)) "output" = None
    /\ executed "apply_2" (snd r) = false
    /\ (forall exit_code,
           Py.get (tool_exit_codes (fst r)) "apply_2" = Some exit_code ->
           Py.get (tool_exit_codes (fst r)) "plan_2" = Some exit_code)
    /\ Py.keys (logs (fst r)) = Py.keys (tool_exit_codes (fst r)).
Proof.
  intros tf_vars logs_dir w r. subst r.
  run_cases tf_vars logs_dir w.
  all: cbn [tool_exit_codes logs].
  all: split;
    [ intros step exit_code Hget Hne; apply get_In in Hget; codes;
      which_event Hget; injection Hget as <- <-;
      first [ exfalso; apply Hne; reflexivity
            | match goal with
              | H : _ = succeeded ?o |- context [succeeded ?o] => rewrite <- H
              end; cbn; in_list ] | ].
  all: split; [ reflexivity | ].
  all: split; [ reflexivity | ].
  all: split; [ intros exit_code H; first [ discriminate H | exact H ] | reflexivity ].
Qed.

Lemma exit_codes_tell_success_witness :
  In ("plan", succeeded (Some 1%Z)) (stages (snd (run [] "results/logs" plan_fails))).
Proof.
  apply (proj1 (exit_codes_tell_success [] "results/logs" plan_fails)).
  - reflexivity.
  - discriminate.
Defined.

End RunnerProperties.

(* ================================================================== *)
(** * Properties of the benchmark *)
(* ================================================================== *)

Section BenchmarkProperties.

Import Generate Benchmark.

(** Replacing one character by another keeps the length, leaves none of
    the first, and brings in no third character. *)
Lemma replace_char a b : a <> b -> forall s,
  String.length (replace s (String a "") (String b "")) = String.length s
  /\ Py.contains (String a "") (replace s (String a "") (String b "")) = false
  /\ forall c, c <> b -> Py.contains (String c "") s = false ->
               Py.contains (String c "") (replace s (String a "") (String b "")) = false.
Proof.
  intros Hab. unfold replace. induction s as [|c s (IHl & IHa & IHc)].
  - repeat split.
  - cbn [replace_from Py.startswith String.length Nat.pred].
    replace (Py.startswith s "") with true by (destruct s; reflexivity).
    rewrite andb_true_r.
    destruct (Ascii.eqb_spec a c) as [<-|Hac]; cbn [append String.length].
    + rewrite IHl. split; [ reflexivity | ]. rewrite contains_char, IHa.
      assert (Ascii.eqb a b = false) as -> by now apply Ascii.eqb_neq.
      split; [ reflexivity | ].
      intros d Hd. rewrite !contains_char. intros H. apply orb_false_iff in H.
      destruct H as (_ & H). rewrite (IHc d Hd H).
      assert (Ascii.eqb d b = false) as -> by now apply Ascii.eqb_neq.
      reflexivity.
    + rewrite IHl. split; [ reflexivity | ]. rewrite contains_char, IHa.
      assert (Ascii.eqb a c = false) as -> by now apply Ascii.eqb_neq.
      split; [ reflexivity | ].
      intros d Hd. rewrite !contains_char. intros H. apply orb_false_iff in H.
      destruct H as (-> & H). now rewrite (IHc d Hd H).
Qed.

(** X17: the part of a model's directory name that comes from the model's name
    is as long as it and has neither "-" nor "/": with a provider without
    "/", the results of a model are one directory. *)
Theorem the_directory_of_a_model_is_one_level :
  forall provider model,
    exists part,
      model_name provider model = provider ++ "_" ++ part
      /\ String.length part = String.length model
      /\ Py.contains "/" part = false
      /\ Py.contains "-" part = false.
Proof.
  intros provider model. unfold model_name. eexists. split; [ reflexivity | ].
  destruct (replace_char "-" "_" ltac:(discriminate) model) as (Hl1 & Ha1 & _).
  destruct (replace_char "/" "_" ltac:(discriminate) (replace model "-" "_"))
    as (Hl2 & Ha2 & Hc2).
  split; [ congruence | ]. split; [ exact Ha2 | ].
  apply Hc2; [ discriminate | exact Ha1 ].
Qed.

End BenchmarkProperties.
